(** * bookstoscrape: the crawler and the change detector, embedded in Rocq

    A shallow embedding of the Python modules
      - [app/crawler/utils.py]            (module [Utils]),
      - [app/models/book.py], [app/models/change_log.py] (module [Models]),
      - [app/database/book_repository.py],
        [app/database/change_log_repository.py] (module [Repository]),
      - [app/crawler/change_detector.py]  (module [Detector]),
      - [app/crawler/crawler.py]          (module [Crawl]),
    followed by the properties of the specification that were checked
    against them.

    Conventions.
      - Python [str] is [string] (a byte string; case folding and
        whitespace are the ASCII ones), [int] is [Z], [float] is the
        binary64 [float] of [Floats], [Optional[T]] is [option T].
      - A Python [dict] is a [gmap string pyval]; where the insertion order
        is observed ([rating_map.items()], [changes.keys()]) it is an
        association list or the list of its keys.
      - The MongoDB collections are lists of documents in insertion order;
        [find_one] and [update_one] act on the first matching document.
        A document of [books] is a record of its typed fields; an instant
        ([datetime]) is an integer, at the resolution the database keeps.
        The unique indexes that [init_database] puts on the [id] and the
        [source_url] of a book are not part of the collections: a
        statement about a document that is inserted says that its
        identifier and its URL are new to the collection.
      - An exception is the name of its class.
      - The clock ([datetime.utcnow]), the identifier source ([uuid4]),
        [hashlib.sha256], [json.dumps], the HTTP server, the sleep of the
        backoff ([asyncio.sleep(backoff_factor ** attempt)]) and the
        BeautifulSoup selectors are parameters of the sections that use
        them. *)

From Stdlib Require Import ZArith Floats String Ascii List Bool Lia.
From stdpp Require Import gmap strings list fin_maps pretty.

Open Scope string_scope.
Open Scope Z_scope.

(** A decimal literal of type [float] denotes the nearest binary64 value,
    as it does in Python. *)
Set Warnings "-inexact-float".

(* ===================================================================== *)
(** * Python values and outcomes *)
(* ===================================================================== *)

(** The values that occur in the dictionaries of the program. *)
Inductive pyval : Type :=
  | VNone
  | VStr (s : string)
  | VInt (z : Z)
  | VFloat (f : float)
  | VDatetime (t : Z).

(** A call either returns a value or raises. *)
Inductive outcome (A : Type) : Type :=
  | Returned (a : A)
  | Raised (exc : string).
Arguments Returned {A} a.
Arguments Raised {A} exc.

(** Equality of two binary64 values is decided on their decoded form. *)
#[global] Instance spec_float_eq_dec : EqDecision spec_float.
Proof. solve_decision. Defined.

#[global] Instance float_eq_dec : EqDecision float.
Proof.
  intros x y. destruct (decide (Prim2SF x = Prim2SF y)) as [H|H].
  - left. exact (Prim2SF_inj x y H).
  - right. intros ->. exact (H eq_refl).
Defined.

(** Truthiness of an [Optional[str]]: [None] and the empty string are
    falsy. *)
Definition truthy_str (o : option string) : bool :=
  match o with
  | None => false
  | Some s => negb (String.eqb s EmptyString)
  end.

(* ===================================================================== *)
(** * app/crawler/utils.py *)
(* ===================================================================== *)

Module Utils.

(** ** String primitives used by [rating_to_int] *)

(** [c.lower()] for an ASCII character. *)
Definition lower_ascii (c : ascii) : ascii :=
  let n := N_of_ascii c in
  if ((65 <=? n) && (n <=? 90))%N then ascii_of_N (n + 32) else c.

(** [s.lower()]. *)
Fixpoint py_lower (s : string) : string :=
  match s with
  | EmptyString => EmptyString
  | String c r => String (lower_ascii c) (py_lower r)
  end.

(** [c.isspace()] for an ASCII character: TAB, LF, VT, FF, CR, FS, GS, RS,
    US and the space. *)
Definition is_space (c : ascii) : bool :=
  let n := N_of_ascii c in
  (((9 <=? n) && (n <=? 13)) || ((28 <=? n) && (n <=? 32)))%N.

(** [s.lstrip()]. *)
Fixpoint py_lstrip (s : string) : string :=
  match s with
  | EmptyString => EmptyString
  | String c r => if is_space c then py_lstrip r else s
  end.

(** [s.rstrip()]: a character is kept when it is not a space or when
    something is kept behind it. *)
Fixpoint py_rstrip (s : string) : string :=
  match s with
  | EmptyString => EmptyString
  | String c r =>
      match py_rstrip r with
      | EmptyString => if is_space c then EmptyString else String c EmptyString
      | r' => String c r'
      end
  end.

(** [s.strip()]. *)
Definition py_strip (s : string) : string := py_rstrip (py_lstrip s).

(** [text.startswith(key)]. *)
Fixpoint starts_with (key text : string) : bool :=
  match key, text with
  | EmptyString, _ => true
  | String _ _, EmptyString => false
  | String a k, String b t => Ascii.eqb a b && starts_with k t
  end.

(** [key in text] for strings: [key] occurs at some position of [text]. *)
Fixpoint str_in (key text : string) : bool :=
  starts_with key text ||
  match text with
  | EmptyString => false
  | String _ t => str_in key t
  end.

(** ** [rating_to_int] *)

(** The dictionary [rating_map], in insertion order (the order in which
    [rating_map.items()] yields its entries). *)
Definition rating_map : list (string * Z) :=
  [("zero", 0); ("one", 1); ("two", 2); ("three", 3); ("four", 4); ("five", 5)].

(** The loop [for key, value in rating_map.items(): if key in rating_text:
    return value], with [return 0] behind it. *)
Fixpoint first_match (items : list (string * Z)) (rating_text : string) : Z :=
  match items with
  | [] => 0
  | (key, value) :: rest =>
      if str_in key rating_text then value else first_match rest rating_text
  end.

Definition rating_to_int (rating_text : string) : Z :=
  let rating_text := py_strip (py_lower rating_text) in
  first_match rating_map rating_text.

(** ** [generate_data_hash] *)

Section Hash.

(** [json.dumps(d, sort_keys=True)] and
    [hashlib.sha256(s.encode('utf-8')).hexdigest()]. *)
Variable json_dumps_sorted : gmap string pyval -> string.
Variable sha256_hexdigest : string -> string.

(** [data.get(key, default)]. *)
Definition dict_get (data : gmap string pyval) (key : string) (default : pyval) : pyval :=
  match data !! key with
  | Some v => v
  | None => default
  end.

Definition significant_fields (data : gmap string pyval) : gmap string pyval :=
  <["name" := dict_get data "name" (VStr EmptyString)]>
  (<["price_including_tax" := dict_get data "price_including_tax" (VInt 0)]>
  (<["price_excluding_tax" := dict_get data "price_excluding_tax" (VInt 0)]>
  (<["availability" := dict_get data "availability" (VStr EmptyString)]>
  (<["rating" := dict_get data "rating" (VInt 0)]> ∅)))).

Definition generate_data_hash (data : gmap string pyval) : string :=
  let json_str := json_dumps_sorted (significant_fields data) in
  sha256_hexdigest json_str.

End Hash.

End Utils.

(* ===================================================================== *)
(** * app/models/book.py and app/models/change_log.py *)
(* ===================================================================== *)

Module BookCreate.
Record t : Type := mk {
  name : string;
  description : option string;
  category : string;
  price_including_tax : float;
  price_excluding_tax : float;
  availability : string;
  number_of_reviews : Z;
  image_url : option string;
  rating : Z;
  source_url : string;
  raw_html : option string
}.
End BookCreate.

Module Book.
Record t : Type := mk {
  id : string;
  name : string;
  description : option string;
  category : string;
  price_including_tax : float;
  price_excluding_tax : float;
  availability : string;
  number_of_reviews : Z;
  image_url : option string;
  rating : Z;
  source_url : string;
  crawl_timestamp : Z;
  status : string;
  raw_html : option string;
  data_hash : option string
}.
End Book.

#[global] Instance Book_eq_dec : EqDecision Book.t.
Proof. solve_decision. Defined.

Module ChangeLogCreate.
Record t : Type := mk {
  book_id : string;
  changed_fields : gmap string pyval;
  old_values : gmap string pyval;
  new_values : gmap string pyval;
  change_type : string
}.
End ChangeLogCreate.

Module ChangeLog.
Record t : Type := mk {
  id : string;
  book_id : string;
  changed_fields : gmap string pyval;
  old_values : gmap string pyval;
  new_values : gmap string pyval;
  change_type : string;
  timestamp : Z
}.
End ChangeLog.

Module Models.

(** An argument handed to a field declared [Dict[str, Any]]: the program
    passes a dictionary at one call site and [list(changes.keys())] at the
    other. *)
Inductive dict_arg : Type :=
  | ADict (d : gmap string pyval)
  | AList (l : list string).

Definition opt_str (o : option string) : pyval :=
  match o with
  | Some s => VStr s
  | None => VNone
  end.

(** [BookCreate.serialize_url]: [str(value) if value else None]. *)
Definition serialize_url (value : option string) : pyval := opt_str value.

(** [BookCreate.model_dump()]. *)
Definition model_dump (b : BookCreate.t) : gmap string pyval :=
  <["name" := VStr (BookCreate.name b)]>
  (<["description" := opt_str (BookCreate.description b)]>
  (<["category" := VStr (BookCreate.category b)]>
  (<["price_including_tax" := VFloat (BookCreate.price_including_tax b)]>
  (<["price_excluding_tax" := VFloat (BookCreate.price_excluding_tax b)]>
  (<["availability" := VStr (BookCreate.availability b)]>
  (<["number_of_reviews" := VInt (BookCreate.number_of_reviews b)]>
  (<["image_url" := serialize_url (BookCreate.image_url b)]>
  (<["rating" := VInt (BookCreate.rating b)]>
  (<["source_url" := serialize_url (Some (BookCreate.source_url b))]>
  (<["raw_html" := opt_str (BookCreate.raw_html b)]> ∅)))))))))).

(** [Book(...)] on the fields of a document: pydantic validates them
    against the declared field types, and [rating] is declared
    [Field(..., ge=0, le=5)] (a [BookCreate] has a plain [rating: int]): a
    rating outside of 0..5 raises [ValidationError]. *)
Definition new_Book (book_doc : Book.t) : outcome Book.t :=
  if (0 <=? Book.rating book_doc) && (Book.rating book_doc <=? 5)
  then Returned book_doc
  else Raised "ValidationError".

(** [ChangeLogCreate(book_id=..., changed_fields=..., ...)]: pydantic
    validates the arguments against the declared field types when the model
    is built, and [changed_fields] is declared [Dict[str, Any]]: a list is
    not a valid dictionary and the constructor raises [ValidationError]. *)
Definition new_ChangeLogCreate (book_id : string) (changed_fields : dict_arg)
    (old_values new_values : gmap string pyval) (change_type : string)
  : outcome ChangeLogCreate.t :=
  match changed_fields with
  | ADict d => Returned (ChangeLogCreate.mk book_id d old_values new_values change_type)
  | AList _ => Raised "ValidationError"
  end.

End Models.

(* ===================================================================== *)
(** * The database and the monad of the repository calls *)
(* ===================================================================== *)

(** The two collections, with the number of clock readings and of
    identifiers drawn so far. *)
Record database : Type := mk_database {
  books : list Book.t;
  change_logs : list ChangeLog.t;
  clock_reads : nat;
  uuid_draws : nat
}.

Definition empty_database : database := mk_database [] [] 0 0.

(** A call reads and writes the database and returns or raises; what was
    written before an exception stays written. *)
Definition io (A : Type) : Type := database -> outcome A * database.

Definition ret {A} (a : A) : io A := fun db => (Returned a, db).

Definition raise {A} (exc : string) : io A := fun db => (Raised exc, db).

Definition bind {A B} (c : io A) (k : A -> io B) : io B :=
  fun db =>
    match c db with
    | (Returned a, db') => k a db'
    | (Raised exc, db') => (Raised exc, db')
    end.

(** An outcome met inside a coroutine: its exception propagates. *)
Definition lift {A} (o : outcome A) : io A :=
  match o with
  | Returned a => ret a
  | Raised exc => raise exc
  end.

Declare Scope io_scope.
Delimit Scope io_scope with io.
Notation "x <- c ;; k" := (bind c (fun x => k))
  (at level 100, c at next level, right associativity) : io_scope.
Notation "c ;;; k" := (bind c (fun _ => k))
  (at level 100, right associativity) : io_scope.

(* ===================================================================== *)
(** * app/database/book_repository.py, change_log_repository.py *)
(* ===================================================================== *)

Module Repository.

Import Models.

(** The [Book] that [create] and [upsert_by_url] build from their
    [book_dict], itself built from [book_data.model_dump()]. *)
Definition book_of (id : string) (b : BookCreate.t) (crawl_timestamp : Z)
    (status : string) (data_hash : string) : Book.t :=
  Book.mk id (BookCreate.name b) (BookCreate.description b) (BookCreate.category b)
    (BookCreate.price_including_tax b) (BookCreate.price_excluding_tax b)
    (BookCreate.availability b) (BookCreate.number_of_reviews b)
    (BookCreate.image_url b) (BookCreate.rating b) (BookCreate.source_url b)
    crawl_timestamp status (BookCreate.raw_html b) (Some data_hash).

(** The fields a [$set] document assigns.  A key that is absent, or whose
    value has not the type of the field, leaves the field as it is (the
    program only sends values of the field's type). *)
Definition set_str (u : gmap string pyval) (key : string) (old : string) : string :=
  match u !! key with Some (VStr s) => s | _ => old end.

Definition set_opt_str (u : gmap string pyval) (key : string) (old : option string)
  : option string :=
  match u !! key with Some (VStr s) => Some s | Some VNone => None | _ => old end.

Definition set_int (u : gmap string pyval) (key : string) (old : Z) : Z :=
  match u !! key with Some (VInt z) => z | _ => old end.

Definition set_float (u : gmap string pyval) (key : string) (old : float) : float :=
  match u !! key with Some (VFloat f) => f | _ => old end.

Definition set_datetime (u : gmap string pyval) (key : string) (old : Z) : Z :=
  match u !! key with Some (VDatetime t) => t | _ => old end.

(** The effect of [{"$set": update_data}] on one document. *)
Definition apply_set (u : gmap string pyval) (b : Book.t) : Book.t :=
  Book.mk
    (set_str u "id" (Book.id b))
    (set_str u "name" (Book.name b))
    (set_opt_str u "description" (Book.description b))
    (set_str u "category" (Book.category b))
    (set_float u "price_including_tax" (Book.price_including_tax b))
    (set_float u "price_excluding_tax" (Book.price_excluding_tax b))
    (set_str u "availability" (Book.availability b))
    (set_int u "number_of_reviews" (Book.number_of_reviews b))
    (set_opt_str u "image_url" (Book.image_url b))
    (set_int u "rating" (Book.rating b))
    (set_str u "source_url" (Book.source_url b))
    (set_datetime u "crawl_timestamp" (Book.crawl_timestamp b))
    (set_str u "status" (Book.status b))
    (set_opt_str u "raw_html" (Book.raw_html b))
    (set_opt_str u "data_hash" (Book.data_hash b)).

(** [collection.find_one(filter)]: the first document that matches. *)
Fixpoint find_one {A} (p : A -> bool) (docs : list A) : option A :=
  match docs with
  | [] => None
  | d :: rest => if p d then Some d else find_one p rest
  end.

(** [collection.update_one(filter, {"$set": u})]: the first document that
    matches is updated, the others are left alone. *)
Fixpoint update_one {A} (p : A -> bool) (f : A -> A) (docs : list A) : list A :=
  match docs with
  | [] => []
  | d :: rest => if p d then f d :: rest else d :: update_one p f rest
  end.

(** [result.modified_count] of that [update_one]: 1 when a document
    matched and the update changed it, 0 otherwise. *)
Definition modified_count (p : Book.t -> bool) (f : Book.t -> Book.t)
    (docs : list Book.t) : nat :=
  match find_one p docs with
  | Some d => if bool_decide (f d = d) then 0%nat else 1%nat
  | None => 0%nat
  end.

Definition by_id (book_id : string) (b : Book.t) : bool :=
  String.eqb (Book.id b) book_id.

Definition by_url (url : string) (b : Book.t) : bool :=
  String.eqb (Book.source_url b) url.

(** The driver encodes a Python [int] in at most 8 bytes: [insert_one] and
    [update_one] raise [OverflowError] on a document that holds a larger
    one, before anything is sent to the database. *)
Definition fits_int64 (z : Z) : bool := (- 2 ^ 63 <=? z) && (z <? 2 ^ 63).

Definition encodable_value (v : pyval) : bool :=
  match v with
  | VInt z => fits_int64 z
  | _ => true
  end.

Definition encodable (d : gmap string pyval) : bool :=
  bool_decide (map_Forall (fun _ v => encodable_value v = true) d).

(** The same for a document of [books], whose integers are its
    [number_of_reviews] and its [rating]. *)
Definition encodable_book (b : Book.t) : bool :=
  fits_int64 (Book.number_of_reviews b) && fits_int64 (Book.rating b).

Section BookRepository.

Variable json_dumps_sorted : gmap string pyval -> string.
Variable sha256_hexdigest : string -> string.
(** [datetime.utcnow()] at the n-th reading of the clock and [str(uuid4())]
    at the n-th draw. *)
Variable utcnow : nat -> Z.
Variable uuid4 : nat -> string.

Local Abbreviation generate_data_hash :=
  (Utils.generate_data_hash json_dumps_sorted sha256_hexdigest).

Definition now : io Z := fun db =>
  (Returned (utcnow (clock_reads db)),
   mk_database (books db) (change_logs db) (S (clock_reads db)) (uuid_draws db)).

Definition new_uuid : io string := fun db =>
  (Returned (uuid4 (uuid_draws db)),
   mk_database (books db) (change_logs db) (clock_reads db) (S (uuid_draws db))).

(** [self.collection.insert_one(book_dict)]. *)
Definition insert_book (b : Book.t) : io unit := fun db =>
  if encodable_book b then
    (Returned tt,
     mk_database (books db ++ [b]) (change_logs db) (clock_reads db) (uuid_draws db))
  else (Raised "OverflowError", db).

(** [self.collection.update_one(filter, {"$set": u})], with its
    [modified_count]. *)
Definition update_book (p : Book.t -> bool) (u : gmap string pyval) : io nat := fun db =>
  if encodable u then
    (Returned (modified_count p (apply_set u) (books db)),
     mk_database (update_one p (apply_set u) (books db)) (change_logs db)
       (clock_reads db) (uuid_draws db))
  else (Raised "OverflowError", db).

(** [self.collection.insert_one(change_dict)]. *)
Definition insert_change_log (c : ChangeLog.t) : io unit := fun db =>
  if encodable (ChangeLog.changed_fields c) && encodable (ChangeLog.old_values c)
     && encodable (ChangeLog.new_values c) then
    (Returned tt,
     mk_database (books db) (change_logs db ++ [c]) (clock_reads db) (uuid_draws db))
  else (Raised "OverflowError", db).

(** [book_doc = await self.collection.find_one(filter)] followed by
    [if book_doc: return Book(...)] and [return None]. *)
Definition find_book (p : Book.t -> bool) : io (option Book.t) := fun db =>
  match find_one p (books db) with
  | Some book_doc =>
      match new_Book book_doc with
      | Returned book => (Returned (Some book), db)
      | Raised exc => (Raised exc, db)
      end
  | None => (Returned None, db)
  end.

(** The dictionary [book_dict] of [create] and [upsert_by_url], before
    its ["id"] and ["data_hash"] are set. *)
Definition book_dict (b : BookCreate.t) (t : Z) : gmap string pyval :=
  <["status" := VStr "active"]> (<["crawl_timestamp" := VDatetime t]> (model_dump b)).

(** [BookRepository.create]: the document is inserted and the [Book] is
    built after that. *)
Definition create (book_data : BookCreate.t) : io Book.t :=
  (id <- new_uuid ;;
   t <- now ;;
   let h := generate_data_hash
              (<["status" := VStr "active"]>
               (<["crawl_timestamp" := VDatetime t]>
                (<["id" := VStr id]> (model_dump book_data)))) in
   let book := book_of id book_data t "active" h in
   insert_book book ;;;
   lift (new_Book book))%io.

(** [BookRepository.get_by_id]. *)
Definition get_by_id (book_id : string) : io (option Book.t) :=
  find_book (by_id book_id).

(** [BookRepository.get_by_url]. *)
Definition get_by_url (url : string) : io (option Book.t) :=
  find_book (by_url url).

(** [BookRepository.update]: the clock is read into
    [update_data["crawl_timestamp"]], the document with this id is updated,
    and it is read back when the update modified it. *)
Definition update (book_id : string) (update_data : gmap string pyval)
  : io (option Book.t) :=
  (t <- now ;;
   modified <- update_book (by_id book_id)
                 (<["crawl_timestamp" := VDatetime t]> update_data) ;;
   if (0 <? modified)%nat then get_by_id book_id else ret None)%io.

(** [BookRepository.upsert_by_url]: the document is written and the
    [Book] is built after that. *)
Definition upsert_by_url (book_data : BookCreate.t) : io Book.t :=
  (existing <- get_by_url (BookCreate.source_url book_data) ;;
   t <- now ;;
   let d := book_dict book_data t in
   let h := generate_data_hash d in
   match existing with
   | Some e =>
       update_book (by_url (BookCreate.source_url book_data))
         (<["id" := VStr (Book.id e)]> (<["data_hash" := VStr h]> d)) ;;;
       lift (new_Book (book_of (Book.id e) book_data t "active" h))
   | None =>
       id <- new_uuid ;;
       let book := book_of id book_data t "active" h in
       insert_book book ;;;
       lift (new_Book book)
   end)%io.

(** [ChangeLogRepository.create]. *)
Definition create_change_log (c : ChangeLogCreate.t) : io ChangeLog.t :=
  (id <- new_uuid ;;
   t <- now ;;
   let entry := ChangeLog.mk id (ChangeLogCreate.book_id c)
                  (ChangeLogCreate.changed_fields c) (ChangeLogCreate.old_values c)
                  (ChangeLogCreate.new_values c) (ChangeLogCreate.change_type c) t in
   insert_change_log entry ;;;
   ret entry)%io.

End BookRepository.

End Repository.

(* ===================================================================== *)
(** * app/crawler/change_detector.py *)
(* ===================================================================== *)

Module Detector.

Import Models.

(** The dictionary that [_detect_changes] returns; [changed_fields] is
    [list(changes.keys())], in insertion order. *)
Record change_info : Type := mk_change_info {
  changed_fields : list string;
  old_values : gmap string pyval;
  new_values : gmap string pyval
}.

Definition no_changes : change_info := mk_change_info [] ∅ ∅.

(** One block [if <differs>: changes[key] = True; old_values[key] = old;
    new_values[key] = new]. *)
Definition note_change (differs : bool) (key : string) (old new : pyval)
    (ci : change_info) : change_info :=
  if differs
  then mk_change_info (changed_fields ci ++ [key])
         (<[key := old]> (old_values ci)) (<[key := new]> (new_values ci))
  else ci.

(** [abs(old - new) > 0.01]; the literal is the binary64 nearest to 0.01. *)
Definition price_differs (old new : float) : bool :=
  PrimFloat.ltb 0x1.47ae147ae147bp-7%float (PrimFloat.abs (PrimFloat.sub old new)).

(** [ChangeDetector._detect_changes]. *)
Definition _detect_changes (old_book : Book.t) (new_book_data : BookCreate.t)
  : option change_info :=
  let ci := no_changes in
  let ci := note_change
              (bool_decide (Book.name old_book ≠ BookCreate.name new_book_data))
              "name" (VStr (Book.name old_book)) (VStr (BookCreate.name new_book_data)) ci in
  let ci := note_change
              (price_differs (Book.price_including_tax old_book)
                 (BookCreate.price_including_tax new_book_data))
              "price_including_tax" (VFloat (Book.price_including_tax old_book))
              (VFloat (BookCreate.price_including_tax new_book_data)) ci in
  let ci := note_change
              (price_differs (Book.price_excluding_tax old_book)
                 (BookCreate.price_excluding_tax new_book_data))
              "price_excluding_tax" (VFloat (Book.price_excluding_tax old_book))
              (VFloat (BookCreate.price_excluding_tax new_book_data)) ci in
  let ci := note_change
              (bool_decide (Book.availability old_book ≠ BookCreate.availability new_book_data))
              "availability" (VStr (Book.availability old_book))
              (VStr (BookCreate.availability new_book_data)) ci in
  let ci := note_change
              (bool_decide (Book.rating old_book ≠ BookCreate.rating new_book_data))
              "rating" (VInt (Book.rating old_book))
              (VInt (BookCreate.rating new_book_data)) ci in
  let ci := note_change
              (bool_decide (Book.description old_book ≠ BookCreate.description new_book_data))
              "description" (opt_str (Book.description old_book))
              (opt_str (BookCreate.description new_book_data)) ci in
  let ci := note_change
              (bool_decide (Book.number_of_reviews old_book
                            ≠ BookCreate.number_of_reviews new_book_data))
              "number_of_reviews" (VInt (Book.number_of_reviews old_book))
              (VInt (BookCreate.number_of_reviews new_book_data)) ci in
  match changed_fields ci with
  | [] => None
  | _ :: _ => Some ci
  end.

(** [field in changed_fields] for a list of strings. *)
Definition list_in (field : string) (l : list string) : bool :=
  existsb (String.eqb field) l.

(** [ChangeDetector._determine_change_type]. *)
Definition _determine_change_type (changed_fields : list string) : string :=
  if list_in "price_including_tax" changed_fields
     || list_in "price_excluding_tax" changed_fields
  then "price_change"
  else if list_in "availability" changed_fields
  then "availability_change"
  else if list_in "name" changed_fields || list_in "description" changed_fields
  then "metadata_change"
  else if list_in "rating" changed_fields
  then "rating_change"
  else "other_change".

Section ChangeDetector.

Variable json_dumps_sorted : gmap string pyval -> string.
Variable sha256_hexdigest : string -> string.
Variable utcnow : nat -> Z.
Variable uuid4 : nat -> string.

Local Abbreviation generate_data_hash :=
  (Utils.generate_data_hash json_dumps_sorted sha256_hexdigest).
Local Abbreviation get_by_url := Repository.get_by_url.
Local Abbreviation upsert_by_url :=
  (Repository.upsert_by_url json_dumps_sorted sha256_hexdigest utcnow uuid4).
Local Abbreviation update := (Repository.update utcnow).
Local Abbreviation create_change_log := (Repository.create_change_log utcnow uuid4).
Local Abbreviation now := (Repository.now utcnow).

(** Building a [ChangeLogCreate] inside a coroutine: its
    [ValidationError] propagates. *)
Definition build_change_log (book_id : string) (changed : dict_arg)
    (old new : gmap string pyval) (change_type : string) : io ChangeLogCreate.t :=
  match new_ChangeLogCreate book_id changed old new change_type with
  | Returned c => ret c
  | Raised exc => raise exc
  end.

(** [ChangeDetector.process_book].  (The calls of [logger] are left out.) *)
Definition process_book (new_book_data : BookCreate.t)
  : io (option ChangeLogCreate.t) :=
  (existing_book <- get_by_url (BookCreate.source_url new_book_data) ;;
   match existing_book with
   | None =>
       book <- upsert_by_url new_book_data ;;
       change_log <- build_change_log (Book.id book) (ADict ∅) ∅
                       (model_dump new_book_data) "new_book" ;;
       create_change_log change_log ;;;
       ret (Some change_log)
   | Some existing_book =>
       let new_hash := generate_data_hash (model_dump new_book_data) in
       if bool_decide (Book.data_hash existing_book = Some new_hash) then
         t <- now ;;
         update (Book.id existing_book) {["crawl_timestamp" := VDatetime t]} ;;;
         ret None
       else
         match _detect_changes existing_book new_book_data with
         | Some change_info =>
             let change_type := _determine_change_type (changed_fields change_info) in
             let update_data :=
               <["data_hash" := VStr new_hash]> (model_dump new_book_data) in
             update (Book.id existing_book) update_data ;;;
             change_log <- build_change_log (Book.id existing_book)
                             (AList (changed_fields change_info))
                             (old_values change_info) (new_values change_info)
                             change_type ;;
             create_change_log change_log ;;;
             ret (Some change_log)
         | None => ret None
         end
   end)%io.

(** [ChangeDetector.process_books]: an exception of one book is logged
    and the loop goes on. *)
Fixpoint process_books_loop (books : list BookCreate.t)
    (change_logs : list ChangeLogCreate.t)
  : database -> list ChangeLogCreate.t * database :=
  fun db =>
    match books with
    | [] => (change_logs, db)
    | book_data :: rest =>
        match process_book book_data db with
        | (Returned (Some change_log), db') =>
            process_books_loop rest (change_logs ++ [change_log]) db'
        | (Returned None, db') => process_books_loop rest change_logs db'
        | (Raised _, db') => process_books_loop rest change_logs db'
        end
    end.

Definition process_books (books : list BookCreate.t)
  : database -> list ChangeLogCreate.t * database :=
  process_books_loop books [].

End ChangeDetector.

End Detector.

(* ===================================================================== *)
(** * app/config.py and app/crawler/crawler.py *)
(* ===================================================================== *)

Module Crawl.

(** The crawler's part of [Settings]. *)
Record Settings : Type := mk_settings {
  base_url : string;
  max_concurrent_requests : Z;
  retry_max_attempts : Z;
  retry_backoff_factor : float
}.

(** The defaults of app/config.py. *)
Definition default_settings : Settings :=
  mk_settings "https://books.toscrape.com" 10 3 2%float.

(** What one pass through the [try] block of [_fetch_with_retry] meets:
    a response with its status and text, [asyncio.TimeoutError], or another
    exception. *)
Inductive response : Type :=
  | Response (status : Z) (text : string)
  | TimeoutError
  | OtherError.

(** What the crawler does to the outside, most recent first: a call of
    [_fetch_with_retry], one [session.get], one [asyncio.sleep] of
    [backoff_factor ** attempt] that came to its end. *)
Inductive event : Type :=
  | Fetch (url : string)
  | Get (url : string)
  | Sleep (backoff_factor : float) (attempt : Z).

Definition is_fetch (url : string) (e : event) : bool :=
  match e with
  | Fetch u => String.eqb u url
  | _ => false
  end.

Definition is_get (url : string) (e : event) : bool :=
  match e with
  | Get u => String.eqb u url
  | _ => false
  end.

Fixpoint count_events (p : event -> bool) (trace : list event) : nat :=
  match trace with
  | [] => O
  | e :: rest => ((if p e then 1 else 0) + count_events p rest)%nat
  end.

(** How many times [url] was handed to [_fetch_with_retry], and how many
    requests were issued for it. *)
Definition fetches_of (url : string) (trace : list event) : nat :=
  count_events (is_fetch url) trace.

Definition gets_of (url : string) (trace : list event) : nat :=
  count_events (is_get url) trace.

(** The mutable part of a [Crawler]: [self.visited_urls] and the trace. *)
Record crawler : Type := mk_crawler {
  visited_urls : gset string;
  trace : list event
}.

(** The mutable part of a [Crawler] just after [__init__]. *)
Definition new_crawler : crawler := mk_crawler ∅ [].

Definition emit (e : event) (c : crawler) : crawler :=
  mk_crawler (visited_urls c) (e :: trace c).

Definition visit (url : string) (c : crawler) : crawler :=
  mk_crawler ({[url]} ∪ visited_urls c) (trace c).

(** [x or default] for an optional integer and an optional float. *)
Definition or_int (x : option Z) (default : Z) : Z :=
  match x with
  | Some z => if z =? 0 then default else z
  | None => default
  end.

Definition or_float (x : option float) (default : float) : float :=
  match x with
  | Some f => if PrimFloat.eqb f 0%float then default else f
  | None => default
  end.

(** The keeps of the loop [isinstance(book, BookCreate)] of
    [crawl_category], over the results of [asyncio.gather(...,
    return_exceptions=True)]: a result is what a task returned or the
    exception it raised. *)
Definition successes {A} (results : list (outcome (option A))) : list A :=
  omap (fun r => match r with Returned (Some b) => Some b | _ => None end) results.

Section Crawler.

Variable settings : Settings.
(** The server: the outcome of the n-th request for a URL. *)
Variable server : string -> nat -> response.
(** [await asyncio.sleep(backoff_factor ** attempt)]: the sleep comes to its
    end, or an exception is raised (the power of a float raises
    [OverflowError] when its result is out of range), or the sleep never
    ends ([None]). *)
Variable backoff_sleep : float -> Z -> option (outcome unit).
(** The BeautifulSoup code of the crawler.  [_parse_book_page] catches
    what is raised inside it; the others do not. *)
Variable _parse_book_page : string -> string -> option BookCreate.t.
Variable _extract_book_urls_from_category : string -> string -> outcome (list string).
Variable _get_next_page_url : string -> string -> outcome (option string).
(** The links [.side_categories ul li ul li a] of the main page, joined
    to [main_url]. *)
Variable select_category_urls : string -> string -> outcome (list string).

(** [self.max_concurrent] of a crawler made by [Crawler()]: [max_concurrent
    or settings.max_concurrent_requests] with [max_concurrent = None]; it
    is the number of places of [self.semaphore]. *)
Definition max_concurrent : Z := max_concurrent_requests settings.

(** [Crawler()] followed by [__aenter__]: [asyncio.Semaphore] raises
    [ValueError] for a negative number of places. *)
Definition Crawler_init : outcome crawler :=
  if max_concurrent <? 0 then Raised "ValueError" else Returned new_crawler.

(** [if attempt < max_attempts - 1: await asyncio.sleep(backoff_factor **
    attempt)]. *)
Definition backoff (attempt max_attempts : Z) (backoff_factor : float)
    (c : crawler) : option (outcome unit) * crawler :=
  if attempt <? max_attempts - 1 then
    match backoff_sleep backoff_factor attempt with
    | Some (Returned _) => (Some (Returned tt), emit (Sleep backoff_factor attempt) c)
    | Some (Raised exc) => (Some (Raised exc), c)
    | None => (None, c)
    end
  else (Some (Returned tt), c).

(** The loop [for attempt in range(max_attempts)] with what follows it;
    [remaining] counts the iterations that are left.  The result is
    [None] when the call never returns.  [async with self.semaphore] waits
    for ever when the semaphore was made with no place at all.  An
    exception of the sleep in the [else] branch is raised inside the [try]
    and caught by [except Exception], whose handler sleeps as well; an
    exception raised in a handler leaves the function. *)
Fixpoint fetch_loop (remaining : nat) (attempt : Z) (url : string)
    (max_attempts : Z) (backoff_factor : float) (c : crawler)
  : option (outcome (option string)) * crawler :=
  match remaining with
  | O => (Some (Returned None), c)
  | S remaining' =>
      if max_concurrent <=? 0 then (None, c)
      else
        let r := server url (gets_of url (trace c)) in
        let c := emit (Get url) c in
        let handler c :=
          match backoff attempt max_attempts backoff_factor c with
          | (Some (Returned _), c) =>
              fetch_loop remaining' (attempt + 1) url max_attempts backoff_factor c
          | (Some (Raised exc), c) => (Some (Raised exc), c)
          | (None, c) => (None, c)
          end in
        match r with
        | Response status text =>
            if status =? 200 then (Some (Returned (Some text)), c)
            else if status =? 404 then (Some (Returned None), c)
            else
              match backoff attempt max_attempts backoff_factor c with
              | (Some (Returned _), c) =>
                  fetch_loop remaining' (attempt + 1) url max_attempts backoff_factor c
              | (Some (Raised _), c) => handler c
              | (None, c) => (None, c)
              end
        | TimeoutError | OtherError => handler c
        end
  end.

(** [Crawler._fetch_with_retry]. *)
Definition _fetch_with_retry (url : string) (max_attempts : option Z)
    (backoff_factor : option float) (c : crawler)
  : option (outcome (option string)) * crawler :=
  let max_attempts := or_int max_attempts (retry_max_attempts settings) in
  let backoff_factor := or_float backoff_factor (retry_backoff_factor settings) in
  fetch_loop (Z.to_nat max_attempts) 0 url max_attempts backoff_factor
    (emit (Fetch url) c).

(** [Crawler.crawl_book]. *)
Definition crawl_book (url : string) (c : crawler)
  : option (outcome (option BookCreate.t)) * crawler :=
  if bool_decide (url ∈ visited_urls c) then (Some (Returned None), c)
  else
    let c := visit url c in
    let (html, c) := _fetch_with_retry url None None c in
    (match html with
     | Some (Returned html) =>
         if truthy_str html
         then Some (Returned (_parse_book_page (default EmptyString html) url))
         else Some (Returned None)
     | Some (Raised exc) => Some (Raised exc)
     | None => None
     end, c).

(** [asyncio.gather] over the [crawl_book] tasks of a page, with
    [return_exceptions=True]: the tasks are started in list order, each one
    tests and marks [visited_urls] before its first suspension, and the
    results (values or exceptions) come back in list order; the fetches
    are taken one after the other here.  [gather] returns when every task
    has ended: the result is [None] when one of them never does. *)
Fixpoint gather_books (book_urls : list string) (c : crawler)
  : option (list (outcome (option BookCreate.t))) * crawler :=
  match book_urls with
  | [] => (Some [], c)
  | url :: rest =>
      let (book, c) := crawl_book url c in
      let (others, c) := gather_books rest c in
      (match book, others with
       | Some book, Some others => Some (book :: others)
       | _, _ => None
       end, c)
  end.

(** The loop [while current_url:] of [crawl_category].  [None] says that
    the loop was not left: [fuel] iterations were not enough, or a call
    inside it never returns. *)
Fixpoint crawl_category_loop (fuel : nat) (current_url : option string)
    (books : list BookCreate.t) (c : crawler)
  : option (outcome (list BookCreate.t)) * crawler :=
  if truthy_str current_url then
    let url := default EmptyString current_url in
    match fuel with
    | O => (None, c)
    | S fuel' =>
        if bool_decide (url ∈ visited_urls c) then (Some (Returned books), c)
        else
          let c := visit url c in
          match _fetch_with_retry url None None c with
          | (Some (Returned html), c) =>
              if truthy_str html then
                let html := default EmptyString html in
                match _extract_book_urls_from_category html url with
                | Returned book_urls =>
                    match gather_books book_urls c with
                    | (Some page_books, c) =>
                        match _get_next_page_url html url with
                        | Returned next =>
                            crawl_category_loop fuel' next
                              (books ++ successes page_books) c
                        | Raised exc => (Some (Raised exc), c)
                        end
                    | (None, c) => (None, c)
                    end
                | Raised exc => (Some (Raised exc), c)
                end
              else (Some (Returned books), c)
          | (Some (Raised exc), c) => (Some (Raised exc), c)
          | (None, c) => (None, c)
          end
    end
  else (Some (Returned books), c).

(** [Crawler.crawl_category]. *)
Definition crawl_category (fuel : nat) (category_url : string) (c : crawler)
  : option (outcome (list BookCreate.t)) * crawler :=
  crawl_category_loop fuel (Some category_url) [] c.

(** [Crawler.get_all_categories]. *)
Definition get_all_categories (c : crawler)
  : option (outcome (list string)) * crawler :=
  let main_url := base_url settings in
  let (html, c) := _fetch_with_retry main_url None None c in
  (match html with
   | Some (Returned html) =>
       if truthy_str html
       then Some (select_category_urls (default EmptyString html) main_url)
       else Some (Returned [])
   | Some (Raised exc) => Some (Raised exc)
   | None => None
   end, c).

(** The loop [for category_url in categories] of [crawl_all]: an
    exception of [crawl_category] is caught and logged, and the loop goes
    on with the next category. *)
Fixpoint crawl_categories (fuel : nat) (categories : list string)
    (all_books : list BookCreate.t) (c : crawler)
  : option (list BookCreate.t) * crawler :=
  match categories with
  | [] => (Some all_books, c)
  | category_url :: rest =>
      match crawl_category fuel category_url c with
      | (Some (Returned books), c) => crawl_categories fuel rest (all_books ++ books) c
      | (Some (Raised _), c) => crawl_categories fuel rest all_books c
      | (None, c) => (None, c)
      end
  end.

(** [Crawler.crawl_all]: [get_all_categories] is called outside of the
    [try], its exception leaves [crawl_all]. *)
Definition crawl_all (fuel : nat) (c : crawler)
  : option (outcome (list BookCreate.t)) * crawler :=
  match get_all_categories c with
  | (Some (Returned categories), c) =>
      match crawl_categories fuel categories [] c with
      | (Some all_books, c) => (Some (Returned all_books), c)
      | (None, c) => (None, c)
      end
  | (Some (Raised exc), c) => (Some (Raised exc), c)
  | (None, c) => (None, c)
  end.

End Crawler.

End Crawl.

(* ===================================================================== *)
(** * app/models/api.py *)
(* ===================================================================== *)

Module Api.

Record PaginatedResponse (T : Type) : Type := mk_PaginatedResponse {
  items : list T;
  total : Z;
  page : Z;
  page_size : Z;
  total_pages : Z
}.
Arguments mk_PaginatedResponse {T} items total page page_size total_pages.
Arguments items {T} p.
Arguments total {T} p.
Arguments page {T} p.
Arguments page_size {T} p.
Arguments total_pages {T} p.

(** [PaginatedResponse.create]; the integer division of Python raises on a
    zero divisor. *)
Definition create {T} (items : list T) (total page page_size : Z)
  : outcome (PaginatedResponse T) :=
  if 0 <? total then
    if page_size =? 0 then Raised "ZeroDivisionError"
    else Returned (mk_PaginatedResponse items total page page_size
                     ((total + page_size - 1) / page_size))
  else Returned (mk_PaginatedResponse items total page page_size 0).

(** The offset [skip = (params.page - 1) * params.page_size] of
    [BookRepository.query_books]. *)
Definition query_skip (page page_size : Z) : Z := (page - 1) * page_size.

End Api.

(* ===================================================================== *)
(** * app/scheduler.py and run_crawler.py *)
(* ===================================================================== *)

Module Runner.

Section Run.

Variable json_dumps_sorted : gmap string pyval -> string.
Variable sha256_hexdigest : string -> string.
Variable utcnow : nat -> Z.
Variable uuid4 : nat -> string.
Variable settings : Crawl.Settings.
Variable server : string -> nat -> Crawl.response.
Variable backoff_sleep : float -> Z -> option (outcome unit).
Variable _parse_book_page : string -> string -> option BookCreate.t.
Variable _extract_book_urls_from_category : string -> string -> outcome (list string).
Variable _get_next_page_url : string -> string -> outcome (option string).
Variable select_category_urls : string -> string -> outcome (list string).

(** The body of [CrawlScheduler.run_crawl] and of [main] in run_crawler.py
    once the database is connected: a new [Crawler] crawls everything and
    the change detector processes what it found; an exception is caught
    and logged.  The result is the list [change_logs] and the database;
    [None] says that the crawl did not come to its end. *)
Definition run_crawl (fuel : nat) (db : database)
  : option (list ChangeLogCreate.t * database) :=
  match Crawl.Crawler_init settings with
  | Returned crawler =>
      match Crawl.crawl_all settings server backoff_sleep _parse_book_page
              _extract_book_urls_from_category _get_next_page_url select_category_urls
              fuel crawler with
      | (Some (Returned books), _) =>
          Some (Detector.process_books json_dumps_sorted sha256_hexdigest utcnow uuid4
                  books db)
      | (Some (Raised _), _) => Some ([], db)
      | (None, _) => None
      end
  | Raised _ => Some ([], db)
  end.

End Run.

End Runner.

(* ===================================================================== *)
(** * Predicates used in the statements *)
(* ===================================================================== *)

Module Spec.

(** [key] occurs in [text] as a contiguous substring. *)
Definition occurs (key text : string) : Prop :=
  exists before after, text = (before ++ key ++ after)%string.

(** The text that [rating_to_int] searches. *)
Definition normalized (s : string) : string := Utils.py_strip (Utils.py_lower s).

(** [s] is one of the words of the table, up to case and surrounding
    blanks. *)
Definition is_rating_word (s : string) : Prop :=
  exists key value, In (key, value) Utils.rating_map /\ normalized s = key.

(** None of the words of the table occurs in the normalized text. *)
Definition no_rating_word_inside (s : string) : Prop :=
  forall key value, In (key, value) Utils.rating_map -> ~ occurs key (normalized s).

(** The tests of [_determine_change_type], on the list of changed
    fields. *)
Definition price_changed (l : list string) : Prop :=
  In "price_including_tax" l \/ In "price_excluding_tax" l.

Definition availability_changed (l : list string) : Prop := In "availability" l.

Definition metadata_changed (l : list string) : Prop :=
  In "name" l \/ In "description" l.

Definition rating_changed (l : list string) : Prop := In "rating" l.

(** The outcomes of a request that [_fetch_with_retry] tries again: a
    status that is neither 2xx nor 404, or a timeout. *)
Definition retryable_outcome (r : Crawl.response) : Prop :=
  match r with
  | Crawl.Response status _ => ~ (200 <= status <= 299) /\ status <> 404
  | Crawl.TimeoutError => True
  | Crawl.OtherError => False
  end.

(** A rating that [Book] accepts. *)
Definition valid_rating (rating : Z) : Prop := 0 <= rating <= 5.

(** An item that the repository can store and hand back: its rating is one
    that [Book] accepts and its number of reviews fits the 8 bytes of a
    stored integer. *)
Definition storable (b : BookCreate.t) : Prop :=
  valid_rating (BookCreate.rating b)
  /\ - 2 ^ 63 <= BookCreate.number_of_reviews b < 2 ^ 63.

(** An item whose integers fit the 8 bytes of a stored integer. *)
Definition fits_8_bytes (b : BookCreate.t) : Prop :=
  - 2 ^ 63 <= BookCreate.number_of_reviews b < 2 ^ 63
  /\ - 2 ^ 63 <= BookCreate.rating b < 2 ^ 63.

(** No two documents of the [books] collection share their [id]. *)
Definition unique_ids (db : database) : Prop := NoDup (map Book.id (books db)).

(** The sleeps of the backoff between [max_attempts] attempts come to
    their end. *)
Definition sleeps_return (backoff_sleep : float -> Z -> option (outcome unit))
    (backoff_factor : float) (max_attempts : Z) : Prop :=
  forall attempt, 0 <= attempt < max_attempts - 1 ->
    backoff_sleep backoff_factor attempt = Some (Returned tt).

(** None of the sleeps of the backoff between [max_attempts] attempts goes
    on for ever. *)
Definition sleeps_end (backoff_sleep : float -> Z -> option (outcome unit))
    (backoff_factor : float) (max_attempts : Z) : Prop :=
  forall attempt, 0 <= attempt < max_attempts - 1 ->
    backoff_sleep backoff_factor attempt <> None.

(** The document of the [books] collection under a URL. *)
Definition stored (db : database) (url : string) : option Book.t :=
  Repository.find_one (Repository.by_url url) (books db).

(** A stored book as the dictionary of its fields. *)
Definition document (b : Book.t) : gmap string pyval :=
  <["id" := VStr (Book.id b)]>
  (<["name" := VStr (Book.name b)]>
  (<["description" := Models.opt_str (Book.description b)]>
  (<["category" := VStr (Book.category b)]>
  (<["price_including_tax" := VFloat (Book.price_including_tax b)]>
  (<["price_excluding_tax" := VFloat (Book.price_excluding_tax b)]>
  (<["availability" := VStr (Book.availability b)]>
  (<["number_of_reviews" := VInt (Book.number_of_reviews b)]>
  (<["image_url" := Models.opt_str (Book.image_url b)]>
  (<["rating" := VInt (Book.rating b)]>
  (<["source_url" := VStr (Book.source_url b)]>
  (<["crawl_timestamp" := VDatetime (Book.crawl_timestamp b)]>
  (<["status" := VStr (Book.status b)]>
  (<["raw_html" := Models.opt_str (Book.raw_html b)]>
  (<["data_hash" := Models.opt_str (Book.data_hash b)]> ∅)))))))))))))).

(** The five entries of an item that the fingerprint is computed over. *)
Definition fingerprint_fields (b : BookCreate.t) : gmap string pyval :=
  <["name" := VStr (BookCreate.name b)]>
  (<["price_including_tax" := VFloat (BookCreate.price_including_tax b)]>
  (<["price_excluding_tax" := VFloat (BookCreate.price_excluding_tax b)]>
  (<["availability" := VStr (BookCreate.availability b)]>
  (<["rating" := VInt (BookCreate.rating b)]> ∅)))).

Definition fingerprint_keys : gset string :=
  {["name"; "price_including_tax"; "price_excluding_tax"; "availability"; "rating"]}.

(** The stored book and the crawled one agree on the fields of the
    fingerprint: they differ at most in the other fields (description,
    number of reviews, ...). *)
Definition same_significant_fields (e : Book.t) (b : BookCreate.t) : Prop :=
  Book.name e = BookCreate.name b
  /\ Book.price_including_tax e = BookCreate.price_including_tax b
  /\ Book.price_excluding_tax e = BookCreate.price_excluding_tax b
  /\ Book.availability e = BookCreate.availability b
  /\ Book.rating e = BookCreate.rating b.

(** The field-by-field comparison finds no difference. *)
Definition no_field_differs (e : Book.t) (b : BookCreate.t) : Prop :=
  Book.name e = BookCreate.name b
  /\ Detector.price_differs (Book.price_including_tax e)
       (BookCreate.price_including_tax b) = false
  /\ Detector.price_differs (Book.price_excluding_tax e)
       (BookCreate.price_excluding_tax b) = false
  /\ Book.availability e = BookCreate.availability b
  /\ Book.rating e = BookCreate.rating b
  /\ Book.description e = BookCreate.description b
  /\ Book.number_of_reviews e = BookCreate.number_of_reviews b.

(** The fields that the comparison of [_detect_changes] finds changed,
    in the order of its tests. *)
Definition differing_fields (e : Book.t) (b : BookCreate.t) : list string :=
  ((if bool_decide (Book.name e ≠ BookCreate.name b) then ["name"] else [])
   ++ (if Detector.price_differs (Book.price_including_tax e)
            (BookCreate.price_including_tax b)
       then ["price_including_tax"] else [])
   ++ (if Detector.price_differs (Book.price_excluding_tax e)
            (BookCreate.price_excluding_tax b)
       then ["price_excluding_tax"] else [])
   ++ (if bool_decide (Book.availability e ≠ BookCreate.availability b)
       then ["availability"] else [])
   ++ (if bool_decide (Book.rating e ≠ BookCreate.rating b) then ["rating"] else [])
   ++ (if bool_decide (Book.description e ≠ BookCreate.description b)
       then ["description"] else [])
   ++ (if bool_decide (Book.number_of_reviews e ≠ BookCreate.number_of_reviews b)
       then ["number_of_reviews"] else []))%list.

(** [Some v] when the field differs, [None] when it does not. *)
Definition recorded (differs : bool) (v : pyval) : option pyval :=
  if differs then Some v else None.

(** The [ChangeLogCreate] an entry of the log was made from. *)
Definition as_create (entry : ChangeLog.t) : ChangeLogCreate.t :=
  ChangeLogCreate.mk (ChangeLog.book_id entry) (ChangeLog.changed_fields entry)
    (ChangeLog.old_values entry) (ChangeLog.new_values entry)
    (ChangeLog.change_type entry).

(** Two stored books that differ at most in their [crawl_timestamp]. *)
Definition same_but_timestamp (x y : Book.t) : Prop :=
  exists t,
    y = Book.mk (Book.id x) (Book.name x) (Book.description x) (Book.category x)
          (Book.price_including_tax x) (Book.price_excluding_tax x)
          (Book.availability x) (Book.number_of_reviews x) (Book.image_url x)
          (Book.rating x) (Book.source_url x) t (Book.status x) (Book.raw_html x)
          (Book.data_hash x).

(** The stored book carries the fields of the item. *)
Definition holds_item (e : Book.t) (b : BookCreate.t) : Prop :=
  Book.name e = BookCreate.name b
  /\ Book.description e = BookCreate.description b
  /\ Book.category e = BookCreate.category b
  /\ Book.price_including_tax e = BookCreate.price_including_tax b
  /\ Book.price_excluding_tax e = BookCreate.price_excluding_tax b
  /\ Book.availability e = BookCreate.availability b
  /\ Book.number_of_reviews e = BookCreate.number_of_reviews b
  /\ Book.image_url e = BookCreate.image_url b
  /\ Book.rating e = BookCreate.rating b
  /\ Book.source_url e = BookCreate.source_url b
  /\ Book.raw_html e = BookCreate.raw_html b.

(** The outcomes after which [_fetch_with_retry] goes on to its next
    attempt. *)
Definition retried (r : Crawl.response) : Prop :=
  match r with
  | Crawl.Response status _ => status <> 200 /\ status <> 404
  | Crawl.TimeoutError | Crawl.OtherError => True
  end.

(** A book came from a page that the server answered with status 200 and
    a text that is not empty, which [_parse_book_page] turned into it. *)
Definition served (server : string -> nat -> Crawl.response)
    (_parse_book_page : string -> string -> option BookCreate.t)
    (bk : BookCreate.t) : Prop :=
  exists url text n,
    server url n = Crawl.Response 200 text
    /\ text <> EmptyString
    /\ _parse_book_page text url = Some bk.

(** The defaults of [generate_data_hash] for the keys that are missing. *)
Definition default_fields : gmap string pyval :=
  <["name" := VStr EmptyString]>
  (<["price_including_tax" := VInt 0]>
  (<["price_excluding_tax" := VInt 0]>
  (<["availability" := VStr EmptyString]>
  (<["rating" := VInt 0]> ∅)))).

(** Every URL that is marked as visited was handed to the fetcher. *)
Definition visited_are_fetched (c : Crawl.crawler) : Prop :=
  forall url, url ∈ Crawl.visited_urls c -> (1 <= Crawl.fetches_of url (Crawl.trace c))%nat.

(** The exponents of the sleeps of a trace, oldest first. *)
Definition sleep_exponents (trace : list Crawl.event) : list Z :=
  rev (omap (fun e => match e with Crawl.Sleep _ attempt => Some attempt | _ => None end)
         trace).

(** A run that ends in an exception. *)
Definition run_level_failure {A} (r : option (outcome A)) : Prop :=
  exists exc, r = Some (Raised exc).

(** Every URL was handed to the fetcher at most [k url] times, and once
    more at most when it is marked as visited. *)
Definition fetch_budget (k : string -> nat) (c : Crawl.crawler) : Prop :=
  forall url,
    (Crawl.fetches_of url (Crawl.trace c)
     <= k url + (if bool_decide (url ∈ Crawl.visited_urls c) then 1 else 0))%nat.

End Spec.

(* ===================================================================== *)
(** * Concrete sites and stores for the examples *)
(* ===================================================================== *)

Module Scenario.

Import Crawl.

Definition root : string := base_url default_settings.
Definition page_a : string := "https://books.toscrape.com/catalogue/category/a/index.html".
Definition page_b : string := "https://books.toscrape.com/catalogue/category/a/page-2.html".

(** A server that is down: every request is answered with a 503. *)
Definition server_down : string -> nat -> response :=
  fun _ _ => Response 503 "Service Unavailable".

(** A server whose main page is served and nothing else. *)
Definition server_root_only : string -> nat -> response :=
  fun url _ => if String.eqb url root then Response 200 "main" else Response 503 "down".

(** A server that serves every page. *)
Definition server_up : string -> nat -> response :=
  fun _ _ => Response 200 "page".

(** A server whose page at [page_a] carries a next link to [page_b] and
    back: the text of a page is the URL its next link points to. *)
Definition server_cycle : string -> nat -> response :=
  fun url _ => if String.eqb url page_a then Response 200 page_b else Response 200 page_a.

(** A server that answers 503 twice for every URL and serves it then. *)
Definition server_flaky : string -> nat -> response :=
  fun _ n => if (n <? 2)%nat then Response 503 "busy" else Response 200 "page".

(** A stand-in for [await asyncio.sleep(backoff_factor ** attempt)] on the
    factors of the examples: the power is taken by repeated
    multiplication; a finite factor whose power is infinite raises
    [OverflowError], a sleep of infinite length never ends, any other sleep
    comes to its end. *)
Definition power (x : float) (n : nat) : float :=
  Nat.iter n (fun acc => PrimFloat.mul acc x) 1%float.

Definition sleep_power (backoff_factor : float) (attempt : Z) : option (outcome unit) :=
  let delay := power backoff_factor (Z.to_nat attempt) in
  if PrimFloat.is_infinity delay && PrimFloat.is_finite backoff_factor
  then Some (Raised "OverflowError")
  else if PrimFloat.eqb delay PrimFloat.infinity then None
  else Some (Returned tt).

Definition parse_nothing : string -> string -> option BookCreate.t := fun _ _ => None.
Definition no_links : string -> string -> outcome (list string) := fun _ _ => Returned [].
Definition no_next : string -> string -> outcome (option string) := fun _ _ => Returned None.
(** The next link of a page of [server_cycle]. *)
Definition next_is_text : string -> string -> outcome (option string) :=
  fun html _ => Returned (Some html).
(** A site that never ends: the next link of a page leads one page
    further. *)
Definition next_is_deeper : string -> string -> outcome (option string) :=
  fun _ current_url => Returned (Some (current_url ++ "/next")%string).
(** A main page whose category list is the single link [page_a]. *)
Definition one_category : string -> string -> outcome (list string) :=
  fun _ _ => Returned [page_a].
(** A main page whose category list links to the main page itself. *)
Definition links_to_itself : string -> string -> outcome (list string) :=
  fun _ main_url => Returned [main_url].
(** A main page on which the selection of the links raises. *)
Definition links_raise : string -> string -> outcome (list string) :=
  fun _ _ => Raised "ValueError".

Definition site_cycle : gset string := {[page_a; page_b]}.

(** Stand-ins for [json.dumps] and [sha256] that tell apart the
    dictionaries of the examples: the entries are written out one after
    the other (a float as its sign, mantissa and exponent), and the digest
    is the text itself. *)
Definition show_float (f : float) : string :=
  match Prim2SF f with
  | S754_zero _ => "0"
  | S754_infinity _ => "inf"
  | S754_nan => "nan"
  | S754_finite sign m e =>
      ((if sign then "-" else "+") ++ pretty (Z.pos m) ++ "p" ++ pretty e)%string
  end.

Definition show_value (v : pyval) : string :=
  match v with
  | VNone => "null"
  | VStr s => s
  | VInt z => pretty z
  | VFloat f => show_float f
  | VDatetime t => pretty t
  end.

Definition dumps (d : gmap string pyval) : string :=
  foldr (fun kv acc => (fst kv ++ "=" ++ show_value (snd kv) ++ ";" ++ acc)%string)
    EmptyString (map_to_list d).

Definition digest (s : string) : string := s.

Definition clock (n : nat) : Z := 1736937000 + Z.of_nat n.

Definition uuid (n : nat) : string := ("uuid-" ++ pretty n)%string.

(** The book of tests/test_change_detector.py. *)
Definition test_book : BookCreate.t :=
  BookCreate.mk "Test Book" None "Fiction" 19.99%float 19.99%float "In stock" 0 None 4
    "https://books.toscrape.com/test-book.html" None.

(** The same book with a description and one review more. *)
Definition test_book_described : BookCreate.t :=
  BookCreate.mk "Test Book" (Some "A book for the tests.") "Fiction" 19.99%float
    19.99%float "In stock" 1 None 4 "https://books.toscrape.com/test-book.html" None.

(** The same book half a penny dearer. *)
Definition test_book_half_penny : BookCreate.t :=
  BookCreate.mk "Test Book" None "Fiction" 19.995%float 19.995%float "In stock" 0 None 4
    "https://books.toscrape.com/test-book.html" None.

(** The same book with three reviews. *)
Definition test_book_reviewed : BookCreate.t :=
  BookCreate.mk "Test Book" None "Fiction" 19.99%float 19.99%float "In stock" 3 None 4
    "https://books.toscrape.com/test-book.html" None.

(** The same book four pounds cheaper. *)
Definition test_book_cheaper : BookCreate.t :=
  BookCreate.mk "Test Book" None "Fiction" 15.99%float 15.99%float "In stock" 0 None 4
    "https://books.toscrape.com/test-book.html" None.

(** The same book with a rating of seven stars, and with more reviews
    than 8 bytes hold. *)
Definition test_book_seven_stars : BookCreate.t :=
  BookCreate.mk "Test Book" None "Fiction" 19.99%float 19.99%float "In stock" 0 None 7
    "https://books.toscrape.com/test-book.html" None.

Definition test_book_many_reviews : BookCreate.t :=
  BookCreate.mk "Test Book" None "Fiction" 19.99%float 19.99%float "In stock" (2 ^ 63) None 4
    "https://books.toscrape.com/test-book.html" None.

(** [test_book] as the first crawl stores it. *)
Definition stored_test_book : Book.t :=
  Repository.book_of (uuid 0) test_book (clock 0) "active"
    (Utils.generate_data_hash dumps digest (Models.model_dump test_book)).

(** A site on which every listing page links to the page of [test_book],
    and every page is parsed as [test_book]. *)
Definition links_test_book : string -> string -> outcome (list string) :=
  fun _ _ => Returned [BookCreate.source_url test_book].
Definition parse_test_book : string -> string -> option BookCreate.t :=
  fun _ _ => Some test_book.

(** The store after the first crawl of [test_book]. *)
Definition store_after_first_crawl : database :=
  snd (Detector.process_book dumps digest clock uuid test_book empty_database).

End Scenario.

(* ===================================================================== *)
(** * Properties *)
(* ===================================================================== *)

(** A lemma of a section depends on the parameters of its statement. *)
Set Default Proof Using "Type*".

(** ** [rating_to_int] *)

Section RatingFacts.

Import Utils Spec.

Lemma starts_with_spec (key text : string) :
  starts_with key text = true <-> exists after, text = (key ++ after)%string.
Proof.
  revert text. induction key as [|a key IH]; intros text; simpl.
  - split; [intros _; exists text; reflexivity | reflexivity].
  - destruct text as [|b text].
    + split; [discriminate | intros [after H]; discriminate].
    + rewrite andb_true_iff, Ascii.eqb_eq, IH. split.
      * intros [-> [after ->]]. exists after. reflexivity.
      * intros [after H]. injection H as -> ->. eauto.
Qed.

Lemma str_in_spec (key text : string) :
  str_in key text = true <-> occurs key text.
Proof.
  unfold occurs. induction text as [|b text IH].
  - simpl. rewrite orb_false_r, starts_with_spec. split.
    + intros [after H]. exists EmptyString, after. exact H.
    + intros [before [after H]]. destruct before as [|c before]; [|discriminate].
      exists after. exact H.
  - cbn [str_in]. rewrite orb_true_iff, starts_with_spec, IH. split.
    + intros [[after H] | [before [after H]]].
      * exists EmptyString, after. exact H.
      * exists (String b before), after. simpl. rewrite H. reflexivity.
    + intros [before [after H]]. destruct before as [|c before].
      * left. exists after. exact H.
      * right. simpl in H. injection H as _ H. eauto.
Qed.

Lemma first_match_range (items : list (string * Z)) (text : string) :
  Forall (fun kv => 0 <= snd kv <= 5) items -> 0 <= first_match items text <= 5.
Proof.
  induction 1 as [|[key value] items Hkv _ IH]; simpl; [lia|].
  destruct (str_in key text); [exact Hkv | exact IH].
Qed.

Lemma first_match_none (items : list (string * Z)) (text : string) :
  (forall key value, In (key, value) items -> ~ occurs key text) ->
  first_match items text = 0.
Proof.
  induction items as [|[key value] items IH]; intros Hno; simpl; [reflexivity|].
  destruct (str_in key text) eqn:E.
  - exfalso. apply (Hno key value); [left; reflexivity | apply str_in_spec, E].
  - apply IH. intros k v Hin. apply (Hno k v). right. exact Hin.
Qed.

(** C9, the statement of the specification refuted: ["none"] is not one
    of the words zero through five, and it is mapped to 1 because the
    word ["one"] occurs inside it. *)
Lemma rating_to_int_unrecognized_counterexample :
  ~ is_rating_word "none" /\ rating_to_int "none" = 1.
Proof.
  split; [|reflexivity].
  intros [key [value [Hin Hnorm]]]. vm_compute in Hnorm. subst key.
  simpl in Hin. intuition congruence.
Qed.

(** C9, as the code has it: every word of the table, in any case and with
    blanks around it, is mapped to its value; a text in which no word of
    the table occurs (after lowercasing and stripping) is mapped to 0; and
    the result always lies between 0 and 5. *)
Theorem rating_to_int_table (s : string) :
  (forall key value, In (key, value) rating_map -> normalized s = key ->
                     rating_to_int s = value)
  /\ (no_rating_word_inside s -> rating_to_int s = 0)
  /\ 0 <= rating_to_int s <= 5.
Proof.
  split; [|split].
  - intros key value Hin Hnorm. unfold rating_to_int. fold (normalized s).
    rewrite Hnorm. simpl in Hin.
    repeat (destruct Hin as [Hin | Hin]; [injection Hin as <- <-; reflexivity|]).
    contradiction.
  - intros Hno. apply first_match_none. exact Hno.
  - apply first_match_range. unfold rating_map.
    repeat constructor; simpl; lia.
Qed.

Lemma rating_to_int_table_witness :
  rating_to_int " Three" = 3 /\ rating_to_int "unknown" = 0.
Proof.
  split.
  - apply (proj1 (rating_to_int_table " Three") "three" 3).
    + simpl. tauto.
    + reflexivity.
  - apply (proj1 (proj2 (rating_to_int_table "unknown"))).
    intros key value Hin Hocc. apply str_in_spec in Hocc.
    simpl in Hin.
    repeat (destruct Hin as [Hin | Hin];
            [injection Hin as <- <-; vm_compute in Hocc; discriminate|]).
    contradiction.
Defined.

End RatingFacts.

(** ** [_determine_change_type] *)

Section ClassificationFacts.

Import Detector Spec.

Lemma list_in_spec (field : string) (l : list string) :
  list_in field l = true <-> In field l.
Proof.
  unfold list_in. rewrite existsb_exists. split.
  - intros [x [Hin Heq]]. apply String.eqb_eq in Heq. subst x. exact Hin.
  - intros Hin. exists field. split; [exact Hin | apply String.eqb_refl].
Qed.

Lemma list_in_false (field : string) (l : list string) :
  list_in field l = false <-> ~ In field l.
Proof.
  rewrite <- list_in_spec. destruct (list_in field l); split; congruence.
Qed.

(** The price entries of the list that [_detect_changes] returns are
    those of the prices that differ. *)
Lemma detect_changes_price (old_book : Book.t) (new_book_data : BookCreate.t)
    (ci : change_info) :
  _detect_changes old_book new_book_data = Some ci ->
  price_differs (Book.price_including_tax old_book)
    (BookCreate.price_including_tax new_book_data) = true
  \/ price_differs (Book.price_excluding_tax old_book)
       (BookCreate.price_excluding_tax new_book_data) = true ->
  price_changed (changed_fields ci).
Proof.
  unfold _detect_changes, price_changed.
  generalize (bool_decide (Book.name old_book ≠ BookCreate.name new_book_data)),
             (price_differs (Book.price_including_tax old_book)
                (BookCreate.price_including_tax new_book_data)),
             (price_differs (Book.price_excluding_tax old_book)
                (BookCreate.price_excluding_tax new_book_data)),
             (bool_decide (Book.availability old_book ≠ BookCreate.availability new_book_data)),
             (bool_decide (Book.rating old_book ≠ BookCreate.rating new_book_data)),
             (bool_decide (Book.description old_book ≠ BookCreate.description new_book_data)),
             (bool_decide (Book.number_of_reviews old_book
                           ≠ BookCreate.number_of_reviews new_book_data)).
  intros d1 d2 d3 d4 d5 d6 d7. destruct d1, d2, d3, d4, d5, d6, d7;
    cbn [note_change changed_fields no_changes app]; intros Heq Hp;
    try discriminate Heq;
    injection Heq as <-; cbn [changed_fields In];
    solve [ tauto | destruct Hp; discriminate ].
Qed.

(** C2.  The change type is the first that applies, in the order price,
    availability, metadata (name or description), rating, other; and a
    book whose price and availability both differ is a price change. *)
Theorem determine_change_type_priority (changed : list string) :
  (price_changed changed -> _determine_change_type changed = "price_change")
  /\ (~ price_changed changed -> availability_changed changed ->
      _determine_change_type changed = "availability_change")
  /\ (~ price_changed changed -> ~ availability_changed changed ->
      metadata_changed changed ->
      _determine_change_type changed = "metadata_change")
  /\ (~ price_changed changed -> ~ availability_changed changed ->
      ~ metadata_changed changed -> rating_changed changed ->
      _determine_change_type changed = "rating_change")
  /\ (~ price_changed changed -> ~ availability_changed changed ->
      ~ metadata_changed changed -> ~ rating_changed changed ->
      _determine_change_type changed = "other_change")
  /\ (forall old_book new_book_data ci,
        _detect_changes old_book new_book_data = Some ci ->
        price_differs (Book.price_including_tax old_book)
          (BookCreate.price_including_tax new_book_data) = true
        \/ price_differs (Book.price_excluding_tax old_book)
             (BookCreate.price_excluding_tax new_book_data) = true ->
        Book.availability old_book <> BookCreate.availability new_book_data ->
        _determine_change_type (Detector.changed_fields ci) = "price_change").
Proof.
  assert (Hprice : forall l, price_changed l -> _determine_change_type l = "price_change").
  { intros l [H | H]; apply list_in_spec in H; unfold _determine_change_type;
      rewrite H; [reflexivity | rewrite orb_true_r; reflexivity]. }
  unfold price_changed, availability_changed, metadata_changed, rating_changed.
  repeat split.
  - apply Hprice.
  - intros Hp Ha. unfold _determine_change_type.
    apply list_in_spec in Ha. rewrite Ha.
    destruct (list_in "price_including_tax" changed) eqn:E1;
      [exfalso; apply Hp; left; apply list_in_spec, E1|].
    destruct (list_in "price_excluding_tax" changed) eqn:E2;
      [exfalso; apply Hp; right; apply list_in_spec, E2|].
    reflexivity.
  - intros Hp Ha Hm. unfold _determine_change_type.
    destruct (list_in "price_including_tax" changed) eqn:E1;
      [exfalso; apply Hp; left; apply list_in_spec, E1|].
    destruct (list_in "price_excluding_tax" changed) eqn:E2;
      [exfalso; apply Hp; right; apply list_in_spec, E2|].
    destruct (list_in "availability" changed) eqn:E3;
      [exfalso; apply Ha; apply list_in_spec, E3|].
    destruct Hm as [H | H]; apply list_in_spec in H; rewrite H;
      [reflexivity | rewrite orb_true_r; reflexivity].
  - intros Hp Ha Hm Hr. unfold _determine_change_type.
    destruct (list_in "price_including_tax" changed) eqn:E1;
      [exfalso; apply Hp; left; apply list_in_spec, E1|].
    destruct (list_in "price_excluding_tax" changed) eqn:E2;
      [exfalso; apply Hp; right; apply list_in_spec, E2|].
    destruct (list_in "availability" changed) eqn:E3;
      [exfalso; apply Ha; apply list_in_spec, E3|].
    destruct (list_in "name" changed) eqn:E4;
      [exfalso; apply Hm; left; apply list_in_spec, E4|].
    destruct (list_in "description" changed) eqn:E5;
      [exfalso; apply Hm; right; apply list_in_spec, E5|].
    apply list_in_spec in Hr. rewrite Hr. reflexivity.
  - intros Hp Ha Hm Hr. unfold _determine_change_type.
    destruct (list_in "price_including_tax" changed) eqn:E1;
      [exfalso; apply Hp; left; apply list_in_spec, E1|].
    destruct (list_in "price_excluding_tax" changed) eqn:E2;
      [exfalso; apply Hp; right; apply list_in_spec, E2|].
    destruct (list_in "availability" changed) eqn:E3;
      [exfalso; apply Ha; apply list_in_spec, E3|].
    destruct (list_in "name" changed) eqn:E4;
      [exfalso; apply Hm; left; apply list_in_spec, E4|].
    destruct (list_in "description" changed) eqn:E5;
      [exfalso; apply Hm; right; apply list_in_spec, E5|].
    destruct (list_in "rating" changed) eqn:E6;
      [exfalso; apply Hr; apply list_in_spec, E6|].
    reflexivity.
  - intros old_book new_book_data ci Hd Hp _.
    apply Hprice. eapply detect_changes_price; eassumption.
Qed.

Lemma determine_change_type_priority_witness :
  _determine_change_type ["price_including_tax"; "availability"] = "price_change"
  /\ _determine_change_type ["availability"; "rating"] = "availability_change".
Proof.
  split.
  - apply (proj1 (determine_change_type_priority
                    ["price_including_tax"; "availability"])).
    left. simpl. tauto.
  - apply (proj1 (proj2 (determine_change_type_priority ["availability"; "rating"]))).
    + unfold price_changed. simpl. intuition discriminate.
    + unfold availability_changed. simpl. tauto.
Defined.

End ClassificationFacts.

(** ** The crawler *)

Section CrawlerFacts.

Import Crawl Spec.

Variable settings : Settings.
Variable server : string -> nat -> response.
Variable backoff_sleep : float -> Z -> option (outcome unit).

Local Abbreviation fetch := (_fetch_with_retry settings server backoff_sleep).
Local Abbreviation loop := (fetch_loop settings server backoff_sleep).
Local Abbreviation pause := (backoff backoff_sleep).

(** *** The retry loop *)

Lemma gets_of_emit_get url c :
  gets_of url (trace (emit (Get url) c)) = S (gets_of url (trace c)).
Proof. unfold gets_of. simpl. rewrite String.eqb_refl. reflexivity. Qed.

(** What holds of the crawler whatever is requested and slept holds after
    the backoff and after the loop. *)
Lemma backoff_inv (P : crawler -> Prop) :
  (forall bf attempt c, P c -> P (emit (Sleep bf attempt) c)) ->
  forall attempt m bf c, P c -> P (snd (pause attempt m bf c)).
Proof.
  intros Hsleep attempt m bf c Hc. unfold backoff.
  destruct (attempt <? m - 1); [|exact Hc].
  destruct (backoff_sleep bf attempt) as [[[]|exc]|]; simpl; auto.
Qed.

Lemma fetch_loop_inv (P : crawler -> Prop) :
  (forall url c, P c -> P (emit (Get url) c)) ->
  (forall bf attempt c, P c -> P (emit (Sleep bf attempt) c)) ->
  forall remaining attempt url m bf c,
    P c -> P (snd (loop remaining attempt url m bf c)).
Proof.
  intros Hget Hsleep.
  induction remaining as [|remaining IH]; intros attempt url m bf c Hc; simpl; [exact Hc|].
  destruct (max_concurrent settings <=? 0); [exact Hc|].
  pose proof (Hget url c Hc) as Hc1.
  assert (Hhandler : forall c1, P c1 ->
            P (snd (match pause attempt m bf c1 with
                    | (Some (Returned _), c2) => loop remaining (attempt + 1) url m bf c2
                    | (Some (Raised exc), c2) => (Some (Raised exc), c2)
                    | (None, c2) => (None, c2)
                    end))).
  { intros c1 H1. pose proof (backoff_inv P Hsleep attempt m bf c1 H1) as H2.
    destruct (pause attempt m bf c1) as [[[[]|exc]|] c2]; simpl in H2; simpl; auto. }
  destruct (server url (gets_of url (trace c))) as [status text| |].
  - destruct (status =? 200); [exact Hc1|].
    destruct (status =? 404); [exact Hc1|].
    pose proof (backoff_inv P Hsleep attempt m bf _ Hc1) as H2.
    destruct (pause attempt m bf (emit (Get url) c)) as [[[[]|exc]|] c2];
      simpl in H2; simpl; auto.
  - apply Hhandler, Hc1.
  - apply Hhandler, Hc1.
Qed.

(** The loop neither touches [visited_urls] nor calls the fetcher. *)
Lemma fetch_loop_frame remaining attempt url m bf c :
  visited_urls (snd (loop remaining attempt url m bf c)) = visited_urls c
  /\ forall u, fetches_of u (trace (snd (loop remaining attempt url m bf c)))
               = fetches_of u (trace c).
Proof.
  apply (fetch_loop_inv
           (fun c' => visited_urls c' = visited_urls c
                      /\ forall u, fetches_of u (trace c') = fetches_of u (trace c))).
  - intros url' c' [Hv Hf]. split; [exact Hv | exact Hf].
  - intros bf' attempt' c' [Hv Hf]. split; [exact Hv | exact Hf].
  - split; reflexivity.
Qed.

(** A backoff whose sleep comes to its end. *)
Lemma backoff_returns attempt m bf c :
  sleeps_return backoff_sleep bf m -> 0 <= attempt ->
  pause attempt m bf c
  = (Some (Returned tt), if attempt <? m - 1 then emit (Sleep bf attempt) c else c).
Proof.
  intros Hsleep Hattempt. unfold backoff.
  destruct (attempt <? m - 1) eqn:E; [|reflexivity].
  apply Z.ltb_lt in E. rewrite (Hsleep attempt) by lia. reflexivity.
Qed.

Lemma backoff_gets url attempt m bf c :
  gets_of url (trace (snd (pause attempt m bf c))) = gets_of url (trace c).
Proof.
  apply (backoff_inv (fun c' => gets_of url (trace c') = gets_of url (trace c)));
    [|reflexivity].
  intros bf' attempt' c' H. exact H.
Qed.

(** A text that the loop returns was served with status 200. *)
Lemma fetch_loop_served remaining : forall attempt url m bf c text,
  fst (loop remaining attempt url m bf c) = Some (Returned (Some text)) ->
  exists n, server url n = Response 200 text.
Proof.
  induction remaining as [|remaining IH]; intros attempt url m bf c text; simpl.
  - discriminate.
  - destruct (max_concurrent settings <=? 0); [discriminate|].
    assert (Hhandler : forall c1,
              fst (match pause attempt m bf c1 with
                   | (Some (Returned _), c2) => loop remaining (attempt + 1) url m bf c2
                   | (Some (Raised exc), c2) => (Some (Raised exc), c2)
                   | (None, c2) => (None, c2)
                   end) = Some (Returned (Some text)) ->
              exists n, server url n = Response 200 text).
    { intros c1. destruct (pause attempt m bf c1) as [[[[]|exc]|] c2]; simpl;
        [apply IH | discriminate | discriminate]. }
    destruct (server url (gets_of url (trace c))) as [status body| |] eqn:E.
    + destruct (status =? 200) eqn:E200.
      * simpl. intros [= <-]. apply Z.eqb_eq in E200. subst status. eauto.
      * destruct (status =? 404); [discriminate|].
        destruct (pause attempt m bf (emit (Get url) c)) as [[[[]|exc]|] c2]; simpl;
          [apply IH | apply Hhandler | discriminate].
    + apply Hhandler.
    + apply Hhandler.
Qed.

(** When every answer for [url] is to be tried again and the sleeps come
    to their end, the loop issues one request per iteration and ends with
    [None]. *)
Lemma fetch_loop_exhausts remaining : forall attempt url m bf c,
  0 < max_concurrent settings ->
  (forall n, retried (server url n)) ->
  sleeps_return backoff_sleep bf m -> 0 <= attempt ->
  fst (loop remaining attempt url m bf c) = Some (Returned None)
  /\ gets_of url (trace (snd (loop remaining attempt url m bf c)))
     = (gets_of url (trace c) + remaining)%nat.
Proof.
  induction remaining as [|remaining IH];
    intros attempt url m bf c Hplaces Hfail Hsleep Hattempt; simpl.
  - split; [reflexivity | lia].
  - rewrite (proj2 (Z.leb_gt _ _) Hplaces).
    rewrite (backoff_returns attempt m bf (emit (Get url) c) Hsleep Hattempt).
    pose proof (IH (attempt + 1) url m bf
                  (if attempt <? m - 1 then emit (Sleep bf attempt) (emit (Get url) c)
                   else emit (Get url) c) Hplaces Hfail Hsleep ltac:(lia)) as [Hr Hg].
    assert (Hgets : gets_of url
                      (trace (if attempt <? m - 1
                              then emit (Sleep bf attempt) (emit (Get url) c)
                              else emit (Get url) c))
                    = S (gets_of url (trace c))).
    { destruct (attempt <? m - 1); apply gets_of_emit_get. }
    rewrite Hgets in Hg.
    pose proof (Hfail (gets_of url (trace c))) as Hn.
    destruct (server url (gets_of url (trace c))) as [status text| |].
    + destruct Hn as [H200 H404].
      apply Z.eqb_neq in H200, H404. rewrite H200, H404.
      split; [exact Hr | rewrite Hg; lia].
    + split; [exact Hr | rewrite Hg; lia].
    + split; [exact Hr | rewrite Hg; lia].
Qed.

(** With sleeps that do not go on for ever, the loop comes to its end. *)
Lemma fetch_loop_ends remaining : forall attempt url m bf c,
  0 < max_concurrent settings ->
  sleeps_end backoff_sleep bf m -> 0 <= attempt ->
  exists result, fst (loop remaining attempt url m bf c) = Some result.
Proof.
  induction remaining as [|remaining IH];
    intros attempt url m bf c Hplaces Hsleep Hattempt; simpl; [eauto|].
  rewrite (proj2 (Z.leb_gt _ _) Hplaces).
  assert (Hnext : 0 <= attempt + 1) by lia.
  assert (Hpause : forall c1, fst (pause attempt m bf c1) <> None).
  { intros c1. unfold backoff. destruct (attempt <? m - 1) eqn:E; [|discriminate].
    apply Z.ltb_lt in E. pose proof (Hsleep attempt ltac:(lia)) as Hs.
    destruct (backoff_sleep bf attempt) as [[[]|exc]|]; [discriminate|discriminate|].
    congruence. }
  assert (Hhandler : forall c1,
            exists result,
              fst (match pause attempt m bf c1 with
                   | (Some (Returned _), c2) => loop remaining (attempt + 1) url m bf c2
                   | (Some (Raised exc), c2) => (Some (Raised exc), c2)
                   | (None, c2) => (None, c2)
                   end) = Some result).
  { intros c1. pose proof (Hpause c1) as Hp.
    destruct (pause attempt m bf c1) as [[[[]|exc]|] c2]; simpl in Hp; simpl;
      [apply IH; assumption | eauto | congruence]. }
  destruct (server url (gets_of url (trace c))) as [status text| |].
  - destruct (status =? 200); [eauto|].
    destruct (status =? 404); [eauto|].
    pose proof (Hpause (emit (Get url) c)) as Hp.
    destruct (pause attempt m bf (emit (Get url) c)) as [[[[]|exc]|] c2]; simpl in Hp; simpl;
      [apply IH; assumption | apply Hhandler | congruence].
  - apply Hhandler.
  - apply Hhandler.
Qed.

(** C6, with the conditions it needs.  When every request for a URL ends
    in a status that is neither 2xx nor 404 or in a timeout, the semaphore
    of the crawler has a place, and the sleeps of the backoff between the
    attempts come to their end, [_fetch_with_retry] returns [None] after
    exactly [max_attempts] requests for it ([range(max_attempts)] being
    empty for a negative [max_attempts]), where [max_attempts] is the
    argument or, when that is missing or zero, the configured
    [retry_max_attempts]. *)
Theorem fetch_with_retry_attempts (url : string) (max_attempts : option Z)
    (backoff_factor : option float) (c : crawler) :
  (forall n, retryable_outcome (server url n)) ->
  let m := or_int max_attempts (retry_max_attempts settings) in
  let bf := or_float backoff_factor (retry_backoff_factor settings) in
  0 < max_concurrent_requests settings ->
  sleeps_return backoff_sleep bf m ->
  fst (fetch url max_attempts backoff_factor c) = Some (Returned None)
  /\ gets_of url (trace (snd (fetch url max_attempts backoff_factor c)))
     = (gets_of url (trace c) + Z.to_nat m)%nat
  /\ (0 <= m ->
      Z.of_nat (gets_of url (trace (snd (fetch url max_attempts backoff_factor c))))
      = Z.of_nat (gets_of url (trace c)) + m).
Proof.
  intros Hfail m bf Hplaces Hsleep. unfold _fetch_with_retry. fold m. fold bf.
  destruct (fetch_loop_exhausts (Z.to_nat m) 0 url m bf (emit (Fetch url) c))
    as [Hr Hg]; [exact Hplaces| |exact Hsleep|lia|].
  { intros n. specialize (Hfail n). destruct (server url n); simpl in Hfail; [|exact I|exact I].
    destruct Hfail as [H2xx H404]. split; [|exact H404].
    intros ->. apply H2xx. lia. }
  split; [exact Hr|]. split.
  - rewrite Hg. reflexivity.
  - intros Hm. rewrite Hg. simpl. unfold gets_of. simpl. lia.
Qed.

(** *** [visited_urls] and the number of fetches *)

Lemma fetch_visited url a b c :
  visited_urls (snd (fetch url a b c)) = visited_urls c.
Proof.
  unfold _fetch_with_retry.
  exact (proj1 (fetch_loop_frame _ _ _ _ _ (emit (Fetch url) c))).
Qed.

Lemma fetch_fetches u url a b c :
  fetches_of u (trace (snd (fetch url a b c)))
  = ((if String.eqb url u then 1 else 0) + fetches_of u (trace c))%nat.
Proof.
  unfold _fetch_with_retry.
  destruct (fetch_loop_frame (Z.to_nat (or_int a (retry_max_attempts settings))) 0 url
              (or_int a (retry_max_attempts settings))
              (or_float b (retry_backoff_factor settings)) (emit (Fetch url) c)) as [_ H].
  rewrite H. reflexivity.
Qed.

Lemma fetch_served url a b c text :
  fst (fetch url a b c) = Some (Returned (Some text)) ->
  exists n, server url n = Response 200 text.
Proof. unfold _fetch_with_retry. apply fetch_loop_served. Qed.

Lemma fetch_ends url a b c :
  0 < max_concurrent_requests settings ->
  sleeps_end backoff_sleep (or_float b (retry_backoff_factor settings))
    (or_int a (retry_max_attempts settings)) ->
  exists result, fst (fetch url a b c) = Some result.
Proof.
  intros Hplaces Hsleep. unfold _fetch_with_retry.
  apply fetch_loop_ends; [exact Hplaces | exact Hsleep | lia].
Qed.

(** Marking a fresh URL and fetching it keeps the budget. *)
Lemma visit_fetch_budget k url c :
  url ∉ visited_urls c -> fetch_budget k c ->
  fetch_budget k (snd (fetch url None None (visit url c))).
Proof.
  intros Hfresh Hb u. rewrite fetch_fetches, fetch_visited. simpl.
  specialize (Hb u). destruct (String.eqb_spec url u) as [->|Hne].
  - rewrite (bool_decide_eq_false_2 _ Hfresh) in Hb.
    rewrite bool_decide_eq_true_2 by set_solver. lia.
  - destruct (bool_decide (u ∈ visited_urls c)) eqn:E.
    + apply bool_decide_eq_true_1 in E.
      rewrite bool_decide_eq_true_2 by set_solver. lia.
    + destruct (bool_decide (u ∈ {[url]} ∪ visited_urls c)); lia.
Qed.

Lemma visit_fetch_visited url c :
  visited_urls (snd (fetch url None None (visit url c))) = {[url]} ∪ visited_urls c.
Proof. rewrite fetch_visited. reflexivity. Qed.

Section Pages.

Variable _parse_book_page : string -> string -> option BookCreate.t.

Local Abbreviation book := (crawl_book settings server backoff_sleep _parse_book_page).
Local Abbreviation gather := (gather_books settings server backoff_sleep _parse_book_page).

Lemma book_state url c :
  snd (book url c)
  = if bool_decide (url ∈ visited_urls c) then c
    else snd (fetch url None None (visit url c)).
Proof.
  unfold crawl_book. destruct (bool_decide (url ∈ visited_urls c)); [reflexivity|].
  destruct (fetch url None None (visit url c)) as [html c']. reflexivity.
Qed.

Lemma book_budget k url c :
  fetch_budget k c -> fetch_budget k (snd (book url c)).
Proof.
  intros Hb. rewrite book_state.
  destruct (bool_decide (url ∈ visited_urls c)) eqn:E; [exact Hb|].
  apply bool_decide_eq_false_1 in E. apply visit_fetch_budget; assumption.
Qed.

Lemma book_visited url c : visited_urls c ⊆ visited_urls (snd (book url c)).
Proof.
  rewrite book_state.
  destruct (bool_decide (url ∈ visited_urls c)); [reflexivity|].
  rewrite visit_fetch_visited. set_solver.
Qed.

Lemma book_ends url c :
  0 < max_concurrent_requests settings ->
  sleeps_end backoff_sleep (retry_backoff_factor settings) (retry_max_attempts settings) ->
  exists result, fst (book url c) = Some result.
Proof.
  intros Hplaces Hsleep. unfold crawl_book.
  destruct (bool_decide (url ∈ visited_urls c)); [eauto|].
  destruct (fetch_ends url None None (visit url c) Hplaces Hsleep) as [r Hr].
  destruct (fetch url None None (visit url c)) as [html c']. simpl in Hr. subst html.
  simpl. destruct r as [html|exc]; [|eauto]. destruct (truthy_str html); eauto.
Qed.

Lemma gather_state url rest c :
  snd (gather (url :: rest) c) = snd (gather rest (snd (book url c))).
Proof.
  simpl. destruct (book url c) as [b c1]. simpl.
  destruct (gather rest c1) as [others c2]. reflexivity.
Qed.

Lemma gather_budget k urls : forall c,
  fetch_budget k c -> fetch_budget k (snd (gather urls c)).
Proof.
  induction urls as [|url rest IH]; intros c Hb; [exact Hb|].
  rewrite gather_state. apply IH, book_budget, Hb.
Qed.

Lemma gather_visited urls : forall c,
  visited_urls c ⊆ visited_urls (snd (gather urls c)).
Proof.
  induction urls as [|url rest IH]; intros c; [reflexivity|].
  rewrite gather_state. etransitivity; [apply book_visited | apply IH].
Qed.

Lemma gather_ends urls : forall c,
  0 < max_concurrent_requests settings ->
  sleeps_end backoff_sleep (retry_backoff_factor settings) (retry_max_attempts settings) ->
  exists results, fst (gather urls c) = Some results.
Proof.
  induction urls as [|url rest IH]; intros c Hplaces Hsleep; simpl; [eauto|].
  destruct (book_ends url c Hplaces Hsleep) as [r Hr].
  destruct (book url c) as [b c1]. simpl in Hr. subst b.
  destruct (IH c1 Hplaces Hsleep) as [rs Hrs].
  destruct (gather rest c1) as [others c2]. simpl in Hrs. subst others.
  simpl. eauto.
Qed.

(** *** The pagination loop *)

Section Walk.

Variable _extract_book_urls_from_category : string -> string -> outcome (list string).
Variable _get_next_page_url : string -> string -> outcome (option string).

Local Abbreviation category_loop :=
  (crawl_category_loop settings server backoff_sleep _parse_book_page
     _extract_book_urls_from_category _get_next_page_url).
Local Abbreviation category :=
  (crawl_category settings server backoff_sleep _parse_book_page
     _extract_book_urls_from_category _get_next_page_url).
Local Abbreviation categories :=
  (crawl_categories settings server backoff_sleep _parse_book_page
     _extract_book_urls_from_category _get_next_page_url).

(** What holds after a fresh page was marked and fetched, and keeps
    holding over the books of a page, holds after the loop. *)
Lemma category_loop_inv (P : crawler -> Prop) :
  (forall url c, url ∉ visited_urls c -> P c ->
                 P (snd (fetch url None None (visit url c)))) ->
  (forall urls c, P c -> P (snd (gather urls c))) ->
  forall fuel cur books c, P c -> P (snd (category_loop fuel cur books c)).
Proof.
  intros Hfetch Hgather.
  induction fuel as [|fuel IH]; intros cur books c Hc; simpl.
  - destruct (truthy_str cur); exact Hc.
  - destruct (truthy_str cur); [|exact Hc].
    destruct (bool_decide (default EmptyString cur ∈ visited_urls c)) eqn:E; [exact Hc|].
    apply bool_decide_eq_false_1 in E.
    pose proof (Hfetch _ c E Hc) as H1.
    destruct (fetch (default EmptyString cur) None None (visit (default EmptyString cur) c))
      as [[[html|exc]|] c1]; simpl in H1; [|exact H1|exact H1].
    destruct (truthy_str html); [|exact H1].
    destruct (_extract_book_urls_from_category (default EmptyString html)
                (default EmptyString cur)) as [book_urls|exc]; [|exact H1].
    pose proof (Hgather book_urls c1 H1) as H2.
    destruct (gather book_urls c1) as [[page_books|] c2]; simpl in H2; [|exact H2].
    destruct (_get_next_page_url (default EmptyString html) (default EmptyString cur))
      as [next|exc]; [|exact H2].
    apply IH, H2.
Qed.

Lemma category_loop_budget k fuel cur books c :
  fetch_budget k c -> fetch_budget k (snd (category_loop fuel cur books c)).
Proof.
  apply category_loop_inv.
  - intros url c'. apply visit_fetch_budget.
  - intros urls c'. apply gather_budget.
Qed.

Lemma categories_budget k fuel urls : forall all_books c,
  fetch_budget k c -> fetch_budget k (snd (categories fuel urls all_books c)).
Proof.
  induction urls as [|url rest IH]; intros all_books c Hb; simpl; [exact Hb|].
  pose proof (category_loop_budget k fuel (Some url) [] c Hb) as Hb1.
  unfold crawl_category.
  destruct (category_loop fuel (Some url) [] c) as [[[books|exc]|] c1]; simpl in Hb1.
  - apply IH, Hb1.
  - apply IH, Hb1.
  - exact Hb1.
Qed.

(** *** Termination of the pagination loop *)

Lemma category_loop_visited fuel cur books c :
  visited_urls c ⊆ visited_urls (snd (category_loop fuel cur books c)).
Proof.
  apply (category_loop_inv (fun c' => visited_urls c ⊆ visited_urls c')).
  - intros url c' _ H. rewrite visit_fetch_visited. set_solver.
  - intros urls c' H. etransitivity; [exact H | apply gather_visited].
  - reflexivity.
Qed.

(** A next link that points to a page already visited ends the walk at
    once. *)
Lemma visited_page_ends_walk fuel url books c :
  url ∈ visited_urls c ->
  category_loop (S fuel) (Some url) books c = (Some (Returned books), c).
Proof.
  intros Hin. simpl. destruct (negb (String.eqb url EmptyString)); [|reflexivity].
  rewrite bool_decide_eq_true_2 by exact Hin. reflexivity.
Qed.

Lemma category_loop_terminates (site : gset string) :
  0 < max_concurrent_requests settings ->
  sleeps_end backoff_sleep (retry_backoff_factor settings) (retry_max_attempts settings) ->
  (forall url n text next,
      url ∈ site -> server url n = Response 200 text ->
      _get_next_page_url text url = Returned (Some next) -> next ∈ site) ->
  forall fuel cur books c,
    (forall url, cur = Some url -> url ∈ site) ->
    (size (site ∖ visited_urls c) < fuel)%nat ->
    exists result, fst (category_loop fuel cur books c) = Some result.
Proof.
  intros Hplaces Hsleep Hclosed.
  induction fuel as [|fuel IH]; intros cur books c Hcur Hsize; [lia|].
  simpl. destruct (truthy_str cur) eqn:Et; [|eauto].
  destruct cur as [url|]; [|discriminate]. simpl.
  pose proof (Hcur url eq_refl) as Hin.
  destruct (bool_decide (url ∈ visited_urls c)) eqn:E; [eauto|].
  apply bool_decide_eq_false_1 in E.
  pose proof (visit_fetch_visited url c) as Hv.
  pose proof (fetch_served url None None (visit url c)) as Hs.
  destruct (fetch_ends url None None (visit url c) Hplaces Hsleep) as [r Hr].
  destruct (fetch url None None (visit url c)) as [html c1].
  simpl in Hv, Hs, Hr. subst html. destruct r as [html|exc]; [|eauto].
  destruct (truthy_str html) eqn:Eh; [|eauto].
  destruct html as [text|]; [|discriminate]. simpl.
  destruct (Hs text eq_refl) as [n Hn].
  destruct (_extract_book_urls_from_category text url) as [book_urls|exc]; [|eauto].
  pose proof (gather_visited book_urls c1) as Hg.
  destruct (gather_ends book_urls c1 Hplaces Hsleep) as [rs Hrs].
  destruct (gather book_urls c1) as [page_books c2].
  simpl in Hg, Hrs. subst page_books.
  destruct (_get_next_page_url text url) as [next|exc] eqn:Enext; [|eauto].
  apply IH.
  - intros next' ->. eapply Hclosed; eassumption.
  - assert (Hsub : site ∖ visited_urls c2 ⊂ site ∖ visited_urls c).
    { rewrite Hv in Hg. split; [set_solver|].
      intros Hcontra. assert (url ∈ site ∖ visited_urls c2) by set_solver. set_solver. }
    apply subset_size in Hsub. lia.
Qed.

(** C8, with the conditions it needs.  On a site with finitely many pages
    (every next link served by a page of [site] leads to a page of
    [site]), with a semaphore that has a place and backoff sleeps none of
    which goes on for ever, the pagination loop of [crawl_category] is
    left within [size site + 1] iterations, whatever the next links are,
    cyclic ones included: [crawl_category] returns its list or raises; and
    a next link to a page that is already visited ends the walk at once,
    with the books found so far. *)
Theorem crawl_category_terminates (site : gset string) (category_url : string)
    (c : crawler) (fuel : nat) :
  category_url ∈ site ->
  (forall url n text next,
      url ∈ site -> server url n = Response 200 text ->
      _get_next_page_url text url = Returned (Some next) -> next ∈ site) ->
  0 < max_concurrent_requests settings ->
  sleeps_end backoff_sleep (retry_backoff_factor settings) (retry_max_attempts settings) ->
  (size site < fuel)%nat ->
  (exists result, fst (category fuel category_url c) = Some result)
  /\ (forall next books c',
        next ∈ visited_urls c' ->
        category_loop fuel (Some next) books c' = (Some (Returned books), c')).
Proof.
  intros Hin Hclosed Hplaces Hsleep Hfuel. split.
  - unfold crawl_category.
    apply (category_loop_terminates site Hplaces Hsleep Hclosed).
    + intros url [= <-]. exact Hin.
    + assert (size (site ∖ visited_urls c) <= size site)%nat
        by (apply subseteq_size; set_solver).
      lia.
  - intros next books c' Hnext. destruct fuel as [|fuel]; [lia|].
    apply visited_page_ends_walk, Hnext.
Qed.

(** *** The whole run *)

Section Run.

Variable select_category_urls : string -> string -> outcome (list string).

Local Abbreviation all :=
  (crawl_all settings server backoff_sleep _parse_book_page
     _extract_book_urls_from_category _get_next_page_url select_category_urls).
Local Abbreviation all_categories :=
  (get_all_categories settings server backoff_sleep select_category_urls).

(** After the main page has been fetched by a new crawler, the main page
    has one fetch to its name and nothing is marked. *)
Lemma root_budget :
  fetch_budget (fun u => if String.eqb (base_url settings) u then 1%nat else 0%nat)
    (snd (fetch (base_url settings) None None new_crawler)).
Proof.
  intros u. rewrite fetch_fetches, fetch_visited. simpl.
  destruct (String.eqb (base_url settings) u), (bool_decide (u ∈ (∅ : gset string)));
    unfold fetches_of; simpl; lia.
Qed.

Lemma all_categories_state c :
  snd (all_categories c) = snd (fetch (base_url settings) None None c).
Proof.
  unfold get_all_categories.
  destruct (fetch (base_url settings) None None c) as [html c1]. reflexivity.
Qed.

(** The state after [crawl_all] is the state after its categories, those
    that [get_all_categories] returned, were crawled. *)
Lemma all_state fuel c :
  snd (all fuel c)
  = snd (categories fuel
           (match fst (all_categories c) with
            | Some (Returned urls) => urls
            | _ => []
            end) []
           (snd (fetch (base_url settings) None None c))).
Proof.
  unfold crawl_all. rewrite <- all_categories_state.
  destruct (all_categories c) as [[[urls|exc]|] c1]; simpl; [|reflexivity|reflexivity].
  destruct (categories fuel urls [] c1) as [[bs|] c2]; reflexivity.
Qed.

(** C7, as the code has it.  In a run of [crawl_all] on a new crawler,
    whatever the fuel, every URL other than the base URL is handed to
    the fetcher at most once and the base URL at most twice (the fetch of
    the main page by [get_all_categories] neither tests nor marks
    [visited_urls]); and the links of one listing page, repeated or not,
    add at most one fetch for any URL. *)
Theorem crawl_all_fetches_once (fuel : nat) (url : string) :
  (url <> base_url settings ->
   (fetches_of url (trace (snd (all fuel new_crawler))) <= 1)%nat)
  /\ (fetches_of url (trace (snd (all fuel new_crawler))) <= 2)%nat
  /\ (forall book_urls c,
        (fetches_of url (trace (snd (gather book_urls c)))
         <= fetches_of url (trace c) + 1)%nat)
  /\ (forall category_url c,
        (fetches_of url (trace (snd (category fuel category_url c)))
         <= fetches_of url (trace c) + 1)%nat).
Proof.
  pose proof (categories_budget _ fuel
                (match fst (all_categories new_crawler) with
                 | Some (Returned urls) => urls
                 | _ => []
                 end)
                [] _ root_budget url) as Hb.
  rewrite <- all_state in Hb.
  assert (Hone : forall c' : crawler,
             ((if bool_decide (url ∈ visited_urls c') then 1 else 0) <= 1)%nat).
  { intros c'. destruct (bool_decide (url ∈ visited_urls c')); lia. }
  repeat split.
  - intros Hne. specialize (Hone (snd (all fuel new_crawler))).
    destruct (String.eqb_spec (base_url settings) url) as [Heq|_]; [congruence | lia].
  - specialize (Hone (snd (all fuel new_crawler))).
    destruct (String.eqb (base_url settings) url); lia.
  - intros book_urls c.
    assert (Hk : fetch_budget (fun u => fetches_of u (trace c)) c) by (intros u; lia).
    pose proof (gather_budget _ book_urls c Hk url) as H.
    specialize (Hone (snd (gather book_urls c))). simpl in H. lia.
  - intros category_url c.
    assert (Hk : fetch_budget (fun u => fetches_of u (trace c)) c) by (intros u; lia).
    pose proof (category_loop_budget _ fuel (Some category_url) [] c Hk url) as H.
    specialize (Hone (snd (category fuel category_url c))). simpl in H.
    unfold crawl_category. unfold crawl_category in Hone. lia.
Qed.

(** C5, as the code has it.  When the fetch of the main page returns no
    text (its attempts failed, or the answer was a 404 or empty),
    [crawl_all] crawls no category and returns the empty list: the run
    ends early, as a normal return.  [crawl_all] ends in an exception
    exactly when [get_all_categories] does, and then with that exception:
    one that the backoff sleep of the fetch of the main page raised, or
    one that the selection of the category links raised on a main page
    that was fetched. *)
Theorem root_failure_returns_empty (fuel : nat) (c : crawler) (html : option string) :
  fst (fetch (base_url settings) None None c) = Some (Returned html) ->
  truthy_str html = false ->
  all fuel c = (Some (Returned []), snd (fetch (base_url settings) None None c))
  /\ (forall fuel' c' exc,
        fst (all fuel' c') = Some (Raised exc)
        <-> fst (all_categories c') = Some (Raised exc))
  /\ (forall c' exc,
        fst (all_categories c') = Some (Raised exc) ->
        fst (fetch (base_url settings) None None c') = Some (Raised exc)
        \/ exists text,
             fst (fetch (base_url settings) None None c') = Some (Returned (Some text))
             /\ text <> EmptyString
             /\ select_category_urls text (base_url settings) = Raised exc).
Proof.
  intros Hroot Hfalsy. split; [|split].
  - unfold crawl_all, get_all_categories.
    destruct (fetch (base_url settings) None None c) as [r c1].
    simpl in Hroot. subst r. rewrite Hfalsy. reflexivity.
  - intros fuel' c' exc. unfold crawl_all.
    destruct (all_categories c') as [[[urls|exc']|] c1]; simpl.
    + destruct (categories fuel' urls [] c1) as [[bs|] c2]; simpl;
        split; intros H; discriminate H.
    + split; intros [= <-]; reflexivity.
    + split; intros H; discriminate H.
  - intros c' exc. unfold get_all_categories.
    destruct (fetch (base_url settings) None None c') as [[[page|exc']|] c1]; simpl.
    + destruct (truthy_str page) eqn:Et; [|discriminate].
      destruct page as [text|]; [|discriminate]. simpl in Et. simpl.
      intros [= Hsel]. right. exists text. repeat split; [|exact Hsel].
      intros ->. discriminate Et.
    + intros [= <-]. left. reflexivity.
    + discriminate.
Qed.

End Run.

End Walk.

End Pages.

End CrawlerFacts.

(** *** The crawler on concrete sites *)

Section CrawlerExamples.

Import Crawl Spec Scenario.

(** The sleeps between the three attempts of the default settings, of 1
    and of 2 seconds, come to their end. *)
Lemma default_sleeps_return :
  sleeps_return sleep_power (retry_backoff_factor default_settings)
    (retry_max_attempts default_settings).
Proof.
  intros attempt Hattempt. simpl in Hattempt.
  assert (Hcases : attempt = 0 \/ attempt = 1) by lia.
  destruct Hcases as [-> | ->]; vm_compute; reflexivity.
Qed.

Lemma default_sleeps_end :
  sleeps_end sleep_power (retry_backoff_factor default_settings)
    (retry_max_attempts default_settings).
Proof.
  intros attempt Hattempt. rewrite (default_sleeps_return attempt Hattempt). discriminate.
Qed.

Lemma fetch_with_retry_attempts_witness :
  fst (_fetch_with_retry default_settings server_down sleep_power page_a None None
         new_crawler) = Some (Returned None)
  /\ gets_of page_a
       (trace (snd (_fetch_with_retry default_settings server_down sleep_power page_a
                      None None new_crawler))) = 3%nat.
Proof.
  assert (Hdown : forall n, retryable_outcome (server_down page_a n)).
  { intros n. simpl. split; lia. }
  destruct (fetch_with_retry_attempts default_settings server_down sleep_power page_a
              None None new_crawler Hdown ltac:(simpl; lia) default_sleeps_return)
    as [Hnone [Hgets _]].
  split; [exact Hnone | rewrite Hgets; reflexivity].
Defined.

(** C6, the statement of the specification refuted: with four attempts
    and a backoff factor of -1e200, on a server that answers 503 to every
    request, the sleeps after the first and the second request come to
    their end (of 1 second, and of -1e200 seconds, which is no sleep at
    all), the power for the sleep after the third request is out of range:
    [_fetch_with_retry] raises [OverflowError] after three requests, where
    the statement has a fourth request and a failure value. *)
Lemma fetch_with_retry_raises_in_backoff :
  (forall n, retryable_outcome (server_down page_a n))
  /\ fst (_fetch_with_retry default_settings server_down sleep_power page_a (Some 4)
            (Some (-1e200)%float) new_crawler) = Some (Raised "OverflowError")
  /\ gets_of page_a
       (trace (snd (_fetch_with_retry default_settings server_down sleep_power page_a
                      (Some 4) (Some (-1e200)%float) new_crawler))) = 3%nat.
Proof.
  split; [intros n; simpl; split; lia|].
  split; vm_compute; reflexivity.
Qed.

(** C7, the statement of the specification refuted: when the main page
    lists itself among its categories, the base URL is fetched by
    [get_all_categories] and once more by [crawl_category]. *)
Lemma crawl_all_fetches_root_twice :
  fetches_of root
    (trace (snd (crawl_all default_settings server_up sleep_power parse_nothing no_links
                   no_next links_to_itself 1 new_crawler))) = 2%nat.
Proof. vm_compute. reflexivity. Qed.

Lemma crawl_all_fetches_once_witness :
  (fetches_of page_a
     (trace (snd (crawl_all default_settings server_up sleep_power parse_nothing no_links
                    no_next one_category 3 new_crawler))) <= 1)%nat.
Proof.
  apply (proj1 (crawl_all_fetches_once default_settings server_up sleep_power parse_nothing
                  no_links no_next one_category 3 page_a)).
  discriminate.
Defined.

Example crawl_category_cycle :
  fst (crawl_category default_settings server_cycle sleep_power parse_nothing no_links
         next_is_text 3 page_a new_crawler) = Some (Returned []).
Proof. vm_compute. reflexivity. Qed.

Lemma crawl_category_terminates_witness :
  exists result,
    fst (crawl_category default_settings server_cycle sleep_power parse_nothing no_links
           next_is_text 3 page_a new_crawler) = Some result.
Proof.
  apply (crawl_category_terminates default_settings server_cycle sleep_power parse_nothing
           no_links next_is_text site_cycle page_a new_crawler 3).
  - unfold site_cycle. set_solver.
  - intros url n text next _ Hserved Hnext. unfold server_cycle in Hserved.
    unfold next_is_text in Hnext. injection Hnext as <-.
    destruct (String.eqb url page_a); injection Hserved as <-;
      unfold site_cycle; set_solver.
  - simpl. lia.
  - exact default_sleeps_end.
  - unfold site_cycle. rewrite size_union by (unfold page_a, page_b; set_solver).
    rewrite !size_singleton. lia.
Defined.

Lemma length_append (a b : string) :
  String.length (a ++ b) = (String.length a + String.length b)%nat.
Proof. induction a as [|ch a IH]; simpl; [reflexivity | rewrite IH; reflexivity]. Qed.

(** On the site that never ends, the walk marks and fetches one fresh
    page after the other. *)
Lemma walk_goes_deeper fuel : forall url books c,
  url <> EmptyString ->
  (forall v, v ∈ visited_urls c -> (String.length v < String.length url)%nat) ->
  fst (crawl_category_loop default_settings server_up sleep_power parse_nothing no_links
         next_is_deeper fuel (Some url) books c) = None.
Proof.
  induction fuel as [|fuel IH]; intros url books c Hurl Hshort.
  - simpl. destruct (String.eqb_spec url EmptyString) as [->|_]; [congruence|reflexivity].
  - cbn [crawl_category_loop truthy_str].
    destruct (String.eqb_spec url EmptyString) as [->|_]; [congruence|].
    cbn [negb default from_option id].
    rewrite bool_decide_eq_false_2.
    2:{ intros Hin. specialize (Hshort url Hin). lia. }
    change (_fetch_with_retry default_settings server_up sleep_power url None None
              (visit url c))
      with (Some (Returned (Some "page")), emit (Get url) (emit (Fetch url) (visit url c))).
    cbn [truthy_str String.eqb Ascii.eqb Bool.eqb negb default from_option id no_links
         gather_books next_is_deeper].
    apply IH.
    + destruct url; [congruence | discriminate].
    + intros v Hv. rewrite length_append. simpl in Hv.
      apply elem_of_union in Hv as [Hv|Hv].
      * apply elem_of_singleton in Hv. subst v. simpl. lia.
      * specialize (Hshort v Hv). lia.
Qed.

(** C8, the statement of the specification refuted: on a site on which
    every page is served and links to a next page one step further, which
    was not seen before, the loop of [crawl_category] is not left,
    whatever the number of iterations. *)
Lemma crawl_category_never_ends :
  (forall url n, server_up url n = Response 200 "page")
  /\ (forall url, next_is_deeper "page" url = Returned (Some (url ++ "/next")%string))
  /\ (forall fuel,
        fst (crawl_category default_settings server_up sleep_power parse_nothing no_links
               next_is_deeper fuel page_a new_crawler) = None).
Proof.
  split; [reflexivity|]. split; [reflexivity|].
  intros fuel. unfold crawl_category. apply walk_goes_deeper.
  - discriminate.
  - intros v Hv. simpl in Hv. set_solver.
Qed.

(** C5, the statement of the specification refuted: with the server
    down the main page cannot be fetched, and [crawl_all] returns the
    empty list, as it does when the main page is served and every other
    page fails; nothing is raised. *)
Lemma root_failure_is_not_surfaced :
  fst (_fetch_with_retry default_settings server_down sleep_power root None None
         new_crawler) = Some (Returned None)
  /\ fst (crawl_all default_settings server_down sleep_power parse_nothing no_links no_next
            one_category 5 new_crawler) = Some (Returned [])
  /\ fst (crawl_all default_settings server_root_only sleep_power parse_nothing no_links
            no_next one_category 5 new_crawler) = Some (Returned [])
  /\ ~ run_level_failure
         (fst (crawl_all default_settings server_down sleep_power parse_nothing no_links
                 no_next one_category 5 new_crawler)).
Proof.
  split; [vm_compute; reflexivity|].
  split; [vm_compute; reflexivity|].
  split; [vm_compute; reflexivity|].
  intros [exc Hexc]. vm_compute in Hexc. discriminate Hexc.
Qed.

Lemma root_failure_returns_empty_witness :
  fst (crawl_all default_settings server_down sleep_power parse_nothing no_links no_next
         one_category 5 new_crawler) = Some (Returned []).
Proof.
  assert (Hroot : fst (_fetch_with_retry default_settings server_down sleep_power
                         (base_url default_settings) None None new_crawler)
                  = Some (Returned None)) by (vm_compute; reflexivity).
  rewrite (proj1 (root_failure_returns_empty default_settings server_down sleep_power
                    parse_nothing no_links no_next one_category 5 new_crawler None
                    Hroot eq_refl)).
  reflexivity.
Defined.

(** An exception of the selection of the category links leaves
    [crawl_all]. *)
Example root_parse_failure_is_surfaced :
  fst (crawl_all default_settings server_up sleep_power parse_nothing no_links no_next
         links_raise 5 new_crawler) = Some (Raised "ValueError").
Proof. vm_compute. reflexivity. Qed.

End CrawlerExamples.

(** ** The repository *)

Section RepositoryFacts.

Import Models Repository Spec.

Lemma find_one_app {A} (p : A -> bool) (docs : list A) (d : A) :
  find_one p docs = None ->
  find_one p (docs ++ [d]) = if p d then Some d else None.
Proof.
  induction docs as [|x docs IH]; simpl; [reflexivity|].
  destruct (p x); [discriminate | exact IH].
Qed.

Lemma find_one_holds {A} (p : A -> bool) (docs : list A) (d : A) :
  find_one p docs = Some d -> p d = true.
Proof.
  induction docs as [|x docs IH]; simpl; [discriminate|].
  destruct (p x) eqn:E; [intros [= <-]; exact E | exact IH].
Qed.

Lemma find_one_In {A} (p : A -> bool) (docs : list A) (d : A) :
  find_one p docs = Some d -> In d docs.
Proof.
  induction docs as [|x docs IH]; simpl; [discriminate|].
  destruct (p x); [intros [= <-]; left; reflexivity | intros H; right; exact (IH H)].
Qed.

Lemma find_one_some {A} (p : A -> bool) (docs : list A) (d : A) :
  In d docs -> p d = true -> exists d', find_one p docs = Some d'.
Proof.
  induction docs as [|x docs IH]; simpl; [intros []|].
  intros [->|Hin] Hp.
  - rewrite Hp. eauto.
  - destruct (p x); [eauto | exact (IH Hin Hp)].
Qed.

Lemma update_one_length {A} (p : A -> bool) (f : A -> A) (docs : list A) :
  length (update_one p f docs) = length docs.
Proof.
  induction docs as [|d docs IH]; simpl; [reflexivity|].
  destruct (p d); simpl; [reflexivity | rewrite IH; reflexivity].
Qed.

Lemma update_one_absent {A} (p : A -> bool) (f : A -> A) (docs : list A) :
  find_one p docs = None -> update_one p f docs = docs.
Proof.
  induction docs as [|d docs IH]; simpl; [reflexivity|].
  destruct (p d); [discriminate|]. intros H. rewrite (IH H). reflexivity.
Qed.

(** The document that an update changed is the one that its filter finds
    afterwards, when it still matches. *)
Lemma find_one_updated {A} (p : A -> bool) (f : A -> A) (docs : list A) (d : A) :
  find_one p docs = Some d -> p (f d) = true ->
  find_one p (update_one p f docs) = Some (f d).
Proof.
  induction docs as [|x docs IH]; simpl; [discriminate|].
  destruct (p x) eqn:E.
  - intros [= ->] Hp. simpl. rewrite Hp. reflexivity.
  - intros Hfind Hp. simpl. rewrite E. exact (IH Hfind Hp).
Qed.

(** With ids that are unique, the document found under the id of a stored
    document is this document. *)
Lemma unique_ids_find (db : database) (e : Book.t) :
  unique_ids db -> In e (books db) ->
  find_one (by_id (Book.id e)) (books db) = Some e.
Proof.
  unfold unique_ids. induction (books db) as [|x docs IH]; simpl; [intros _ []|].
  intros Hnodup Hin. apply NoDup_cons in Hnodup as [Hfresh Hnodup].
  unfold by_id at 1. destruct (String.eqb_spec (Book.id x) (Book.id e)) as [Heq|Hne].
  - destruct Hin as [->|Hin]; [reflexivity|].
    exfalso. apply Hfresh. rewrite Heq. apply list_elem_of_In, in_map, Hin.
  - destruct Hin as [->|Hin]; [congruence|]. exact (IH Hnodup Hin).
Qed.

(** An update that writes the URL [url] into the first document with the
    id of the document found under [url]: afterwards an updated document
    is found under [url]. *)
Lemma find_url_after_update_by_id (url : string) (f : Book.t -> Book.t)
    (docs : list Book.t) (e : Book.t) :
  (forall d, Book.source_url (f d) = url) ->
  find_one (by_url url) docs = Some e ->
  exists d, find_one (by_url url) (update_one (by_id (Book.id e)) f docs) = Some (f d).
Proof.
  intros Hurl. induction docs as [|x docs IH]; simpl; [discriminate|].
  destruct (by_url url x) eqn:Ex.
  - intros [= ->]. unfold by_id at 1. rewrite String.eqb_refl. simpl.
    unfold by_url at 1. rewrite Hurl, String.eqb_refl. eauto.
  - intros Hfind. destruct (by_id (Book.id e) x).
    + simpl. unfold by_url at 1. rewrite Hurl, String.eqb_refl. eauto.
    + simpl. rewrite Ex. apply IH, Hfind.
Qed.

(** An update that leaves the URLs alone: the document found under [url]
    is the one found before, updated or not. *)
Lemma find_url_after_update_keep (url : string) (p : Book.t -> bool)
    (f : Book.t -> Book.t) (docs : list Book.t) (e : Book.t) :
  (forall d, Book.source_url (f d) = Book.source_url d) ->
  find_one (by_url url) docs = Some e ->
  find_one (by_url url) (update_one p f docs) = Some e
  \/ find_one (by_url url) (update_one p f docs) = Some (f e).
Proof.
  intros Hurl. induction docs as [|x docs IH]; simpl; [discriminate|].
  destruct (by_url url x) eqn:Ex.
  - intros [= ->]. destruct (p e); simpl.
    + right. unfold by_url in *. rewrite Hurl, Ex. reflexivity.
    + left. rewrite Ex. reflexivity.
  - intros Hfind. destruct (p x); simpl.
    + unfold by_url in *. rewrite Hurl, Ex. left. exact Hfind.
    + rewrite Ex. apply IH, Hfind.
Qed.

(** What the two [$set] documents of the change detector do to a
    document. *)
Lemma apply_set_timestamp (t t' : Z) (d : Book.t) :
  apply_set (<["crawl_timestamp" := VDatetime t']> {["crawl_timestamp" := VDatetime t]}) d
  = Book.mk (Book.id d) (Book.name d) (Book.description d) (Book.category d)
      (Book.price_including_tax d) (Book.price_excluding_tax d) (Book.availability d)
      (Book.number_of_reviews d) (Book.image_url d) (Book.rating d) (Book.source_url d)
      t' (Book.status d) (Book.raw_html d) (Book.data_hash d).
Proof. reflexivity. Qed.

Lemma apply_set_book (b : BookCreate.t) (h : string) (t : Z) (d : Book.t) :
  apply_set (<["crawl_timestamp" := VDatetime t]>
             (<["data_hash" := VStr h]> (model_dump b))) d
  = Book.mk (Book.id d) (BookCreate.name b) (BookCreate.description b)
      (BookCreate.category b) (BookCreate.price_including_tax b)
      (BookCreate.price_excluding_tax b) (BookCreate.availability b)
      (BookCreate.number_of_reviews b) (BookCreate.image_url b) (BookCreate.rating b)
      (BookCreate.source_url b) t (Book.status d) (BookCreate.raw_html b) (Some h).
Proof.
  destruct b as [n [de|] c p1 p2 a r [i|] ra su [rh|]]; reflexivity.
Qed.

(** *** What [Book] accepts and what the driver encodes *)

Lemma fits_int64_spec (z : Z) : fits_int64 z = true <-> - 2 ^ 63 <= z < 2 ^ 63.
Proof. unfold fits_int64. rewrite andb_true_iff, Z.leb_le, Z.ltb_lt. reflexivity. Qed.

Lemma valid_rating_fits (z : Z) : valid_rating z -> fits_int64 z = true.
Proof. unfold valid_rating. intros H. apply fits_int64_spec. lia. Qed.

Lemma new_Book_valid (e : Book.t) :
  valid_rating (Book.rating e) -> new_Book e = Returned e.
Proof.
  unfold valid_rating, new_Book. intros [H0 H5].
  apply Z.leb_le in H0, H5. rewrite H0, H5. reflexivity.
Qed.

Lemma new_Book_invalid (e : Book.t) :
  ~ valid_rating (Book.rating e) -> new_Book e = Raised "ValidationError".
Proof.
  unfold valid_rating, new_Book. intros H.
  destruct (0 <=? Book.rating e) eqn:E0; [|reflexivity].
  destruct (Book.rating e <=? 5) eqn:E5; [|reflexivity].
  apply Z.leb_le in E0, E5. exfalso. apply H. lia.
Qed.

Lemma encodable_empty : encodable ∅ = true.
Proof. apply bool_decide_eq_true_2, map_Forall_empty. Qed.

Lemma encodable_insert (k : string) (v : pyval) (d : gmap string pyval) :
  encodable_value v = true -> encodable d = true -> encodable (<[k := v]> d) = true.
Proof.
  unfold encodable. intros Hv Hd. apply bool_decide_eq_true_1 in Hd.
  apply bool_decide_eq_true_2, map_Forall_insert_2; assumption.
Qed.

Lemma encodable_lookup (d : gmap string pyval) (k : string) (v : pyval) :
  encodable d = true -> d !! k = Some v -> encodable_value v = true.
Proof.
  unfold encodable. intros Hd Hk. apply bool_decide_eq_true_1 in Hd. exact (Hd k v Hk).
Qed.

(** A dump is encoded when its two integers fit, whatever is set in it
    besides that is no integer. *)
Lemma encodable_model_dump (b : BookCreate.t) :
  encodable (model_dump b)
  = fits_int64 (BookCreate.number_of_reviews b) && fits_int64 (BookCreate.rating b).
Proof.
  destruct (fits_int64 (BookCreate.number_of_reviews b)) eqn:En;
    [destruct (fits_int64 (BookCreate.rating b)) eqn:Er|]; simpl.
  - unfold model_dump.
    repeat (apply encodable_insert;
            [first [exact En | exact Er | reflexivity
                   | destruct (BookCreate.description b); reflexivity
                   | destruct (BookCreate.image_url b); reflexivity
                   | destruct (BookCreate.raw_html b); reflexivity]|]).
    apply encodable_empty.
  - destruct (encodable (model_dump b)) eqn:E; [|reflexivity].
    pose proof (encodable_lookup _ "rating" (VInt (BookCreate.rating b)) E eq_refl) as H.
    simpl in H. congruence.
  - destruct (encodable (model_dump b)) eqn:E; [|reflexivity].
    pose proof (encodable_lookup _ "number_of_reviews"
                  (VInt (BookCreate.number_of_reviews b)) E eq_refl) as H.
    simpl in H. congruence.
Qed.

Lemma encodable_timestamp (t t' : Z) :
  encodable (<["crawl_timestamp" := VDatetime t']> {["crawl_timestamp" := VDatetime t]})
  = true.
Proof.
  apply encodable_insert; [reflexivity|].
  apply (encodable_insert "crawl_timestamp" (VDatetime t) ∅); [reflexivity|].
  apply encodable_empty.
Qed.

Lemma encodable_update_data (b : BookCreate.t) (h : string) (t : Z) :
  encodable (<["crawl_timestamp" := VDatetime t]>
             (<["data_hash" := VStr h]> (model_dump b)))
  = encodable (model_dump b).
Proof.
  destruct (encodable (model_dump b)) eqn:E.
  - apply encodable_insert; [reflexivity|]. apply encodable_insert; [reflexivity|exact E].
  - rewrite encodable_model_dump in E.
    destruct (encodable (<["crawl_timestamp" := VDatetime t]>
                         (<["data_hash" := VStr h]> (model_dump b)))) eqn:E'; [|reflexivity].
    pose proof (encodable_lookup _ "rating" (VInt (BookCreate.rating b)) E' eq_refl) as Hr.
    pose proof (encodable_lookup _ "number_of_reviews"
                  (VInt (BookCreate.number_of_reviews b)) E' eq_refl) as Hn.
    simpl in Hr, Hn. rewrite Hr, Hn in E. discriminate E.
Qed.


Lemma storable_encodable (b : BookCreate.t) :
  storable b -> encodable (model_dump b) = true.
Proof.
  intros [Hr Hn]. rewrite encodable_model_dump.
  rewrite (valid_rating_fits _ Hr). rewrite (proj2 (fits_int64_spec _) Hn). reflexivity.
Qed.

End RepositoryFacts.

(** ** The fingerprint *)

Section HashFacts.

Import Models Repository Spec.

Variable json_dumps_sorted : gmap string pyval -> string.
Variable sha256_hexdigest : string -> string.

Local Abbreviation hash := (Utils.generate_data_hash json_dumps_sorted sha256_hexdigest).

(** The fingerprint reads the five keys and nothing else. *)
Lemma hash_five_keys (d1 d2 : gmap string pyval) :
  d1 !! "name" = d2 !! "name" ->
  d1 !! "price_including_tax" = d2 !! "price_including_tax" ->
  d1 !! "price_excluding_tax" = d2 !! "price_excluding_tax" ->
  d1 !! "availability" = d2 !! "availability" ->
  d1 !! "rating" = d2 !! "rating" ->
  hash d1 = hash d2.
Proof.
  intros H1 H2 H3 H4 H5.
  unfold Utils.generate_data_hash, Utils.significant_fields, Utils.dict_get.
  rewrite H1, H2, H3, H4, H5. reflexivity.
Qed.

Lemma hash_book_dict (b : BookCreate.t) (t : Z) :
  hash (book_dict b t) = hash (model_dump b).
Proof. apply hash_five_keys; reflexivity. Qed.

Lemma hash_document (e : Book.t) (b : BookCreate.t) :
  same_significant_fields e b -> hash (document e) = hash (model_dump b).
Proof.
  intros (Hn & Hp1 & Hp2 & Ha & Hr).
  apply hash_five_keys; unfold document, model_dump; cbn;
    [rewrite Hn | rewrite Hp1 | rewrite Hp2 | rewrite Ha | rewrite Hr]; reflexivity.
Qed.

(** The dictionary that is hashed holds the five keys, whatever the
    dictionary it is taken from; for the dump of an item it holds the
    item's name, prices, availability and rating. *)
Lemma significant_fields_keys (d : gmap string pyval) :
  dom (Utils.significant_fields d) = fingerprint_keys.
Proof.
  unfold Utils.significant_fields, fingerprint_keys.
  rewrite !dom_insert_L, dom_empty_L. set_solver.
Qed.

Lemma significant_fields_model_dump (b : BookCreate.t) :
  Utils.significant_fields (model_dump b) = fingerprint_fields b.
Proof. reflexivity. Qed.

End HashFacts.

(** ** The change detector *)

Section DetectorFacts.

Import Models Repository Detector Spec.

Variable json_dumps_sorted : gmap string pyval -> string.
Variable sha256_hexdigest : string -> string.
Variable utcnow : nat -> Z.
Variable uuid4 : nat -> string.

Local Abbreviation hash := (Utils.generate_data_hash json_dumps_sorted sha256_hexdigest).
Local Abbreviation process :=
  (process_book json_dumps_sorted sha256_hexdigest utcnow uuid4).

(** *** The paths of [process_book] *)

(** No document under the URL, and a number of reviews or a rating that
    8 bytes do not hold: [insert_one] raises and nothing is written. *)
Lemma process_new_overflow (db : database) (b : BookCreate.t) :
  stored db (BookCreate.source_url b) = None ->
  encodable (model_dump b) = false ->
  process b db
  = (Raised "OverflowError",
     mk_database (books db) (change_logs db) (S (clock_reads db)) (S (uuid_draws db))).
Proof.
  unfold stored. intros Hnone Henc. rewrite encodable_model_dump in Henc.
  unfold process_book, bind, get_by_url, find_book. rewrite Hnone.
  unfold upsert_by_url, bind, get_by_url, find_book. rewrite Hnone.
  cbn [now new_uuid books change_logs clock_reads uuid_draws].
  unfold insert_book, encodable_book.
  cbn [book_of Book.number_of_reviews Book.rating]. rewrite Henc. reflexivity.
Qed.

(** No document under the URL, and a rating that [Book] does not accept:
    the document is inserted, then [Book] raises; no log entry is
    written. *)
Lemma process_new_invalid (db : database) (b : BookCreate.t) :
  stored db (BookCreate.source_url b) = None ->
  encodable (model_dump b) = true ->
  ~ valid_rating (BookCreate.rating b) ->
  process b db
  = (Raised "ValidationError",
     mk_database
       (books db ++ [book_of (uuid4 (uuid_draws db)) b (utcnow (clock_reads db)) "active"
                       (hash (book_dict b (utcnow (clock_reads db))))])
       (change_logs db) (S (clock_reads db)) (S (uuid_draws db))).
Proof.
  unfold stored. intros Hnone Henc Hrating. rewrite encodable_model_dump in Henc.
  unfold process_book, bind, get_by_url, find_book. rewrite Hnone.
  unfold upsert_by_url, bind, get_by_url, find_book. rewrite Hnone.
  cbn [now new_uuid books change_logs clock_reads uuid_draws].
  unfold insert_book, encodable_book.
  cbn [book_of Book.number_of_reviews Book.rating]. rewrite Henc.
  rewrite new_Book_invalid by exact Hrating. reflexivity.
Qed.

(** No document under the URL, and an item that can be stored: the book
    is inserted and a log entry written. *)
Lemma process_new (db : database) (b : BookCreate.t) :
  stored db (BookCreate.source_url b) = None ->
  storable b ->
  process b db
  = (Returned (Some (ChangeLogCreate.mk (uuid4 (uuid_draws db)) ∅ ∅ (model_dump b)
                       "new_book")),
     mk_database
       (books db ++ [book_of (uuid4 (uuid_draws db)) b (utcnow (clock_reads db)) "active"
                       (hash (book_dict b (utcnow (clock_reads db))))])
       (change_logs db ++ [ChangeLog.mk (uuid4 (S (uuid_draws db))) (uuid4 (uuid_draws db))
                             ∅ ∅ (model_dump b) "new_book"
                             (utcnow (S (clock_reads db)))])
       (S (S (clock_reads db))) (S (S (uuid_draws db)))).
Proof.
  unfold stored. intros Hnone Hstorable.
  pose proof (storable_encodable b Hstorable) as Henc.
  pose proof Henc as Hfits. rewrite encodable_model_dump in Hfits.
  destruct Hstorable as [Hrating _].
  unfold process_book, bind, get_by_url, find_book. rewrite Hnone.
  unfold upsert_by_url, bind, get_by_url, find_book. rewrite Hnone.
  cbn [now new_uuid books change_logs clock_reads uuid_draws].
  unfold insert_book, encodable_book.
  cbn [book_of Book.number_of_reviews Book.rating]. rewrite Hfits.
  rewrite new_Book_valid by exact Hrating.
  cbn [lift ret build_change_log new_ChangeLogCreate Book.id].
  unfold create_change_log, bind.
  cbn [now new_uuid books change_logs clock_reads uuid_draws].
  unfold insert_change_log.
  cbn [ChangeLog.changed_fields ChangeLog.old_values ChangeLog.new_values
       ChangeLogCreate.changed_fields ChangeLogCreate.old_values
       ChangeLogCreate.new_values].
  rewrite encodable_empty, Henc. reflexivity.
Qed.

(** A document under the URL with a rating that [Book] does not accept:
    [get_by_url] raises and nothing is written. *)
Lemma process_stored_invalid (db : database) (b : BookCreate.t) (e : Book.t) :
  stored db (BookCreate.source_url b) = Some e ->
  ~ valid_rating (Book.rating e) ->
  process b db = (Raised "ValidationError", db).
Proof.
  unfold stored. intros Hsome Hrating.
  unfold process_book, bind, get_by_url, find_book. rewrite Hsome.
  rewrite new_Book_invalid by exact Hrating. reflexivity.
Qed.

(** The stored fingerprint is the new one: only the timestamp is
    written; the call returns [None], unless the update modified the
    document and the document read back under the id is one that [Book]
    does not accept. *)
Lemma process_unchanged_state (db : database) (b : BookCreate.t) (e : Book.t) :
  stored db (BookCreate.source_url b) = Some e ->
  valid_rating (Book.rating e) ->
  Book.data_hash e = Some (hash (model_dump b)) ->
  snd (process b db)
  = mk_database
      (update_one (by_id (Book.id e))
         (apply_set (<["crawl_timestamp" := VDatetime (utcnow (S (clock_reads db)))]>
                     {["crawl_timestamp" := VDatetime (utcnow (clock_reads db))]}))
         (books db))
      (change_logs db) (S (S (clock_reads db))) (uuid_draws db)
  /\ (fst (process b db) = Returned None
      \/ fst (process b db) = Raised "ValidationError")
  /\ (find_one (by_id (Book.id e)) (books db) = Some e ->
      fst (process b db) = Returned None).
Proof.
  unfold stored. intros Hsome Hrating Hhash.
  unfold process_book, bind, get_by_url, find_book. rewrite Hsome.
  rewrite new_Book_valid by exact Hrating.
  rewrite bool_decide_eq_true_2 by exact Hhash.
  cbn [now books change_logs clock_reads uuid_draws].
  unfold update, bind.
  cbn [now books change_logs clock_reads uuid_draws].
  unfold update_book. rewrite encodable_timestamp.
  cbn [books change_logs clock_reads uuid_draws].
  destruct (0 <? modified_count _ _ _)%nat eqn:Emod.
  - unfold get_by_id, find_book. cbn [books].
    unfold modified_count in Emod.
    destruct (find_one (by_id (Book.id e)) (books db)) as [d0|] eqn:Hid;
      [|discriminate Emod].
    rewrite (find_one_updated _ _ _ d0 Hid).
    2:{ rewrite apply_set_timestamp. unfold by_id. cbn [Book.id].
        exact (find_one_holds _ _ _ Hid). }
    rewrite apply_set_timestamp.
    split; [destruct (new_Book _); reflexivity|]. split.
    + unfold new_Book. cbn [Book.rating].
      destruct ((0 <=? Book.rating d0) && (Book.rating d0 <=? 5)); [left|right]; reflexivity.
    + intros [= ->]. rewrite new_Book_valid by exact Hrating. reflexivity.
  - split; [reflexivity|]. split; [left; reflexivity | intros _; reflexivity].
Qed.

Lemma process_unchanged (db : database) (b : BookCreate.t) (e : Book.t) :
  stored db (BookCreate.source_url b) = Some e ->
  valid_rating (Book.rating e) ->
  find_one (by_id (Book.id e)) (books db) = Some e ->
  Book.data_hash e = Some (hash (model_dump b)) ->
  process b db
  = (Returned None,
     mk_database
       (update_one (by_id (Book.id e))
          (apply_set (<["crawl_timestamp" := VDatetime (utcnow (S (clock_reads db)))]>
                      {["crawl_timestamp" := VDatetime (utcnow (clock_reads db))]}))
          (books db))
       (change_logs db) (S (S (clock_reads db))) (uuid_draws db)).
Proof.
  intros Hsome Hrating Hid Hhash.
  destruct (process_unchanged_state db b e Hsome Hrating Hhash) as (Hstate & _ & Hresult).
  specialize (Hresult Hid).
  destruct (process b db) as [r db']. simpl in *. subst. reflexivity.
Qed.

(** The fingerprint differs and so does a field, and the integers of the
    item do not fit 8 bytes: [update_one] raises and nothing is written. *)
Lemma process_changed_overflow (db : database) (b : BookCreate.t) (e : Book.t)
    (ci : change_info) :
  stored db (BookCreate.source_url b) = Some e ->
  valid_rating (Book.rating e) ->
  Book.data_hash e <> Some (hash (model_dump b)) ->
  _detect_changes e b = Some ci ->
  encodable (model_dump b) = false ->
  process b db
  = (Raised "OverflowError",
     mk_database (books db) (change_logs db) (S (clock_reads db)) (uuid_draws db)).
Proof.
  unfold stored. intros Hsome Hrating Hhash Hdiff Henc.
  unfold process_book, bind, get_by_url, find_book. rewrite Hsome.
  rewrite new_Book_valid by exact Hrating.
  rewrite bool_decide_eq_false_2 by exact Hhash. rewrite Hdiff.
  unfold update, bind.
  cbn [now books change_logs clock_reads uuid_draws].
  unfold update_book. rewrite encodable_update_data, Henc. reflexivity.
Qed.

(** The fingerprint differs and so does a field: the document is
    updated, and the call ends in a [ValidationError], that of [Book] when
    the document is read back with a rating that [Book] does not accept,
    that of [ChangeLogCreate], built from the list of changed fields,
    otherwise. *)
Lemma process_changed (db : database) (b : BookCreate.t) (e : Book.t) (ci : change_info) :
  stored db (BookCreate.source_url b) = Some e ->
  valid_rating (Book.rating e) ->
  Book.data_hash e <> Some (hash (model_dump b)) ->
  _detect_changes e b = Some ci ->
  encodable (model_dump b) = true ->
  process b db
  = (Raised "ValidationError",
     mk_database
       (update_one (by_id (Book.id e))
          (apply_set (<["crawl_timestamp" := VDatetime (utcnow (clock_reads db))]>
                      (<["data_hash" := VStr (hash (model_dump b))]> (model_dump b))))
          (books db))
       (change_logs db) (S (clock_reads db)) (uuid_draws db)).
Proof.
  unfold stored. intros Hsome Hrating Hhash Hdiff Henc.
  unfold process_book, bind, get_by_url, find_book. rewrite Hsome.
  rewrite new_Book_valid by exact Hrating.
  rewrite bool_decide_eq_false_2 by exact Hhash. rewrite Hdiff.
  unfold update, bind.
  cbn [now books change_logs clock_reads uuid_draws].
  unfold update_book. rewrite encodable_update_data, Henc.
  cbn [books change_logs clock_reads uuid_draws].
  destruct (0 <? modified_count _ _ _)%nat eqn:Emod.
  - unfold get_by_id, find_book. cbn [books].
    unfold modified_count in Emod.
    destruct (find_one (by_id (Book.id e)) (books db)) as [d0|] eqn:Hid;
      [|discriminate Emod].
    rewrite (find_one_updated _ _ _ d0 Hid).
    2:{ rewrite apply_set_book. unfold by_id. cbn [Book.id].
        exact (find_one_holds _ _ _ Hid). }
    unfold new_Book. destruct (_ && _); reflexivity.
  - reflexivity.
Qed.

(** The fingerprint differs and no field does: nothing is written. *)
Lemma process_no_difference (db : database) (b : BookCreate.t) (e : Book.t) :
  stored db (BookCreate.source_url b) = Some e ->
  valid_rating (Book.rating e) ->
  Book.data_hash e <> Some (hash (model_dump b)) ->
  _detect_changes e b = None ->
  process b db = (Returned None, db).
Proof.
  unfold stored. intros Hsome Hrating Hhash Hdiff.
  unfold process_book, bind, get_by_url, find_book. rewrite Hsome.
  rewrite new_Book_valid by exact Hrating.
  rewrite bool_decide_eq_false_2 by exact Hhash. rewrite Hdiff. reflexivity.
Qed.

Lemma detect_changes_none (e : Book.t) (b : BookCreate.t) :
  no_field_differs e b -> _detect_changes e b = None.
Proof.
  intros (Hn & Hp1 & Hp2 & Ha & Hr & Hd & Hc).
  unfold _detect_changes. rewrite Hp1, Hp2.
  rewrite !bool_decide_eq_false_2 by (intros Hne; apply Hne; assumption).
  reflexivity.
Qed.

Lemma encodable_storable (b : BookCreate.t) :
  encodable (model_dump b) = true -> valid_rating (BookCreate.rating b) -> storable b.
Proof.
  intros Henc Hrating. split; [exact Hrating|].
  rewrite encodable_model_dump in Henc. apply andb_true_iff in Henc as [Hn _].
  apply fits_int64_spec, Hn.
Qed.

(** Every call of [process_book] takes one of these paths: what it
    returns or raises, and the database it leaves. *)
Lemma process_book_cases (db : database) (b : BookCreate.t) :
  let t0 := utcnow (clock_reads db) in
  let t1 := utcnow (S (clock_reads db)) in
  let id0 := uuid4 (uuid_draws db) in
  let id1 := uuid4 (S (uuid_draws db)) in
  let book := book_of id0 b t0 "active" (hash (book_dict b t0)) in
  process b db
  = (Raised "OverflowError",
     mk_database (books db) (change_logs db) (S (clock_reads db)) (S (uuid_draws db)))
  \/ process b db
     = (Raised "ValidationError",
        mk_database (books db ++ [book]) (change_logs db) (S (clock_reads db))
          (S (uuid_draws db)))
  \/ process b db
     = (Returned (Some (ChangeLogCreate.mk id0 ∅ ∅ (model_dump b) "new_book")),
        mk_database (books db ++ [book])
          (change_logs db ++ [ChangeLog.mk id1 id0 ∅ ∅ (model_dump b) "new_book" t1])
          (S (S (clock_reads db))) (S (S (uuid_draws db))))
  \/ process b db = (Raised "ValidationError", db)
  \/ (exists e result,
        process b db
        = (result,
           mk_database
             (update_one (by_id (Book.id e))
                (apply_set (<["crawl_timestamp" := VDatetime t1]>
                            {["crawl_timestamp" := VDatetime t0]}))
                (books db))
             (change_logs db) (S (S (clock_reads db))) (uuid_draws db))
        /\ (result = Returned None \/ result = Raised "ValidationError"))
  \/ process b db
     = (Raised "OverflowError",
        mk_database (books db) (change_logs db) (S (clock_reads db)) (uuid_draws db))
  \/ (exists e,
        process b db
        = (Raised "ValidationError",
           mk_database
             (update_one (by_id (Book.id e))
                (apply_set (<["crawl_timestamp" := VDatetime t0]>
                            (<["data_hash" := VStr (hash (model_dump b))]> (model_dump b))))
                (books db))
             (change_logs db) (S (clock_reads db)) (uuid_draws db)))
  \/ process b db = (Returned None, db).
Proof.
  intros t0 t1 id0 id1 book. subst t0 t1 id0 id1 book.
  destruct (stored db (BookCreate.source_url b)) as [e|] eqn:Hstored.
  - destruct (decide (0 <= Book.rating e <= 5)) as [Hvalid|Hvalid].
    + destruct (decide (Book.data_hash e = Some (hash (model_dump b)))) as [Hhash|Hhash].
      * destruct (process_unchanged_state db b e Hstored Hvalid Hhash) as (Hs & Hr & _).
        do 4 right. left. exists e, (fst (process b db)).
        split; [|exact Hr]. rewrite <- Hs. destruct (process b db); reflexivity.
      * destruct (_detect_changes e b) as [ci|] eqn:Hdiff.
        -- destruct (encodable (model_dump b)) eqn:Henc.
           ++ do 6 right. left. exists e.
              exact (process_changed db b e ci Hstored Hvalid Hhash Hdiff Henc).
           ++ do 5 right. left.
              exact (process_changed_overflow db b e ci Hstored Hvalid Hhash Hdiff Henc).
        -- do 7 right. exact (process_no_difference db b e Hstored Hvalid Hhash Hdiff).
    + do 3 right. left. exact (process_stored_invalid db b e Hstored Hvalid).
  - destruct (encodable (model_dump b)) eqn:Henc.
    + destruct (decide (0 <= BookCreate.rating b <= 5)) as [Hvalid|Hvalid].
      * do 2 right. left.
        exact (process_new db b Hstored (encodable_storable b Henc Hvalid)).
      * right. left. exact (process_new_invalid db b Hstored Henc Hvalid).
    + left. exact (process_new_overflow db b Hstored Henc).
Qed.

(** *** A book seen for the first time *)

(** C1, as the code has it.  When no document is stored under the URL of
    the item, the item is one that can be stored (a rating from 0 to 5, a
    number of reviews that 8 bytes hold) and the identifier drawn for it
    is that of no stored book, [process_book] stores the item (its
    fields, the status ["active"], its fingerprint, the identifier) and
    returns a change record, also appended to the log, whose
    [change_type] is ["new_book"], whose [changed_fields] and
    [old_values] are empty and whose [new_values] are the dump of the
    whole item. *)
Theorem process_new_book (db : database) (b : BookCreate.t) :
  stored db (BookCreate.source_url b) = None ->
  storable b ->
  find_one (by_id (uuid4 (uuid_draws db))) (books db) = None ->
  exists change_log db' book entry,
    process b db = (Returned (Some change_log), db')
    /\ ChangeLogCreate.change_type change_log = "new_book"
    /\ ChangeLogCreate.changed_fields change_log = ∅
    /\ ChangeLogCreate.old_values change_log = ∅
    /\ ChangeLogCreate.new_values change_log = model_dump b
    /\ ChangeLogCreate.book_id change_log = Book.id book
    /\ books db' = (books db ++ [book])%list
    /\ stored db' (BookCreate.source_url b) = Some book
    /\ book = book_of (uuid4 (uuid_draws db)) b (utcnow (clock_reads db)) "active"
                (hash (model_dump b))
    /\ change_logs db' = (change_logs db ++ [entry])%list
    /\ ChangeLog.book_id entry = Book.id book
    /\ ChangeLog.change_type entry = "new_book"
    /\ ChangeLog.changed_fields entry = ∅
    /\ ChangeLog.old_values entry = ∅
    /\ ChangeLog.new_values entry = model_dump b.
Proof.
  intros Hnew Hstorable _. rewrite (process_new db b Hnew Hstorable). rewrite hash_book_dict.
  eexists _, _, (book_of (uuid4 (uuid_draws db)) b (utcnow (clock_reads db)) "active"
                   (hash (model_dump b))), _.
  do 7 (split; [reflexivity|]).
  split; [|repeat (split; [reflexivity|]); reflexivity].
  unfold stored in *. simpl. rewrite (find_one_app _ _ _ Hnew).
  unfold by_url. simpl. rewrite String.eqb_refl. reflexivity.
Qed.

(** *** What the fingerprint does not see *)

(** C4.  The fingerprint of an item is the digest of the dictionary of
    exactly five entries: its name, its two prices, its availability and
    its rating; the dictionary that is hashed has these five keys
    whatever it is taken from, and two dictionaries that agree on them
    have the same fingerprint.  So when the stored book (in a collection
    with unique ids) carries the fingerprint of its own fields and agrees
    with the crawled item on these five fields, the two fingerprints are
    equal and [process_book] returns [None] and appends nothing to the
    change log, whatever the descriptions and the numbers of reviews. *)
Theorem description_change_goes_unnoticed (db : database) (b : BookCreate.t)
    (e : Book.t) :
  stored db (BookCreate.source_url b) = Some e ->
  unique_ids db ->
  valid_rating (BookCreate.rating b) ->
  Book.data_hash e = Some (hash (document e)) ->
  same_significant_fields e b ->
  hash (model_dump b) = sha256_hexdigest (json_dumps_sorted (fingerprint_fields b))
  /\ (forall d : gmap string pyval,
        dom (Utils.significant_fields d) = fingerprint_keys
        /\ hash d = sha256_hexdigest (json_dumps_sorted (Utils.significant_fields d)))
  /\ (forall d1 d2 : gmap string pyval,
        d1 !! "name" = d2 !! "name" ->
        d1 !! "price_including_tax" = d2 !! "price_including_tax" ->
        d1 !! "price_excluding_tax" = d2 !! "price_excluding_tax" ->
        d1 !! "availability" = d2 !! "availability" ->
        d1 !! "rating" = d2 !! "rating" ->
        hash d1 = hash d2)
  /\ hash (model_dump b) = hash (document e)
  /\ fst (process b db) = Returned None
  /\ change_logs (snd (process b db)) = change_logs db.
Proof.
  intros Hstored Hunique Hrating Hcurrent Hsame.
  pose proof (hash_document json_dumps_sorted sha256_hexdigest e b Hsame) as Heq.
  split; [reflexivity|].
  split; [intros d; split; [apply significant_fields_keys | reflexivity]|].
  split; [apply hash_five_keys|]. split; [symmetry; exact Heq|].
  rewrite Heq in Hcurrent.
  assert (Hvalid : valid_rating (Book.rating e)).
  { destruct Hsame as (_ & _ & _ & _ & Hr). rewrite Hr. exact Hrating. }
  assert (Hid : find_one (by_id (Book.id e)) (books db) = Some e).
  { apply unique_ids_find; [exact Hunique|]. exact (find_one_In _ _ _ Hstored). }
  rewrite (process_unchanged db b e Hstored Hvalid Hid Hcurrent). split; reflexivity.
Qed.

(** *** A stale fingerprint *)

(** C10.  When the stored fingerprint differs from the one computed for
    the item and the field-by-field comparison finds no difference (the
    rating, which is then the same on both sides, being one from 0 to 5),
    [process_book] returns [None] and leaves the database as it is: the
    stored book keeps its fingerprint and its timestamp, and every
    further call with the item finds the same book with the same stale
    fingerprint, runs the comparison again and writes nothing. *)
Theorem stale_fingerprint_is_kept (db : database) (b : BookCreate.t) (e : Book.t) :
  stored db (BookCreate.source_url b) = Some e ->
  valid_rating (BookCreate.rating b) ->
  Book.data_hash e <> Some (hash (model_dump b)) ->
  no_field_differs e b ->
  process b db = (Returned None, db)
  /\ forall n,
       let db_n := Nat.iter n (fun d => snd (process b d)) db in
       db_n = db
       /\ stored db_n (BookCreate.source_url b) = Some e
       /\ bool_decide (Book.data_hash e = Some (hash (model_dump b))) = false
       /\ _detect_changes e b = None
       /\ process b db_n = (Returned None, db_n).
Proof.
  intros Hstored Hrating Hstale Hsame.
  assert (Hvalid : valid_rating (Book.rating e)).
  { destruct Hsame as (_ & _ & _ & _ & Hr & _). rewrite Hr. exact Hrating. }
  pose proof (detect_changes_none e b Hsame) as Hdiff.
  pose proof (process_no_difference db b e Hstored Hvalid Hstale Hdiff) as Hp.
  split; [exact Hp|].
  intros n db_n.
  assert (Hn : db_n = db).
  { subst db_n. induction n as [|n IH]; simpl; [reflexivity|]. rewrite IH, Hp. reflexivity. }
  rewrite Hn. split; [reflexivity|]. split; [exact Hstored|].
  split; [apply bool_decide_eq_false_2, Hstale|]. split; [exact Hdiff | exact Hp].
Qed.

(** *** The stored fingerprints *)

Lemma update_one_Forall {A} (P : A -> Prop) (p : A -> bool) (f : A -> A) (docs : list A) :
  (forall d, P d -> P (f d)) -> Forall P docs -> Forall P (update_one p f docs).
Proof.
  intros Hf. induction 1 as [|d docs Hd Hds IH]; simpl; [constructor|].
  destruct (p d); constructor; auto.
Qed.

(** [process_book] keeps every stored fingerprint equal to the
    fingerprint of the stored fields, whatever path it takes. *)
Lemma process_keeps_fingerprints (db : database) (b : BookCreate.t) :
  Forall (fun e => Book.data_hash e = Some (hash (document e))) (books db) ->
  Forall (fun e => Book.data_hash e = Some (hash (document e)))
    (books (snd (process b db))).
Proof.
  intros Hall.
  assert (Hnew : forall id t,
             Forall (fun e => Book.data_hash e = Some (hash (document e)))
               (books db ++ [book_of id b t "active" (hash (book_dict b t))])).
  { intros id t. apply Forall_app. split; [exact Hall|]. constructor; [|constructor].
    reflexivity. }
  destruct (process_book_cases db b)
    as [H|[H|[H|[H|[(e & r & H & _)|[H|[(e & H)|H]]]]]]]; rewrite H; cbn [snd books];
    try exact Hall; try apply Hnew.
  - apply update_one_Forall; [|exact Hall].
    intros d Hd. rewrite apply_set_timestamp. cbn [Book.data_hash]. rewrite Hd.
    reflexivity.
  - apply update_one_Forall; [|exact Hall].
    intros d _. rewrite apply_set_book. reflexivity.
Qed.

(** [process_book] keeps the ids of the collection unique, as long as the
    identifier it draws is not that of a stored book. *)
Lemma update_one_ids (p : Book.t -> bool) (f : Book.t -> Book.t) (docs : list Book.t) :
  (forall d, Book.id (f d) = Book.id d) ->
  map Book.id (update_one p f docs) = map Book.id docs.
Proof.
  intros Hf. induction docs as [|d docs IH]; simpl; [reflexivity|].
  destruct (p d); simpl; [rewrite Hf | rewrite IH]; reflexivity.
Qed.

Lemma process_keeps_unique_ids (db : database) (b : BookCreate.t) :
  ~ In (uuid4 (uuid_draws db)) (map Book.id (books db)) ->
  unique_ids db -> unique_ids (snd (process b db)).
Proof.
  unfold unique_ids. intros Hfresh Hall.
  assert (Hnew : forall t h,
             NoDup (map Book.id (books db ++ [book_of (uuid4 (uuid_draws db)) b t "active" h]))).
  { intros t h. rewrite map_app. simpl. apply NoDup_app. split; [exact Hall|].
    split; [|apply NoDup_singleton].
    intros x Hx Hx'. apply list_elem_of_In in Hx. apply list_elem_of_singleton in Hx'.
    subst x. exact (Hfresh Hx). }
  destruct (process_book_cases db b)
    as [H|[H|[H|[H|[(e & r & H & _)|[H|[(e & H)|H]]]]]]]; rewrite H; cbn [snd books];
    try exact Hall; try apply Hnew.
  - rewrite update_one_ids; [exact Hall|]. intros d. rewrite apply_set_timestamp. reflexivity.
  - rewrite update_one_ids; [exact Hall|]. intros d. rewrite apply_set_book. reflexivity.
Qed.

End DetectorFacts.

(** *** The change detector on the books of the tests *)

Section DetectorExamples.

Import Models Repository Detector Spec Scenario.

Local Abbreviation run := (process_book dumps digest clock uuid).
Local Abbreviation test_url := (BookCreate.source_url test_book).

Lemma first_crawl_stores_test_book :
  stored store_after_first_crawl test_url = Some stored_test_book.
Proof. vm_compute. reflexivity. Qed.

Lemma first_crawl_unique_ids : unique_ids store_after_first_crawl.
Proof. unfold unique_ids. vm_compute. apply NoDup_singleton. Qed.

Lemma test_book_storable : storable test_book.
Proof. unfold storable, valid_rating. simpl. lia. Qed.

(** C1, the statement of the specification refuted: the change type of
    the record for a book seen for the first time is ["new_book"], not
    ["new_item"]. *)
Lemma new_book_kind_is_not_new_item :
  stored empty_database test_url = None
  /\ exists change_log,
       fst (run test_book empty_database) = Returned (Some change_log)
       /\ ChangeLogCreate.change_type change_log = "new_book"
       /\ ChangeLogCreate.change_type change_log <> "new_item".
Proof.
  split; [reflexivity|]. eexists. split; [vm_compute; reflexivity|].
  split; [reflexivity | discriminate].
Qed.

Lemma process_new_book_witness :
  exists change_log,
    fst (run test_book empty_database) = Returned (Some change_log)
    /\ ChangeLogCreate.change_type change_log = "new_book"
    /\ ChangeLogCreate.changed_fields change_log = ∅
    /\ ChangeLogCreate.new_values change_log = model_dump test_book
    /\ stored (snd (run test_book empty_database)) test_url = Some stored_test_book.
Proof.
  destruct (process_new_book dumps digest clock uuid empty_database test_book eq_refl
              test_book_storable eq_refl)
    as (cl & db' & book & entry & Hp & Hty & Hch & _ & Hnew & _ & _ & Hst & Hbook & _).
  exists cl. rewrite Hp. cbn [fst snd]. rewrite Hst, Hbook.
  split; [reflexivity|]. split; [exact Hty|]. split; [exact Hch|].
  split; [exact Hnew | reflexivity].
Defined.

(** A new item with a rating of seven stars: the document is inserted,
    then [Book] raises; no record is returned and none is logged, and the
    next call for this URL raises when it reads the document. *)
Example seven_stars_are_stored_and_raise :
  stored empty_database (BookCreate.source_url test_book_seven_stars) = None
  /\ fst (run test_book_seven_stars empty_database) = Raised "ValidationError"
  /\ Book.rating
       <$> stored (snd (run test_book_seven_stars empty_database))
             (BookCreate.source_url test_book_seven_stars)
     = Some 7
  /\ change_logs (snd (run test_book_seven_stars empty_database)) = []
  /\ fst (run test_book (snd (run test_book_seven_stars empty_database)))
     = Raised "ValidationError".
Proof. repeat split; vm_compute; reflexivity. Qed.

(** A new item with more reviews than 8 bytes hold: [insert_one] raises
    and nothing is stored. *)
Example many_reviews_are_not_stored :
  fst (run test_book_many_reviews empty_database) = Raised "OverflowError"
  /\ books (snd (run test_book_many_reviews empty_database)) = []
  /\ change_logs (snd (run test_book_many_reviews empty_database)) = [].
Proof. repeat split; vm_compute; reflexivity. Qed.

(** C3, the code at the price drop of tests/test_change_detector.py.  The
    book of the tests is stored at 19.99 and crawled again at 15.99: the
    comparison finds the two prices changed and the change type is
    ["price_change"], the stored book is updated to 15.99 with the new
    fingerprint, and the first call ends in the [ValidationError] of
    [ChangeLogCreate] instead of returning a change record; nothing is
    appended to the change log; and the second call with the same item
    returns [None], so that no record of the price drop is ever made. *)
Theorem price_drop_raises :
  stored store_after_first_crawl test_url = Some stored_test_book
  /\ (exists ci, _detect_changes stored_test_book test_book_cheaper = Some ci
                 /\ changed_fields ci = ["price_including_tax"; "price_excluding_tax"]
                 /\ _determine_change_type (changed_fields ci) = "price_change")
  /\ fst (run test_book_cheaper store_after_first_crawl) = Raised "ValidationError"
  /\ Book.price_including_tax
       <$> stored (snd (run test_book_cheaper store_after_first_crawl)) test_url
     = Some 15.99%float
  /\ change_logs (snd (run test_book_cheaper store_after_first_crawl))
     = change_logs store_after_first_crawl
  /\ fst (run test_book_cheaper (snd (run test_book_cheaper store_after_first_crawl)))
     = Returned None
  /\ change_logs
       (snd (run test_book_cheaper (snd (run test_book_cheaper store_after_first_crawl))))
     = change_logs store_after_first_crawl.
Proof.
  split; [vm_compute; reflexivity|].
  split; [eexists; repeat split; vm_compute; reflexivity|].
  repeat split; vm_compute; reflexivity.
Qed.

(** A change of the description and of the number of reviews alone is not
    seen: the first call with the changed item returns [None]. *)
Example changed_item_yields_no_record :
  stored store_after_first_crawl (BookCreate.source_url test_book_described)
  = Some stored_test_book
  /\ (exists ci, _detect_changes stored_test_book test_book_described = Some ci
                 /\ changed_fields ci = ["description"; "number_of_reviews"])
  /\ fst (run test_book_described store_after_first_crawl) = Returned None.
Proof.
  split; [vm_compute; reflexivity|].
  split; [eexists; split; vm_compute; reflexivity|].
  vm_compute. reflexivity.
Qed.

Lemma description_change_goes_unnoticed_witness :
  Utils.generate_data_hash dumps digest (model_dump test_book_described)
  = digest (dumps (fingerprint_fields test_book_described))
  /\ fst (run test_book_described store_after_first_crawl) = Returned None
  /\ change_logs (snd (run test_book_described store_after_first_crawl))
     = change_logs store_after_first_crawl.
Proof.
  assert (Hcurrent : Book.data_hash stored_test_book
                     = Some (Utils.generate_data_hash dumps digest
                               (document stored_test_book)))
    by (vm_compute; reflexivity).
  assert (Hsame : same_significant_fields stored_test_book test_book_described)
    by (repeat split).
  assert (Hrating : valid_rating (BookCreate.rating test_book_described))
    by (unfold valid_rating; simpl; lia).
  destruct (description_change_goes_unnoticed dumps digest clock uuid
              store_after_first_crawl test_book_described stored_test_book
              first_crawl_stores_test_book first_crawl_unique_ids Hrating Hcurrent Hsame)
    as (Hfive & _ & _ & _ & Hnone & Hlog).
  split; [exact Hfive|]. split; [exact Hnone | exact Hlog].
Defined.

Lemma stale_fingerprint_is_kept_witness :
  run test_book_half_penny store_after_first_crawl
  = (Returned None, store_after_first_crawl).
Proof.
  assert (Hstale : Book.data_hash stored_test_book
                   <> Some (Utils.generate_data_hash dumps digest
                              (model_dump test_book_half_penny)))
    by (vm_compute; discriminate).
  assert (Hsame : no_field_differs stored_test_book test_book_half_penny)
    by (repeat split; vm_compute; reflexivity).
  assert (Hrating : valid_rating (BookCreate.rating test_book_half_penny))
    by (unfold valid_rating; simpl; lia).
  exact (proj1 (stale_fingerprint_is_kept dumps digest clock uuid
                  store_after_first_crawl test_book_half_penny stored_test_book
                  first_crawl_stores_test_book Hrating Hstale Hsame)).
Defined.

End DetectorExamples.

(* ===================================================================== *)
(** * Further properties of the code *)
(* ===================================================================== *)

(** ** The field-by-field comparison *)

Section DiffFacts.

Import Models Detector Spec.

(** The seven tests of [_detect_changes], taken apart. *)
Ltac seven_tests e b :=
  unfold _detect_changes, differing_fields, recorded;
  generalize (bool_decide (Book.name e ≠ BookCreate.name b)),
             (price_differs (Book.price_including_tax e) (BookCreate.price_including_tax b)),
             (price_differs (Book.price_excluding_tax e) (BookCreate.price_excluding_tax b)),
             (bool_decide (Book.availability e ≠ BookCreate.availability b)),
             (bool_decide (Book.rating e ≠ BookCreate.rating b)),
             (bool_decide (Book.description e ≠ BookCreate.description b)),
             (bool_decide (Book.number_of_reviews e ≠ BookCreate.number_of_reviews b));
  let d1 := fresh "d" in let d2 := fresh "d" in let d3 := fresh "d" in
  let d4 := fresh "d" in let d5 := fresh "d" in let d6 := fresh "d" in
  let d7 := fresh "d" in
  intros d1 d2 d3 d4 d5 d6 d7; destruct d1, d2, d3, d4, d5, d6, d7;
  cbn [note_change changed_fields old_values new_values no_changes app].

Lemma detect_changes_fields (e : Book.t) (b : BookCreate.t) :
  changed_fields <$> _detect_changes e b
  = match differing_fields e b with
    | [] => None
    | l => Some l
    end.
Proof. seven_tests e b; reflexivity. Qed.

(** [_detect_changes] returns [None] exactly when the names, the
    availabilities, the ratings, the descriptions and the numbers of
    reviews are equal and neither price differs by more than the
    tolerance. *)
Theorem detect_changes_none_iff (e : Book.t) (b : BookCreate.t) :
  _detect_changes e b = None <-> no_field_differs e b.
Proof.
  split; [|apply detect_changes_none].
  intros Hnone. pose proof (detect_changes_fields e b) as Hf.
  rewrite Hnone in Hf. cbn in Hf.
  assert (Hnil : differing_fields e b = []).
  { destruct (differing_fields e b); [reflexivity | discriminate Hf]. }
  clear Hf Hnone. unfold differing_fields in Hnil. unfold no_field_differs.
  assert (Hdec : forall (A : Type) `{EqDecision A} (x y : A),
             bool_decide (x ≠ y) = false -> x = y).
  { intros A ? x y Hb. apply bool_decide_eq_false_1 in Hb.
    destruct (decide (x = y)); [assumption | contradiction]. }
  destruct (bool_decide (Book.name e ≠ BookCreate.name b)) eqn:E1;
    [discriminate Hnil|].
  destruct (price_differs (Book.price_including_tax e) _) eqn:E2; [discriminate Hnil|].
  destruct (price_differs (Book.price_excluding_tax e) _) eqn:E3; [discriminate Hnil|].
  destruct (bool_decide (Book.availability e ≠ _)) eqn:E4; [discriminate Hnil|].
  destruct (bool_decide (Book.rating e ≠ _)) eqn:E5; [discriminate Hnil|].
  destruct (bool_decide (Book.description e ≠ _)) eqn:E6; [discriminate Hnil|].
  destruct (bool_decide (Book.number_of_reviews e ≠ _)) eqn:E7; [discriminate Hnil|].
  repeat split; first [assumption | eapply Hdec; eassumption].
Qed.

(** The changed fields come in the fixed order of the tests, none twice,
    and [old_values] and [new_values] have exactly the changed fields as
    keys. *)
Theorem detect_changes_keys (e : Book.t) (b : BookCreate.t) (ci : change_info) :
  _detect_changes e b = Some ci ->
  changed_fields ci = differing_fields e b
  /\ NoDup (changed_fields ci)
  /\ dom (old_values ci) = list_to_set (changed_fields ci)
  /\ dom (new_values ci) = list_to_set (changed_fields ci).
Proof.
  seven_tests e b; intros Hci; try discriminate Hci; injection Hci as <-;
    cbn [changed_fields old_values new_values app];
    (split; [reflexivity|]);
    (split; [refine (bool_decide_unpack _ _); vm_compute; exact I|]);
    split; refine (bool_decide_unpack _ _); vm_compute; exact I.
Qed.

Lemma detect_changes_keys_witness :
  exists ci, _detect_changes Scenario.stored_test_book Scenario.test_book_cheaper = Some ci
             /\ changed_fields ci = ["price_including_tax"; "price_excluding_tax"]
             /\ dom (old_values ci) = list_to_set (changed_fields ci).
Proof.
  destruct (_detect_changes Scenario.stored_test_book Scenario.test_book_cheaper)
    as [ci|] eqn:E; [|vm_compute in E; discriminate E].
  exists ci.
  destruct (detect_changes_keys _ _ ci E) as (Hf & _ & Hold & _).
  split; [reflexivity|]. split; [rewrite Hf; vm_compute; reflexivity | exact Hold].
Defined.

(** For each tracked field, [old_values] holds the stored value and
    [new_values] the crawled one when the field differs, and neither has
    an entry for it when it does not. *)
Theorem detect_changes_values (e : Book.t) (b : BookCreate.t) (ci : change_info) :
  _detect_changes e b = Some ci ->
  let name_differs := bool_decide (Book.name e ≠ BookCreate.name b) in
  let incl_differs :=
    price_differs (Book.price_including_tax e) (BookCreate.price_including_tax b) in
  let excl_differs :=
    price_differs (Book.price_excluding_tax e) (BookCreate.price_excluding_tax b) in
  let availability_differs :=
    bool_decide (Book.availability e ≠ BookCreate.availability b) in
  let rating_differs := bool_decide (Book.rating e ≠ BookCreate.rating b) in
  let description_differs :=
    bool_decide (Book.description e ≠ BookCreate.description b) in
  let reviews_differ :=
    bool_decide (Book.number_of_reviews e ≠ BookCreate.number_of_reviews b) in
  (old_values ci !! "name" = recorded name_differs (VStr (Book.name e))
   /\ new_values ci !! "name" = recorded name_differs (VStr (BookCreate.name b)))
  /\ (old_values ci !! "price_including_tax"
      = recorded incl_differs (VFloat (Book.price_including_tax e))
      /\ new_values ci !! "price_including_tax"
         = recorded incl_differs (VFloat (BookCreate.price_including_tax b)))
  /\ (old_values ci !! "price_excluding_tax"
      = recorded excl_differs (VFloat (Book.price_excluding_tax e))
      /\ new_values ci !! "price_excluding_tax"
         = recorded excl_differs (VFloat (BookCreate.price_excluding_tax b)))
  /\ (old_values ci !! "availability"
      = recorded availability_differs (VStr (Book.availability e))
      /\ new_values ci !! "availability"
         = recorded availability_differs (VStr (BookCreate.availability b)))
  /\ (old_values ci !! "rating" = recorded rating_differs (VInt (Book.rating e))
      /\ new_values ci !! "rating" = recorded rating_differs (VInt (BookCreate.rating b)))
  /\ (old_values ci !! "description"
      = recorded description_differs (opt_str (Book.description e))
      /\ new_values ci !! "description"
         = recorded description_differs (opt_str (BookCreate.description b)))
  /\ (old_values ci !! "number_of_reviews"
      = recorded reviews_differ (VInt (Book.number_of_reviews e))
      /\ new_values ci !! "number_of_reviews"
         = recorded reviews_differ (VInt (BookCreate.number_of_reviews b))).
Proof.
  seven_tests e b; intros Hci; try discriminate Hci; injection Hci as <-;
    cbn [changed_fields old_values new_values]; repeat split; reflexivity.
Qed.

Lemma detect_changes_values_witness :
  exists ci, _detect_changes Scenario.stored_test_book Scenario.test_book_cheaper = Some ci
             /\ old_values ci !! "price_including_tax" = Some (VFloat 19.99%float)
             /\ new_values ci !! "price_including_tax" = Some (VFloat 15.99%float).
Proof.
  destruct (_detect_changes Scenario.stored_test_book Scenario.test_book_cheaper)
    as [ci|] eqn:E; [|vm_compute in E; discriminate E].
  exists ci.
  destruct (detect_changes_values _ _ ci E) as (_ & [Hold Hnew] & _).
  split; [reflexivity|]. split; [rewrite Hold | rewrite Hnew]; reflexivity.
Defined.

(** The change type of a diff is ["other_change"] exactly when the number
    of reviews is the only field that changed. *)
Theorem other_change_iff_reviews_only (e : Book.t) (b : BookCreate.t)
    (ci : change_info) :
  _detect_changes e b = Some ci ->
  (_determine_change_type (changed_fields ci) = "other_change"
   <-> changed_fields ci = ["number_of_reviews"]).
Proof.
  seven_tests e b; intros Hci; try discriminate Hci; injection Hci as <-;
    cbn [changed_fields]; split; intros H;
    solve [reflexivity | discriminate H].
Qed.

Lemma other_change_iff_reviews_only_witness :
  exists ci, _detect_changes Scenario.stored_test_book Scenario.test_book_reviewed = Some ci
             /\ _determine_change_type (changed_fields ci) = "other_change".
Proof.
  destruct (_detect_changes Scenario.stored_test_book Scenario.test_book_reviewed)
    as [ci|] eqn:E; [|vm_compute in E; discriminate E].
  exists ci. split; [reflexivity|].
  apply (other_change_iff_reviews_only _ _ ci E).
  injection E as <-. reflexivity.
Defined.

(** The change type depends on which fields are in the list, not on
    their order or on repetitions. *)
Theorem determine_change_type_members (l1 l2 : list string) :
  (forall field, In field l1 <-> In field l2) ->
  _determine_change_type l1 = _determine_change_type l2.
Proof.
  intros Hsame.
  assert (Hin : forall field, list_in field l1 = list_in field l2).
  { intros field. destruct (list_in field l2) eqn:E.
    - apply list_in_spec, Hsame, list_in_spec, E.
    - apply list_in_false. intros H. apply Hsame in H.
      apply list_in_false in E. contradiction. }
  unfold _determine_change_type. rewrite !Hin. reflexivity.
Qed.

Lemma determine_change_type_members_witness :
  _determine_change_type ["rating"; "name"; "rating"]
  = _determine_change_type ["name"; "rating"].
Proof.
  apply determine_change_type_members. intros field. simpl. tauto.
Defined.

End DiffFacts.

(** ** The repository and the paths of the change detector *)

Section StoreFacts.

Import Models Repository Detector Spec.


(** An update that leaves the URLs alone changes no lookup by URL, except
    that the document found may be the updated one. *)
Lemma find_url_update_keep (url : string) (p : Book.t -> bool) (f : Book.t -> Book.t)
    (docs : list Book.t) :
  (forall d, Book.source_url (f d) = Book.source_url d) ->
  match find_one (by_url url) docs, find_one (by_url url) (update_one p f docs) with
  | Some x, Some y => y = x \/ y = f x
  | None, None => True
  | _, _ => False
  end.
Proof.
  intros Hurl. induction docs as [|d docs IH]; simpl; [exact I|].
  destruct (by_url url d) eqn:Ed.
  - destruct (p d); simpl.
    + unfold by_url in *. rewrite Hurl, Ed. right. reflexivity.
    + rewrite Ed. left. reflexivity.
  - destruct (p d); simpl.
    + unfold by_url in *. rewrite Hurl, Ed.
      destruct (find_one (fun b => String.eqb (Book.source_url b) url) docs);
        [left; reflexivity | exact I].
    + rewrite Ed. exact IH.
Qed.



Lemma fits_8_bytes_encodable (b : BookCreate.t) :
  fits_8_bytes b -> encodable (model_dump b) = true.
Proof.
  intros [Hn Hr]. rewrite encodable_model_dump.
  rewrite (proj2 (fits_int64_spec _) Hn), (proj2 (fits_int64_spec _) Hr). reflexivity.
Qed.

Variable json_dumps_sorted : gmap string pyval -> string.
Variable sha256_hexdigest : string -> string.
Variable utcnow : nat -> Z.
Variable uuid4 : nat -> string.

Local Abbreviation hash := (Utils.generate_data_hash json_dumps_sorted sha256_hexdigest).
Local Abbreviation process :=
  (process_book json_dumps_sorted sha256_hexdigest utcnow uuid4).
Local Abbreviation upsert :=
  (upsert_by_url json_dumps_sorted sha256_hexdigest utcnow uuid4).
Local Abbreviation create_book :=
  (Repository.create json_dumps_sorted sha256_hexdigest utcnow uuid4).

(** *** [upsert_by_url], [create], [update] *)


Lemma create_stores (db : database) (b : BookCreate.t) :
  storable b ->
  create_book b db
  = (Returned (book_of (uuid4 (uuid_draws db)) b (utcnow (clock_reads db)) "active"
                 (hash (model_dump b))),
     mk_database
       (books db ++ [book_of (uuid4 (uuid_draws db)) b (utcnow (clock_reads db)) "active"
                       (hash (model_dump b))])
       (change_logs db) (S (clock_reads db)) (S (uuid_draws db))).
Proof.
  intros Hstorable.
  pose proof (storable_encodable b Hstorable) as Hfits.
  rewrite encodable_model_dump in Hfits.
  destruct Hstorable as [Hrating _].
  unfold Repository.create, bind.
  cbn [now new_uuid books change_logs clock_reads uuid_draws].
  unfold insert_book, encodable_book.
  cbn [book_of Book.number_of_reviews Book.rating]. rewrite Hfits.
  rewrite new_Book_valid by exact Hrating.
  cbn [lift ret].
  replace (hash (<["status" := VStr "active"]>
                 (<["crawl_timestamp" := VDatetime (utcnow (clock_reads db))]>
                  (<["id" := VStr (uuid4 (uuid_draws db))]> (model_dump b)))))
    with (hash (model_dump b)) by (apply hash_five_keys; reflexivity).
  reflexivity.
Qed.


(** A book that can be stored, stored by [create] under a fresh id and
    under a URL that was not stored, is recognized by the change detector
    as unchanged: [create] stores the fingerprint that [process_book]
    computes. *)
Theorem create_then_process (db : database) (b : BookCreate.t) :
  storable b ->
  find_one (by_id (uuid4 (uuid_draws db))) (books db) = None ->
  stored db (BookCreate.source_url b) = None ->
  fst (process b (snd (create_book b db))) = Returned None
  /\ change_logs (snd (process b (snd (create_book b db)))) = change_logs db.
Proof.
  intros Hstorable Hfresh Hnew. rewrite (create_stores db b Hstorable). cbn [snd].
  set (book := book_of (uuid4 (uuid_draws db)) b (utcnow (clock_reads db)) "active"
                 (hash (model_dump b))).
  set (db1 := mk_database (books db ++ [book]) (change_logs db) (S (clock_reads db))
                (S (uuid_draws db))).
  assert (Hst : stored db1 (BookCreate.source_url b) = Some book).
  { unfold stored in *. cbn [db1 books]. rewrite (find_one_app _ _ _ Hnew).
    unfold by_url. cbn. rewrite String.eqb_refl. reflexivity. }
  assert (Hid : find_one (by_id (Book.id book)) (books db1) = Some book).
  { cbn [db1 books book Book.id book_of]. rewrite (find_one_app _ _ _ Hfresh).
    unfold by_id. cbn. rewrite String.eqb_refl. reflexivity. }
  rewrite (process_unchanged _ _ _ _ db1 b book Hst (proj1 Hstorable) Hid eq_refl).
  split; reflexivity.
Qed.

(** [update] with an id that no document has changes no document. *)
Theorem update_unknown_id (db : database) (book_id : string)
    (update_data : gmap string pyval) :
  find_one (by_id book_id) (books db) = None ->
  books (snd (update utcnow book_id update_data db)) = books db
  /\ change_logs (snd (update utcnow book_id update_data db)) = change_logs db.
Proof.
  intros Hnone. unfold update, bind.
  cbn [now books change_logs clock_reads uuid_draws].
  unfold update_book.
  destruct (encodable _); [|split; reflexivity].
  cbn [books change_logs clock_reads uuid_draws].
  unfold modified_count. rewrite Hnone. cbn [Nat.ltb Nat.leb ret snd books change_logs].
  split; [apply update_one_absent, Hnone | reflexivity].
Qed.

End StoreFacts.

Section StoreExamples.

Import Models Repository Detector Spec Scenario.



Lemma create_then_process_witness :
  fst (process_book dumps digest clock uuid test_book
         (snd (Repository.create dumps digest clock uuid test_book empty_database)))
  = Returned None.
Proof.
  exact (proj1 (create_then_process dumps digest clock uuid empty_database test_book
                  test_book_storable eq_refl eq_refl)).
Defined.

Lemma update_unknown_id_witness :
  books (snd (update clock "no-such-id" {["name" := VStr "Other"]} store_after_first_crawl))
  = books store_after_first_crawl.
Proof.
  assert (Hnone : find_one (by_id "no-such-id") (books store_after_first_crawl) = None)
    by (vm_compute; reflexivity).
  exact (proj1 (update_unknown_id clock store_after_first_crawl "no-such-id"
                  {["name" := VStr "Other"]} Hnone)).
Defined.

End StoreExamples.

(** ** What [process_book] and [process_books] write *)

Section ProcessFacts.

Import Models Repository Detector Spec.

Variable json_dumps_sorted : gmap string pyval -> string.
Variable sha256_hexdigest : string -> string.
Variable utcnow : nat -> Z.
Variable uuid4 : nat -> string.

Local Abbreviation hash := (Utils.generate_data_hash json_dumps_sorted sha256_hexdigest).
Local Abbreviation process :=
  (process_book json_dumps_sorted sha256_hexdigest utcnow uuid4).
Local Abbreviation process_all :=
  (process_books json_dumps_sorted sha256_hexdigest utcnow uuid4).
Local Abbreviation process_loop :=
  (process_books_loop json_dumps_sorted sha256_hexdigest utcnow uuid4).

(** When the stored book, in a collection with unique ids, has a rating
    that [Book] accepts and the fingerprint of the item, [process_book]
    returns [None], appends no change log, adds no document, and every
    lookup by URL finds the book it found before, with at most another
    [crawl_timestamp]. *)
Theorem process_unchanged_refreshes (db : database) (b : BookCreate.t) (e : Book.t) :
  stored db (BookCreate.source_url b) = Some e ->
  unique_ids db ->
  valid_rating (Book.rating e) ->
  Book.data_hash e = Some (hash (model_dump b)) ->
  fst (process b db) = Returned None
  /\ change_logs (snd (process b db)) = change_logs db
  /\ length (books (snd (process b db))) = length (books db)
  /\ forall url,
       match stored db url, stored (snd (process b db)) url with
       | Some x, Some y => same_but_timestamp x y
       | None, None => True
       | _, _ => False
       end.
Proof.
  intros Hstored Hunique Hvalid Hhash.
  assert (Hid : find_one (by_id (Book.id e)) (books db) = Some e).
  { apply unique_ids_find; [exact Hunique|]. exact (find_one_In _ _ _ Hstored). }
  rewrite (process_unchanged _ _ _ _ db b e Hstored Hvalid Hid Hhash).
  cbn [fst snd books change_logs]. split; [reflexivity|]. split; [reflexivity|].
  split; [apply update_one_length|].
  intros url. unfold stored. cbn [books].
  pose proof (find_url_update_keep url (by_id (Book.id e))
                (apply_set
                   (<["crawl_timestamp" := VDatetime (utcnow (S (clock_reads db)))]>
                    {["crawl_timestamp" := VDatetime (utcnow (clock_reads db))]}))
                (books db)) as Hkeep.
  destruct (find_one (by_url url) (books db)) as [x|];
    destruct (find_one (by_url url) (update_one _ _ (books db))) as [y|];
    try (apply Hkeep; intros d; rewrite apply_set_timestamp; reflexivity).
  assert (Hy : y = x \/ y = apply_set
                 (<["crawl_timestamp" := VDatetime (utcnow (S (clock_reads db)))]>
                  {["crawl_timestamp" := VDatetime (utcnow (clock_reads db))]}) x).
  { apply Hkeep. intros d. rewrite apply_set_timestamp. reflexivity. }
  destruct Hy as [-> | ->].
  - exists (Book.crawl_timestamp x). destruct x; reflexivity.
  - rewrite apply_set_timestamp. eexists. reflexivity.
Qed.

(** When the stored book has a rating that [Book] accepts, its
    fingerprint differs from that of the item, the comparison finds a
    difference and the integers of the item fit 8 bytes, [process_book]
    writes the fields and the fingerprint of the item into the stored
    book and then ends in a [ValidationError] (that of [ChangeLogCreate],
    or before it that of [Book] when the item has a rating outside of 0
    to 5): no change log is appended and no record returned. *)
Theorem process_changed_updates_and_raises (db : database) (b : BookCreate.t)
    (e : Book.t) (ci : change_info) :
  stored db (BookCreate.source_url b) = Some e ->
  valid_rating (Book.rating e) ->
  fits_8_bytes b ->
  Book.data_hash e <> Some (hash (model_dump b)) ->
  _detect_changes e b = Some ci ->
  fst (process b db) = Raised "ValidationError"
  /\ change_logs (snd (process b db)) = change_logs db
  /\ length (books (snd (process b db))) = length (books db)
  /\ exists e', stored (snd (process b db)) (BookCreate.source_url b) = Some e'
                /\ holds_item e' b
                /\ Book.data_hash e' = Some (hash (model_dump b)).
Proof.
  intros Hstored Hvalid Hfits Hhash Hdiff.
  rewrite (process_changed _ _ _ _ db b e ci Hstored Hvalid Hhash Hdiff
             (fits_8_bytes_encodable b Hfits)).
  cbn [fst snd books change_logs]. split; [reflexivity|]. split; [reflexivity|].
  split; [apply update_one_length|].
  unfold stored in *. cbn [books].
  destruct (find_url_after_update_by_id (BookCreate.source_url b)
              (apply_set
                 (<["crawl_timestamp" := VDatetime (utcnow (clock_reads db))]>
                  (<["data_hash" := VStr (hash (model_dump b))]> (model_dump b))))
              (books db) e) as [d Hf].
  - intros d. rewrite apply_set_book. reflexivity.
  - exact Hstored.
  - rewrite Hf. eexists. split; [reflexivity|]. rewrite apply_set_book.
    split; [repeat split | reflexivity].
Qed.

(** One call: the log grows by the record returned, if any, and no book
    is removed. *)
Lemma process_book_logged (db : database) (b : BookCreate.t) :
  exists entries,
    change_logs (snd (process b db)) = (change_logs db ++ entries)%list
    /\ map as_create entries
       = match fst (process b db) with
         | Returned (Some change_log) => [change_log]
         | _ => []
         end
    /\ (length (books db) <= length (books (snd (process b db))))%nat.
Proof.
  destruct (process_book_cases json_dumps_sorted sha256_hexdigest utcnow uuid4 db b)
    as [H|[H|[H|[H|[(e & r & H & Hr)|[H|[(e & H)|H]]]]]]]; rewrite H;
    cbn [fst snd books change_logs].
  - exists []. rewrite app_nil_r. repeat split; lia.
  - exists []. rewrite app_nil_r, length_app. repeat split. simpl. lia.
  - eexists [_]. split; [reflexivity|]. split; [reflexivity|].
    rewrite length_app. simpl. lia.
  - exists []. rewrite app_nil_r. repeat split; lia.
  - exists []. rewrite app_nil_r, update_one_length.
    split; [reflexivity|]. split; [|lia]. destruct Hr as [-> | ->]; reflexivity.
  - exists []. rewrite app_nil_r. repeat split; lia.
  - exists []. rewrite app_nil_r, update_one_length. repeat split; lia.
  - exists []. rewrite app_nil_r. repeat split; lia.
Qed.

Lemma process_loop_logged (l : list BookCreate.t) :
  forall acc db,
  exists entries,
    change_logs (snd (process_loop l acc db)) = (change_logs db ++ entries)%list
    /\ fst (process_loop l acc db) = (acc ++ map as_create entries)%list
    /\ (length (books db) <= length (books (snd (process_loop l acc db))))%nat.
Proof.
  induction l as [|b l IH]; intros acc db.
  - exists []. simpl. rewrite !app_nil_r. repeat split; lia.
  - destruct (process_book_logged db b) as (es & Hlog & Hrec & Hlen).
    cbn [process_books_loop].
    destruct (process b db) as [[[cl|]|exc] db1]; cbn [fst snd] in *.
    + destruct (IH (acc ++ [cl])%list db1) as (es' & Hlog' & Hrec' & Hlen').
      exists (es ++ es')%list. rewrite Hlog', Hlog, Hrec', map_app, Hrec.
      rewrite <- !app_assoc. repeat split; lia.
    + destruct (IH acc db1) as (es' & Hlog' & Hrec' & Hlen').
      exists (es ++ es')%list. rewrite Hlog', Hlog, Hrec', map_app, Hrec.
      rewrite <- !app_assoc. repeat split; lia.
    + destruct (IH acc db1) as (es' & Hlog' & Hrec' & Hlen').
      exists (es ++ es')%list. rewrite Hlog', Hlog, Hrec', map_app, Hrec.
      rewrite <- !app_assoc. repeat split; lia.
Qed.

(** [process_books] only appends to the change log, the records it
    returns are exactly the entries it appended, in order, and it removes
    no book, whatever happens with the single items. *)
Theorem process_books_logged (l : list BookCreate.t) (db : database) :
  exists entries,
    change_logs (snd (process_all l db)) = (change_logs db ++ entries)%list
    /\ fst (process_all l db) = map as_create entries
    /\ (length (books db) <= length (books (snd (process_all l db))))%nat.
Proof.
  destruct (process_loop_logged l [] db) as (es & Hlog & Hrec & Hlen).
  exists es. unfold process_books. rewrite Hlog, Hrec. repeat split. exact Hlen.
Qed.

End ProcessFacts.

(** ** More on the fetcher *)

Section FetchFacts.

Import Crawl Spec.

Variable settings : Settings.
Variable server : string -> nat -> response.
Variable backoff_sleep : float -> Z -> option (outcome unit).

Local Abbreviation fetch := (_fetch_with_retry settings server backoff_sleep).
Local Abbreviation loop := (fetch_loop settings server backoff_sleep).
Local Abbreviation pause := (backoff backoff_sleep).

(** One iteration whose sleep, if there is one, comes to its end. *)
Lemma fetch_loop_step remaining attempt url m bf c :
  0 < max_concurrent settings ->
  backoff_sleep bf attempt = Some (Returned tt) ->
  loop (S remaining) attempt url m bf c
  = match server url (gets_of url (trace c)) with
    | Response status text =>
        if status =? 200 then (Some (Returned (Some text)), emit (Get url) c)
        else if status =? 404 then (Some (Returned None), emit (Get url) c)
        else loop remaining (attempt + 1) url m bf
               (if attempt <? m - 1 then emit (Sleep bf attempt) (emit (Get url) c)
                else emit (Get url) c)
    | _ => loop remaining (attempt + 1) url m bf
             (if attempt <? m - 1 then emit (Sleep bf attempt) (emit (Get url) c)
              else emit (Get url) c)
    end.
Proof.
  intros Hplaces Hsleep. cbn [fetch_loop]. rewrite (proj2 (Z.leb_gt _ _) Hplaces).
  unfold backoff. rewrite Hsleep.
  destruct (server url (gets_of url (trace c))) as [status text| |];
    destruct (attempt <? m - 1); reflexivity.
Qed.

Lemma fetch_loop_decisive (k : nat) :
  forall remaining attempt url m bf c status text,
    0 < max_concurrent settings ->
    (k < remaining)%nat ->
    (forall i, (i < k)%nat -> retried (server url (gets_of url (trace c) + i))) ->
    (forall i, (i < k)%nat -> backoff_sleep bf (attempt + Z.of_nat i) = Some (Returned tt)) ->
    server url (gets_of url (trace c) + k) = Response status text ->
    status = 200 \/ status = 404 ->
    fst (loop remaining attempt url m bf c)
    = Some (Returned (if status =? 200 then Some text else None))
    /\ gets_of url (trace (snd (loop remaining attempt url m bf c)))
       = (gets_of url (trace c) + S k)%nat.
Proof.
  induction k as [|k IH];
    intros remaining attempt url m bf c status text Hplaces Hk Hre Hsleep Hans Hst;
    (destruct remaining as [|remaining]; [lia|]).
  - cbn [fetch_loop]. rewrite (proj2 (Z.leb_gt _ _) Hplaces).
    rewrite Nat.add_0_r in Hans. rewrite Hans.
    destruct Hst as [-> | ->]; cbn [Z.eqb Pos.eqb fst snd];
      rewrite gets_of_emit_get; split; (reflexivity || lia).
  - pose proof (Hre O ltac:(lia)) as H0. rewrite Nat.add_0_r in H0.
    pose proof (Hsleep O ltac:(lia)) as Hs0. rewrite Z.add_0_r in Hs0.
    rewrite (fetch_loop_step remaining attempt url m bf c Hplaces Hs0).
    set (c2 := if attempt <? m - 1 then emit (Sleep bf attempt) (emit (Get url) c)
               else emit (Get url) c).
    assert (Hgets : gets_of url (trace c2) = S (gets_of url (trace c))).
    { subst c2. destruct (attempt <? m - 1); apply gets_of_emit_get. }
    destruct (IH remaining (attempt + 1) url m bf c2 status text) as [Hr Hg].
    + exact Hplaces.
    + lia.
    + intros i Hi. rewrite Hgets.
      replace (S (gets_of url (trace c)) + i)%nat
        with (gets_of url (trace c) + S i)%nat by lia.
      apply Hre. lia.
    + intros i Hi. replace (attempt + 1 + Z.of_nat i) with (attempt + Z.of_nat (S i)) by lia.
      apply Hsleep. lia.
    + rewrite Hgets.
      replace (S (gets_of url (trace c)) + k)%nat
        with (gets_of url (trace c) + S k)%nat by lia.
      exact Hans.
    + exact Hst.
    + rewrite Hgets in Hg.
      destruct (server url (gets_of url (trace c))) as [st body| |].
      * destruct H0 as [H200 H404]. apply Z.eqb_neq in H200, H404.
        rewrite H200, H404. split; [exact Hr | rewrite Hg; lia].
      * split; [exact Hr | rewrite Hg; lia].
      * split; [exact Hr | rewrite Hg; lia].
Qed.

(** The first answer that is a 200 or a 404 decides: if the semaphore of
    the crawler has a place, the answers before it are tried again, the
    sleeps after them come to their end, and it comes within
    [max_attempts] requests, a 200 makes [_fetch_with_retry] return its
    text and a 404 makes it return [None], in both cases without a further
    request. *)
Theorem fetch_first_decisive (url : string) (max_attempts : option Z)
    (backoff_factor : option float) (c : crawler) (k : nat) :
  0 < max_concurrent_requests settings ->
  (k < Z.to_nat (or_int max_attempts (retry_max_attempts settings)))%nat ->
  (forall i, (i < k)%nat -> retried (server url (gets_of url (trace c) + i))) ->
  (forall i, (i < k)%nat ->
     backoff_sleep (or_float backoff_factor (retry_backoff_factor settings)) (Z.of_nat i)
     = Some (Returned tt)) ->
  (forall text,
      server url (gets_of url (trace c) + k) = Response 200 text ->
      fst (fetch url max_attempts backoff_factor c) = Some (Returned (Some text))
      /\ gets_of url (trace (snd (fetch url max_attempts backoff_factor c)))
         = (gets_of url (trace c) + S k)%nat)
  /\ (forall text,
        server url (gets_of url (trace c) + k) = Response 404 text ->
        fst (fetch url max_attempts backoff_factor c) = Some (Returned None)
        /\ gets_of url (trace (snd (fetch url max_attempts backoff_factor c)))
           = (gets_of url (trace c) + S k)%nat).
Proof.
  intros Hplaces Hk Hre Hsleep. unfold _fetch_with_retry.
  split; intros text Hans.
  - apply (fetch_loop_decisive k _ 0 url _ _ (emit (Fetch url) c) 200 text Hplaces Hk Hre
             Hsleep Hans).
    left; reflexivity.
  - apply (fetch_loop_decisive k _ 0 url _ _ (emit (Fetch url) c) 404 text Hplaces Hk Hre
             Hsleep Hans).
    right; reflexivity.
Qed.

Lemma gets_of_emit_other u url c :
  u <> url -> gets_of u (trace (emit (Get url) c)) = gets_of u (trace c).
Proof.
  intros Hne. unfold gets_of. simpl.
  destruct (String.eqb_spec url u) as [Heq|_]; [congruence | reflexivity].
Qed.

Lemma fetch_loop_bound (remaining : nat) :
  forall attempt url m bf c,
    (gets_of url (trace (snd (loop remaining attempt url m bf c)))
     <= gets_of url (trace c) + remaining)%nat
    /\ forall u, u <> url ->
         gets_of u (trace (snd (loop remaining attempt url m bf c)))
         = gets_of u (trace c).
Proof.
  induction remaining as [|remaining IH]; intros attempt url m bf c; cbn [fetch_loop].
  - split; [cbn; lia | reflexivity].
  - destruct (max_concurrent settings <=? 0); [split; [cbn; lia | reflexivity]|].
    assert (Hstop : (gets_of url (trace (emit (Get url) c))
                     <= gets_of url (trace c) + S remaining)%nat
                    /\ forall u, u <> url ->
                         gets_of u (trace (emit (Get url) c)) = gets_of u (trace c)).
    { split; [rewrite gets_of_emit_get; lia | intros u Hne; apply gets_of_emit_other, Hne]. }
    assert (Hpause : forall c1,
               (gets_of url (trace c1) <= gets_of url (trace c) + 1)%nat /\
               (forall u, u <> url -> gets_of u (trace c1) = gets_of u (trace c)) ->
               (gets_of url (trace (snd (pause attempt m bf c1)))
                <= gets_of url (trace c) + 1)%nat /\
               (forall u, u <> url ->
                  gets_of u (trace (snd (pause attempt m bf c1))) = gets_of u (trace c))).
    { intros c1 [H1 H2]. split; [rewrite backoff_gets; exact H1|].
      intros u Hne. rewrite backoff_gets. exact (H2 u Hne). }
    assert (Hnext : forall c2,
               (gets_of url (trace c2) <= gets_of url (trace c) + 1)%nat /\
               (forall u, u <> url -> gets_of u (trace c2) = gets_of u (trace c)) ->
               (gets_of url (trace (snd (loop remaining (attempt + 1) url m bf c2)))
                <= gets_of url (trace c) + S remaining)%nat /\
               (forall u, u <> url ->
                  gets_of u (trace (snd (loop remaining (attempt + 1) url m bf c2)))
                  = gets_of u (trace c))).
    { intros c2 [H1 H2]. destruct (IH (attempt + 1) url m bf c2) as [Hle Hother].
      split; [lia|]. intros u Hne. rewrite (Hother u Hne). exact (H2 u Hne). }
    assert (Hone : (gets_of url (trace (emit (Get url) c)) <= gets_of url (trace c) + 1)%nat /\
                   (forall u, u <> url ->
                      gets_of u (trace (emit (Get url) c)) = gets_of u (trace c))).
    { split; [rewrite gets_of_emit_get; lia | intros u Hne; apply gets_of_emit_other, Hne]. }
    assert (Hhandler : forall c1,
               (gets_of url (trace c1) <= gets_of url (trace c) + 1)%nat /\
               (forall u, u <> url -> gets_of u (trace c1) = gets_of u (trace c)) ->
               (gets_of url
                  (trace (snd (match pause attempt m bf c1 with
                               | (Some (Returned _), c2) =>
                                   loop remaining (attempt + 1) url m bf c2
                               | (Some (Raised exc), c2) => (Some (Raised exc), c2)
                               | (None, c2) => (None, c2)
                               end)))
                <= gets_of url (trace c) + S remaining)%nat /\
               (forall u, u <> url ->
                  gets_of u
                    (trace (snd (match pause attempt m bf c1 with
                                 | (Some (Returned _), c2) =>
                                     loop remaining (attempt + 1) url m bf c2
                                 | (Some (Raised exc), c2) => (Some (Raised exc), c2)
                                 | (None, c2) => (None, c2)
                                 end)))
                  = gets_of u (trace c))).
    { intros c1 H1. pose proof (Hpause c1 H1) as H2.
      destruct (pause attempt m bf c1) as [[[[]|exc]|] c2]; cbn [snd] in *.
      - apply Hnext, H2.
      - destruct H2 as [H2 H3]. split; [lia | exact H3].
      - destruct H2 as [H2 H3]. split; [lia | exact H3]. }
    destruct (server url (gets_of url (trace c))) as [status text| |].
    + destruct (status =? 200); [exact Hstop|].
      destruct (status =? 404); [exact Hstop|].
      pose proof (Hpause _ Hone) as H2.
      destruct (pause attempt m bf (emit (Get url) c)) as [[[[]|exc]|] c2]; cbn [snd] in *.
      * apply Hnext, H2.
      * apply Hhandler, H2.
      * destruct H2 as [H2 H3]. split; [lia | exact H3].
    + apply Hhandler, Hone.
    + apply Hhandler, Hone.
Qed.

(** Whatever the server answers, one call of [_fetch_with_retry] issues at
    most [max_attempts] requests for its URL and none for another URL. *)
Theorem fetch_request_bound (url : string) (max_attempts : option Z)
    (backoff_factor : option float) (c : crawler) :
  (gets_of url (trace (snd (fetch url max_attempts backoff_factor c)))
   <= gets_of url (trace c)
      + Z.to_nat (or_int max_attempts (retry_max_attempts settings)))%nat
  /\ forall u, u <> url ->
       gets_of u (trace (snd (fetch url max_attempts backoff_factor c)))
       = gets_of u (trace c).
Proof.
  unfold _fetch_with_retry.
  destruct (fetch_loop_bound (Z.to_nat (or_int max_attempts (retry_max_attempts settings)))
              0 url (or_int max_attempts (retry_max_attempts settings))
              (or_float backoff_factor (retry_backoff_factor settings))
              (emit (Fetch url) c)) as [Hle Hother].
  split; [exact Hle | exact Hother].
Qed.

Lemma sleep_exponents_get url c :
  sleep_exponents (trace (emit (Get url) c)) = sleep_exponents (trace c).
Proof. reflexivity. Qed.

Lemma sleep_exponents_sleep bf attempt c :
  sleep_exponents (trace (emit (Sleep bf attempt) c))
  = (sleep_exponents (trace c) ++ [attempt])%list.
Proof. reflexivity. Qed.

Lemma fetch_loop_sleeps (remaining : nat) :
  forall attempt url m bf c,
    0 < max_concurrent settings ->
    0 <= attempt ->
    attempt + Z.of_nat remaining = m ->
    (forall n, retried (server url n)) ->
    sleeps_return backoff_sleep bf m ->
    sleep_exponents (trace (snd (loop remaining attempt url m bf c)))
    = (sleep_exponents (trace c)
       ++ map (fun i => attempt + Z.of_nat i) (seq 0 (remaining - 1)))%list.
Proof.
  induction remaining as [|remaining IH];
    intros attempt url m bf c Hplaces Hattempt Hm Hre Hsleep.
  - simpl. rewrite app_nil_r. reflexivity.
  - cbn [fetch_loop]. rewrite (proj2 (Z.leb_gt _ _) Hplaces).
    rewrite (backoff_returns _ attempt m bf _ Hsleep Hattempt).
    assert (Hnext :
      sleep_exponents
        (trace (snd (loop remaining (attempt + 1) url m bf
                       (if attempt <? m - 1
                        then emit (Sleep bf attempt) (emit (Get url) c)
                        else emit (Get url) c))))
      = (sleep_exponents (trace c)
         ++ map (fun i => attempt + Z.of_nat i) (seq 0 (S remaining - 1)))%list).
    { rewrite (IH (attempt + 1) url m bf _ Hplaces ltac:(lia) ltac:(lia) Hre Hsleep).
      destruct remaining as [|remaining].
      - assert (Hlast : (attempt <? m - 1) = false) by (apply Z.ltb_ge; lia).
        rewrite Hlast. reflexivity.
      - assert (Hmore : (attempt <? m - 1) = true) by (apply Z.ltb_lt; lia).
        rewrite Hmore, sleep_exponents_sleep, sleep_exponents_get.
        replace (S (S remaining) - 1)%nat with (S remaining) by lia.
        replace (S remaining - 1)%nat with remaining by lia.
        rewrite <- app_assoc. f_equal. cbn [seq map app]. f_equal; [lia|].
        rewrite <- seq_shift, map_map. apply map_ext. intros i. lia. }
    pose proof (Hre (gets_of url (trace c))) as Hn.
    destruct (server url (gets_of url (trace c))) as [status text| |].
    + destruct Hn as [H200 H404]. apply Z.eqb_neq in H200, H404.
      rewrite H200, H404. exact Hnext.
    + exact Hnext.
    + exact Hnext.
Qed.

(** When every request fails, the semaphore of the crawler has a place and
    the sleeps of the backoff come to their end, the fetcher sleeps
    between two attempts and not after the last: with [max_attempts]
    attempts the exponents of the sleeps are 0, 1, ..., [max_attempts -
    2], in this order. *)
Theorem fetch_backoff_schedule (url : string) (max_attempts : option Z)
    (backoff_factor : option float) (c : crawler) :
  0 < max_concurrent_requests settings ->
  (forall n, retried (server url n)) ->
  sleeps_return backoff_sleep (or_float backoff_factor (retry_backoff_factor settings))
    (or_int max_attempts (retry_max_attempts settings)) ->
  sleep_exponents (trace (snd (fetch url max_attempts backoff_factor c)))
  = (sleep_exponents (trace c)
     ++ map Z.of_nat
          (seq 0 (Z.to_nat (or_int max_attempts (retry_max_attempts settings)) - 1)))%list.
Proof.
  intros Hplaces Hre Hsleep. unfold _fetch_with_retry.
  set (m := or_int max_attempts (retry_max_attempts settings)) in *.
  destruct (Z_le_gt_dec m 0) as [Hneg|Hpos].
  - replace (Z.to_nat m) with O by lia. simpl. rewrite app_nil_r. reflexivity.
  - rewrite (fetch_loop_sleeps (Z.to_nat m) 0 url m _ _ Hplaces ltac:(lia) ltac:(lia) Hre
               Hsleep).
    reflexivity.
Qed.

End FetchFacts.

(** ** More on the walk *)

Section WalkFacts.

Import Crawl Spec.

Variable settings : Settings.
Variable server : string -> nat -> response.
Variable backoff_sleep : float -> Z -> option (outcome unit).

Local Abbreviation fetch := (_fetch_with_retry settings server backoff_sleep).

Lemma visit_fetch_fetched url c :
  visited_are_fetched c ->
  visited_are_fetched (snd (fetch url None None (visit url c))).
Proof.
  intros Hinv u Hu. rewrite fetch_fetches. rewrite fetch_visited in Hu. simpl in Hu.
  destruct (String.eqb_spec url u) as [->|Hne]; [lia|].
  apply elem_of_union in Hu. destruct Hu as [Hu|Hu].
  - apply elem_of_singleton in Hu. congruence.
  - specialize (Hinv u Hu). simpl. lia.
Qed.

Section PagesMore.

Variable _parse_book_page : string -> string -> option BookCreate.t.

Local Abbreviation book := (crawl_book settings server backoff_sleep _parse_book_page).
Local Abbreviation gather := (gather_books settings server backoff_sleep _parse_book_page).

Local Abbreviation served := (Spec.served server _parse_book_page).

(** [crawl_book] a second time does nothing: the URL is marked whether
    its fetch succeeded or not, so a URL that failed is not tried again by
    the same crawler. *)
Theorem crawl_book_again (url : string) (c : crawler) :
  book url (snd (book url c)) = (Some (Returned None), snd (book url c)).
Proof.
  assert (Hin : url ∈ visited_urls (snd (book url c))).
  { rewrite book_state. destruct (bool_decide (url ∈ visited_urls c)) eqn:E.
    - apply bool_decide_eq_true_1 in E. exact E.
    - rewrite visit_fetch_visited. apply elem_of_union_l, elem_of_singleton. reflexivity. }
  unfold crawl_book at 1. rewrite bool_decide_eq_true_2 by exact Hin. reflexivity.
Qed.

Lemma book_served url c bk :
  fst (book url c) = Some (Returned (Some bk)) -> served bk.
Proof.
  unfold crawl_book. destruct (bool_decide (url ∈ visited_urls c)); [discriminate|].
  pose proof (fetch_served settings server backoff_sleep url None None (visit url c)) as Hs.
  destruct (fetch url None None (visit url c)) as [[[html|exc]|] c1]; cbn [fst] in *;
    [|discriminate|discriminate].
  destruct html as [text|]; cbn [truthy_str]; [|discriminate].
  destruct (String.eqb_spec text EmptyString) as [->|Hne]; cbn [negb]; [discriminate|].
  intros [= Hparse]. destruct (Hs text eq_refl) as [n Hn].
  exists url, text, n. cbn in Hparse. auto.
Qed.

Lemma book_fetched url c :
  visited_are_fetched c -> visited_are_fetched (snd (book url c)).
Proof.
  intros Hinv. rewrite book_state.
  destruct (bool_decide (url ∈ visited_urls c)); [exact Hinv|].
  apply visit_fetch_fetched, Hinv.
Qed.

Lemma gather_served urls : forall c results bk,
  fst (gather urls c) = Some results ->
  In bk (successes results) -> served bk.
Proof.
  induction urls as [|url rest IH]; intros c results bk; cbn [gather_books].
  - intros [= <-] [].
  - pose proof (book_served url c) as Hb.
    destruct (book url c) as [r c1]. cbn [fst] in Hb.
    pose proof (IH c1) as Hrest.
    destruct (gather rest c1) as [others c2]. cbn [fst] in *.
    destruct r as [r|]; [|discriminate]. destruct others as [others|]; [|discriminate].
    intros [= <-]. unfold successes. cbn [omap].
    destruct r as [[b0|]|exc].
    + cbn. intros [<-|Hin]; [apply Hb; reflexivity | exact (Hrest others bk eq_refl Hin)].
    + exact (Hrest others bk eq_refl).
    + exact (Hrest others bk eq_refl).
Qed.

Lemma gather_fetched urls : forall c,
  visited_are_fetched c -> visited_are_fetched (snd (gather urls c)).
Proof.
  induction urls as [|url rest IH]; intros c Hinv; [exact Hinv|].
  rewrite gather_state. apply IH, book_fetched, Hinv.
Qed.

Section WalkMore.

Variable _extract_book_urls_from_category : string -> string -> outcome (list string).
Variable _get_next_page_url : string -> string -> outcome (option string).

Local Abbreviation category_loop :=
  (crawl_category_loop settings server backoff_sleep _parse_book_page
     _extract_book_urls_from_category _get_next_page_url).
Local Abbreviation category :=
  (crawl_category settings server backoff_sleep _parse_book_page
     _extract_book_urls_from_category _get_next_page_url).
Local Abbreviation categories :=
  (crawl_categories settings server backoff_sleep _parse_book_page
     _extract_book_urls_from_category _get_next_page_url).

Lemma category_loop_served fuel : forall cur acc c books,
  (forall bk, In bk acc -> served bk) ->
  fst (category_loop fuel cur acc c) = Some (Returned books) ->
  forall bk, In bk books -> served bk.
Proof.
  induction fuel as [|fuel IH]; intros cur acc c books Hacc; cbn [crawl_category_loop].
  - destruct (truthy_str cur); [discriminate|]. intros [= <-]. exact Hacc.
  - destruct (truthy_str cur); [|intros [= <-]; exact Hacc].
    destruct (bool_decide (default EmptyString cur ∈ visited_urls c));
      [intros [= <-]; exact Hacc|].
    destruct (fetch (default EmptyString cur) None None (visit (default EmptyString cur) c))
      as [[[html|exc]|] c1]; [|discriminate|discriminate].
    destruct (truthy_str html); [|intros [= <-]; exact Hacc].
    destruct (_extract_book_urls_from_category (default EmptyString html)
                (default EmptyString cur)) as [book_urls|exc]; [|discriminate].
    pose proof (gather_served book_urls c1) as Hg.
    destruct (gather book_urls c1) as [[page_books|] c2]; [|discriminate].
    cbn [fst] in Hg.
    destruct (_get_next_page_url (default EmptyString html) (default EmptyString cur))
      as [next|exc]; [|discriminate].
    apply IH.
    intros bk Hin. apply in_app_or in Hin. destruct Hin as [Hin|Hin];
      [apply Hacc, Hin | exact (Hg page_books bk eq_refl Hin)].
Qed.

Lemma category_loop_fetched fuel cur acc c :
  visited_are_fetched c -> visited_are_fetched (snd (category_loop fuel cur acc c)).
Proof.
  apply category_loop_inv.
  - intros url c' _. apply visit_fetch_fetched.
  - intros urls c'. apply gather_fetched.
Qed.

(** After an iteration of the loop its URL is marked. *)
Lemma category_loop_marks fuel url acc c :
  url <> EmptyString ->
  url ∈ visited_urls (snd (category_loop (S fuel) (Some url) acc c)).
Proof.
  intros Hurl.
  destruct (bool_decide (url ∈ visited_urls c)) eqn:E.
  - apply bool_decide_eq_true_1 in E.
    rewrite (visited_page_ends_walk settings server backoff_sleep _parse_book_page
               _extract_book_urls_from_category _get_next_page_url fuel url acc c E).
    exact E.
  - cbn [crawl_category_loop truthy_str].
    destruct (String.eqb_spec url EmptyString) as [->|_]; [congruence|].
    cbn [negb default from_option id]. rewrite E.
    pose proof (visit_fetch_visited settings server backoff_sleep url c) as Hv.
    destruct (fetch url None None (visit url c)) as [[[html|exc]|] c1]; cbn [snd] in *.
    + assert (Hin : url ∈ visited_urls c1)
        by (rewrite Hv; apply elem_of_union_l, elem_of_singleton; reflexivity).
      destruct (truthy_str html); [|exact Hin].
      destruct (_extract_book_urls_from_category (default EmptyString html) url)
        as [book_urls|exc]; [|exact Hin].
      pose proof (gather_visited settings server backoff_sleep _parse_book_page
                    book_urls c1) as Hg.
      destruct (gather book_urls c1) as [[page_books|] c2]; cbn [snd] in *;
        [|apply Hg, Hin].
      destruct (_get_next_page_url (default EmptyString html) url) as [next|exc];
        [|apply Hg, Hin].
      apply (category_loop_visited settings server backoff_sleep _parse_book_page
               _extract_book_urls_from_category _get_next_page_url fuel).
      apply Hg, Hin.
    + rewrite Hv. apply elem_of_union_l, elem_of_singleton. reflexivity.
    + rewrite Hv. apply elem_of_union_l, elem_of_singleton. reflexivity.
Qed.

(** A category that was crawled is not crawled again: after a
    [crawl_category] that came to its end, a second [crawl_category] of
    the same URL returns the empty list and leaves the crawler as it is,
    without a request. *)
Theorem crawl_category_again (fuel fuel' : nat) (category_url : string)
    (c : crawler) (result : outcome (list BookCreate.t)) :
  fst (category fuel category_url c) = Some result ->
  category (S fuel') category_url (snd (category fuel category_url c))
  = (Some (Returned []), snd (category fuel category_url c)).
Proof.
  unfold crawl_category. intros Hdone.
  destruct (String.eqb_spec category_url EmptyString) as [->|Hurl].
  - destruct fuel; reflexivity.
  - apply visited_page_ends_walk.
    destruct fuel as [|fuel].
    + cbn [crawl_category_loop truthy_str] in Hdone.
      destruct (String.eqb_spec category_url EmptyString) as [Heq|_]; [congruence|].
      discriminate Hdone.
    + apply category_loop_marks, Hurl.
Qed.

Lemma categories_served fuel urls : forall acc c books,
  (forall bk, In bk acc -> served bk) ->
  fst (categories fuel urls acc c) = Some books ->
  forall bk, In bk books -> served bk.
Proof.
  induction urls as [|url rest IH]; intros acc c books Hacc; cbn [crawl_categories].
  - intros [= <-]. exact Hacc.
  - unfold crawl_category.
    pose proof (category_loop_served fuel (Some url) [] c) as Hcat.
    destruct (category_loop fuel (Some url) [] c) as [[[bs|exc]|] c1]; cbn [fst] in *;
      [| |discriminate].
    + apply IH. intros bk Hin. apply in_app_or in Hin. destruct Hin as [Hin|Hin];
        [apply Hacc, Hin|].
      apply (Hcat bs); [intros ? [] | reflexivity | exact Hin].
    + apply IH. exact Hacc.
Qed.

Lemma categories_fetched fuel urls : forall acc c,
  visited_are_fetched c -> visited_are_fetched (snd (categories fuel urls acc c)).
Proof.
  induction urls as [|url rest IH]; intros acc c Hinv; cbn [crawl_categories];
    [exact Hinv|].
  pose proof (category_loop_fetched fuel (Some url) [] c Hinv) as H1.
  unfold crawl_category.
  destruct (category_loop fuel (Some url) [] c) as [[[bs|exc]|] c1]; cbn [snd] in H1.
  - apply IH, H1.
  - apply IH, H1.
  - exact H1.
Qed.

Section RunMore.

Variable select_category_urls : string -> string -> outcome (list string).

Local Abbreviation all :=
  (crawl_all settings server backoff_sleep _parse_book_page
     _extract_book_urls_from_category _get_next_page_url select_category_urls).
Local Abbreviation all_categories :=
  (get_all_categories settings server backoff_sleep select_category_urls).

(** Every book that [crawl_all] returns was parsed from a page that the
    server answered with status 200 and a text that is not empty. *)
Theorem crawl_all_books_served (fuel : nat) (c : crawler) (books : list BookCreate.t) :
  fst (all fuel c) = Some (Returned books) ->
  forall bk, In bk books -> served bk.
Proof.
  unfold crawl_all. destruct (all_categories c) as [[[cats|exc]|] c1];
    [|discriminate|discriminate].
  pose proof (categories_served fuel cats [] c1) as Hc.
  destruct (categories fuel cats [] c1) as [[bs|] c2]; cbn [fst] in *; [|discriminate].
  intros [= <-]. apply (Hc bs); [intros ? [] | reflexivity].
Qed.

(** At the end of a run of [crawl_all] on a new crawler, whatever the
    fuel, a URL other than the base URL is marked as visited exactly when
    it was handed to the fetcher, and then it was handed to it once. *)
Theorem crawl_all_visited_iff_fetched (fuel : nat) (url : string) :
  url <> base_url settings ->
  (url ∈ visited_urls (snd (all fuel new_crawler))
   <-> fetches_of url (trace (snd (all fuel new_crawler))) = 1%nat).
Proof.
  intros Hne.
  pose proof (categories_budget settings server backoff_sleep _parse_book_page
                _extract_book_urls_from_category _get_next_page_url _ fuel
                (match fst (all_categories new_crawler) with
                 | Some (Returned urls) => urls
                 | _ => []
                 end)
                [] _ (root_budget settings server backoff_sleep) url) as Hb.
  assert (Hroot : visited_are_fetched (snd (fetch (base_url settings) None None new_crawler))).
  { intros u Hu. rewrite fetch_visited in Hu. cbn in Hu.
    exfalso. revert Hu. apply not_elem_of_empty. }
  pose proof (categories_fetched fuel
                (match fst (all_categories new_crawler) with
                 | Some (Returned urls) => urls
                 | _ => []
                 end)
                [] _ Hroot url) as Hf.
  rewrite <- all_state in Hb, Hf.
  destruct (String.eqb_spec (base_url settings) url) as [Heq|_]; [congruence|].
  destruct (bool_decide (url ∈ visited_urls (snd (all fuel new_crawler)))) eqn:E.
  - apply bool_decide_eq_true_1 in E. split; [intros _; specialize (Hf E); lia | intros _; exact E].
  - apply bool_decide_eq_false_1 in E. split; [contradiction | intros H1; lia].
Qed.

End RunMore.

End WalkMore.

End PagesMore.

End WalkFacts.

(** ** More on utils.py *)

Section UtilsFacts.

Import Utils Spec.

Lemma first_match_first (before after : list (string * Z)) (key : string) (value : Z)
    (text : string) :
  occurs key text ->
  (forall k v, In (k, v) before -> ~ occurs k text) ->
  first_match (before ++ (key, value) :: after) text = value.
Proof.
  intros Hocc. induction before as [|[k v] before IH]; intros Hno; cbn [app first_match].
  - apply str_in_spec in Hocc. rewrite Hocc. reflexivity.
  - destruct (str_in k text) eqn:E.
    + exfalso. apply (Hno k v); [left; reflexivity | apply str_in_spec, E].
    + apply IH. intros k' v' Hin. apply (Hno k' v'). right. exact Hin.
Qed.

(** The words of the table are tried in the order zero, one, ..., five,
    and the first that occurs in the lowercased, stripped text gives the
    result, whatever other words occur in it. *)
Theorem rating_first_word_wins (s : string) (before after : list (string * Z))
    (key : string) (value : Z) :
  rating_map = (before ++ (key, value) :: after)%list ->
  occurs key (normalized s) ->
  (forall k v, In (k, v) before -> ~ occurs k (normalized s)) ->
  rating_to_int s = value.
Proof.
  intros Hsplit Hocc Hno. unfold rating_to_int. fold (normalized s).
  rewrite Hsplit. apply first_match_first; assumption.
Qed.

Lemma rating_first_word_wins_witness : rating_to_int "Two or One" = 1.
Proof.
  apply (rating_first_word_wins "Two or One" [("zero", 0)]
           [("two", 2); ("three", 3); ("four", 4); ("five", 5)] "one" 1).
  - reflexivity.
  - apply str_in_spec. vm_compute. reflexivity.
  - intros k v [Hin|[]] Hocc. injection Hin as <- <-.
    apply str_in_spec in Hocc. vm_compute in Hocc. discriminate Hocc.
Defined.

Variable json_dumps_sorted : gmap string pyval -> string.
Variable sha256_hexdigest : string -> string.

Local Abbreviation hash := (generate_data_hash json_dumps_sorted sha256_hexdigest).

(** A dictionary that lacks some of the five keys has the fingerprint of
    the dictionary completed with the defaults: the empty string for the
    name and the availability, the integer 0 for the prices and the
    rating. *)
Theorem hash_missing_keys (data : gmap string pyval) :
  hash data = hash (data ∪ default_fields).
Proof.
  assert (Hget : forall key v,
             default_fields !! key = Some v ->
             dict_get (data ∪ default_fields) key v = dict_get data key v).
  { intros key v Hdef. unfold dict_get. rewrite lookup_union, Hdef.
    destruct (data !! key); reflexivity. }
  unfold generate_data_hash, significant_fields.
  rewrite !Hget by reflexivity. reflexivity.
Qed.

End UtilsFacts.

(** ** app/models/api.py *)

Section ApiFacts.

Import Api.

(** For a positive total and a positive page size, [create] sets
    [total_pages] to the number of pages needed: the last page is not
    empty and the pages hold every item; and a page number from 1 on is
    at most [total_pages] exactly when the offset of [query_books] for it
    lies before the end of the result. *)
Theorem total_pages_is_ceiling {T} (l : list T) (total page page_size : Z) :
  0 < total -> 0 < page_size ->
  exists r,
    create l total page page_size = Returned r
    /\ items r = l
    /\ 1 <= total_pages r
    /\ (total_pages r - 1) * page_size < total <= total_pages r * page_size
    /\ forall p, 1 <= p -> (p <= total_pages r <-> query_skip p page_size < total).
Proof.
  intros Htotal Hsize. unfold create.
  assert (Hlt : (0 <? total) = true) by (apply Z.ltb_lt; exact Htotal).
  assert (Hnz : (page_size =? 0) = false) by (apply Z.eqb_neq; lia).
  rewrite Hlt, Hnz. eexists. split; [reflexivity|]. cbn [items total_pages].
  pose proof (Z.div_mod (total + page_size - 1) page_size ltac:(lia)) as Hdm.
  pose proof (Z.mod_pos_bound (total + page_size - 1) page_size Hsize) as Hmod.
  set (q := (total + page_size - 1) / page_size) in *.
  split; [reflexivity|]. split; [nia|]. split; [nia|].
  intros p Hp. unfold query_skip. split; intros H; nia.
Qed.

Lemma total_pages_is_ceiling_witness :
  exists r, create [1; 2; 3] 45 1 20 = Returned r /\ total_pages r = 3.
Proof.
  destruct (total_pages_is_ceiling [1; 2; 3] 45 1 20 ltac:(lia) ltac:(lia))
    as (r & Hr & _ & _ & Hbounds & _).
  exists r. split; [exact Hr | lia].
Defined.

(** Without items there are no pages, whatever the page size; with items
    and a page size of 0 the division raises. *)
Theorem create_without_pages {T} (l : list T) (total page page_size : Z) :
  (total <= 0 ->
   create l total page page_size
   = Returned (mk_PaginatedResponse l total page page_size 0))
  /\ (0 < total -> page_size = 0 ->
      create l total page page_size = Raised "ZeroDivisionError").
Proof.
  unfold create. split.
  - intros H. assert (Hlt : (0 <? total) = false) by (apply Z.ltb_ge; exact H).
    rewrite Hlt. reflexivity.
  - intros H ->. assert (Hlt : (0 <? total) = true) by (apply Z.ltb_lt; exact H).
    rewrite Hlt. reflexivity.
Qed.

End ApiFacts.

(** ** A whole run *)

Section RunnerFacts.

Import Crawl Spec.

Variable json_dumps_sorted : gmap string pyval -> string.
Variable sha256_hexdigest : string -> string.
Variable utcnow : nat -> Z.
Variable uuid4 : nat -> string.
Variable settings : Settings.
Variable server : string -> nat -> response.
Variable backoff_sleep : float -> Z -> option (outcome unit).
Variable _parse_book_page : string -> string -> option BookCreate.t.
Variable _extract_book_urls_from_category : string -> string -> outcome (list string).
Variable _get_next_page_url : string -> string -> outcome (option string).
Variable select_category_urls : string -> string -> outcome (list string).

Local Abbreviation run :=
  (Runner.run_crawl json_dumps_sorted sha256_hexdigest utcnow uuid4 settings server
     backoff_sleep _parse_book_page _extract_book_urls_from_category _get_next_page_url
     select_category_urls).

(** When the main page cannot be fetched (its fetch by a new crawler
    returns no text, or raises), a run reports no change and leaves the
    database as it was. *)
Theorem run_crawl_root_failure (fuel : nat) (db : database) :
  match fst (_fetch_with_retry settings server backoff_sleep (base_url settings) None None
               new_crawler) with
  | Some (Returned html) => truthy_str html = false
  | Some (Raised _) => True
  | None => False
  end ->
  run fuel db = Some ([], db).
Proof.
  intros Hroot. unfold Runner.run_crawl.
  destruct (Crawler_init settings) as [crawler|exc] eqn:Hinit; [|reflexivity].
  assert (crawler = new_crawler) as ->.
  { unfold Crawler_init in Hinit. destruct (max_concurrent settings <? 0); congruence. }
  unfold crawl_all, get_all_categories.
  destruct (_fetch_with_retry settings server backoff_sleep (base_url settings) None None
              new_crawler) as [[[html|exc]|] c1]; cbn [fst] in Hroot.
  - rewrite Hroot. reflexivity.
  - reflexivity.
  - destruct Hroot.
Qed.

(** A run only appends to the change log, reports exactly the records it
    appended, and removes no book. *)
Theorem run_crawl_logged (fuel : nat) (db : database)
    (records : list ChangeLogCreate.t) (db' : database) :
  run fuel db = Some (records, db') ->
  exists entries,
    change_logs db' = (change_logs db ++ entries)%list
    /\ records = map as_create entries
    /\ (length (books db) <= length (books db'))%nat.
Proof.
  unfold Runner.run_crawl.
  destruct (Crawler_init settings) as [crawler|exc];
    [|intros [= <- <-]; exists []; rewrite app_nil_r; auto].
  destruct (crawl_all settings server backoff_sleep _parse_book_page
              _extract_book_urls_from_category _get_next_page_url select_category_urls
              fuel crawler)
    as [[[books|exc]|] c1].
  - intros [= Hrun].
    destruct (process_books_logged json_dumps_sorted sha256_hexdigest utcnow uuid4 books db)
      as (es & Hlog & Hrec & Hlen).
    rewrite Hrun in Hlog, Hrec, Hlen. cbn [fst snd] in *. exists es. auto.
  - intros [= <- <-]. exists []. rewrite app_nil_r. auto.
  - discriminate.
Qed.

End RunnerFacts.

(** ** The further properties on the books and sites of the examples *)

Section MoreExamples.

Import Models Repository Detector Crawl Spec Scenario.

Lemma process_unchanged_refreshes_witness :
  fst (process_book dumps digest clock uuid test_book_described store_after_first_crawl)
  = Returned None
  /\ length (books (snd (process_book dumps digest clock uuid test_book_described
                           store_after_first_crawl)))
     = length (books store_after_first_crawl).
Proof.
  assert (Hhash : Book.data_hash stored_test_book
                  = Some (Utils.generate_data_hash dumps digest
                            (model_dump test_book_described)))
    by (vm_compute; reflexivity).
  assert (Hvalid : valid_rating (Book.rating stored_test_book))
    by (unfold valid_rating; simpl; lia).
  destruct (process_unchanged_refreshes dumps digest clock uuid store_after_first_crawl
              test_book_described stored_test_book first_crawl_stores_test_book
              first_crawl_unique_ids Hvalid Hhash)
    as (Hnone & _ & Hlen & _).
  split; [exact Hnone | exact Hlen].
Defined.

Lemma process_changed_updates_and_raises_witness :
  fst (process_book dumps digest clock uuid test_book_cheaper store_after_first_crawl)
  = Raised "ValidationError"
  /\ change_logs (snd (process_book dumps digest clock uuid test_book_cheaper
                         store_after_first_crawl))
     = change_logs store_after_first_crawl.
Proof.
  assert (Hhash : Book.data_hash stored_test_book
                  <> Some (Utils.generate_data_hash dumps digest
                             (model_dump test_book_cheaper)))
    by (vm_compute; discriminate).
  assert (Hvalid : valid_rating (Book.rating stored_test_book))
    by (unfold valid_rating; simpl; lia).
  assert (Hfits : fits_8_bytes test_book_cheaper)
    by (unfold fits_8_bytes; simpl; lia).
  destruct (_detect_changes stored_test_book test_book_cheaper) as [ci|] eqn:Hdiff;
    [|vm_compute in Hdiff; discriminate Hdiff].
  destruct (process_changed_updates_and_raises dumps digest clock uuid
              store_after_first_crawl test_book_cheaper stored_test_book ci
              first_crawl_stores_test_book Hvalid Hfits Hhash Hdiff) as (Hraise & Hlog & _).
  split; [exact Hraise | exact Hlog].
Defined.

Lemma fetch_first_decisive_witness :
  fst (_fetch_with_retry default_settings server_flaky sleep_power page_a None None
         new_crawler)
  = Some (Returned (Some "page"))
  /\ gets_of page_a
       (trace (snd (_fetch_with_retry default_settings server_flaky sleep_power page_a
                      None None new_crawler))) = 3%nat.
Proof.
  assert (Hk : (2 < Z.to_nat (or_int None (retry_max_attempts default_settings)))%nat)
    by (vm_compute; lia).
  assert (Hre : forall i, (i < 2)%nat ->
                  retried (server_flaky page_a (gets_of page_a (trace new_crawler) + i))).
  { intros i Hi. destruct i as [|[|i]]; [| |lia]; simpl; split; lia. }
  assert (Hsleep : forall i, (i < 2)%nat ->
                     sleep_power (or_float None (retry_backoff_factor default_settings))
                       (Z.of_nat i) = Some (Returned tt)).
  { intros i Hi. destruct i as [|[|i]]; [| |lia]; vm_compute; reflexivity. }
  exact (proj1 (fetch_first_decisive default_settings server_flaky sleep_power page_a
                  None None new_crawler 2 ltac:(simpl; lia) Hk Hre Hsleep) "page" eq_refl).
Defined.

Lemma fetch_backoff_schedule_witness :
  sleep_exponents
    (trace (snd (_fetch_with_retry default_settings server_down sleep_power page_a None None
                   new_crawler))) = [0; 1].
Proof.
  assert (Hre : forall n, retried (server_down page_a n)) by (intros n; simpl; split; lia).
  rewrite (fetch_backoff_schedule default_settings server_down sleep_power page_a None None
             new_crawler ltac:(simpl; lia) Hre default_sleeps_return).
  reflexivity.
Defined.

(** With four attempts and a backoff factor of -1e200 the schedule breaks
    off: the sleeps of exponent 0 and 1 are taken, the power of exponent 2
    raises. *)
Example fetch_backoff_schedule_breaks_off :
  sleep_exponents
    (trace (snd (_fetch_with_retry default_settings server_down sleep_power page_a
                   (Some 4) (Some (-1e200)%float) new_crawler))) = [0; 1]
  /\ fst (_fetch_with_retry default_settings server_down sleep_power page_a
            (Some 4) (Some (-1e200)%float) new_crawler) = Some (Raised "OverflowError").
Proof. split; vm_compute; reflexivity. Qed.

Lemma crawl_category_again_witness :
  crawl_category default_settings server_cycle sleep_power parse_nothing no_links
    next_is_text 1 page_a
    (snd (crawl_category default_settings server_cycle sleep_power parse_nothing no_links
            next_is_text 3 page_a new_crawler))
  = (Some (Returned []),
     snd (crawl_category default_settings server_cycle sleep_power parse_nothing no_links
            next_is_text 3 page_a new_crawler)).
Proof.
  apply (crawl_category_again default_settings server_cycle sleep_power parse_nothing
           no_links next_is_text 3 0 page_a new_crawler (Returned [])).
  vm_compute. reflexivity.
Defined.

Lemma crawl_all_books_served_witness :
  fst (crawl_all default_settings server_up sleep_power parse_test_book links_test_book
         no_next one_category 3 new_crawler) = Some (Returned [test_book])
  /\ served server_up parse_test_book test_book.
Proof.
  assert (Hrun : fst (crawl_all default_settings server_up sleep_power parse_test_book
                        links_test_book no_next one_category 3 new_crawler)
                 = Some (Returned [test_book]))
    by (vm_compute; reflexivity).
  split; [exact Hrun|].
  apply (crawl_all_books_served default_settings server_up sleep_power parse_test_book
           links_test_book no_next one_category 3 new_crawler [test_book] Hrun).
  left. reflexivity.
Defined.

Lemma crawl_all_visited_iff_fetched_witness :
  fetches_of page_a
    (trace (snd (crawl_all default_settings server_up sleep_power parse_test_book
                   links_test_book no_next one_category 3 new_crawler))) = 1%nat.
Proof.
  apply (crawl_all_visited_iff_fetched default_settings server_up sleep_power
           parse_test_book links_test_book no_next one_category 3 page_a).
  - discriminate.
  - refine (bool_decide_unpack _ _). vm_compute. exact I.
Defined.

Lemma run_crawl_root_failure_witness :
  Runner.run_crawl dumps digest clock uuid default_settings server_down sleep_power
    parse_nothing no_links no_next one_category 5 store_after_first_crawl
  = Some ([], store_after_first_crawl).
Proof.
  apply run_crawl_root_failure. vm_compute. reflexivity.
Defined.

Lemma run_crawl_logged_witness :
  exists entries,
    change_logs
      (snd (process_books dumps digest clock uuid [test_book] empty_database))
    = entries
    /\ map as_create entries
       = fst (process_books dumps digest clock uuid [test_book] empty_database).
Proof.
  assert (Hrun : Runner.run_crawl dumps digest clock uuid default_settings server_up
                   sleep_power parse_test_book links_test_book no_next one_category 3
                   empty_database
                 = Some (process_books dumps digest clock uuid [test_book] empty_database))
    by (vm_compute; reflexivity).
  destruct (process_books dumps digest clock uuid [test_book] empty_database)
    as [records db'] eqn:Hp.
  destruct (run_crawl_logged dumps digest clock uuid default_settings server_up sleep_power
              parse_test_book links_test_book no_next one_category 3 empty_database
              records db' Hrun) as (entries & Hlog & Hrec & _).
  exists entries. cbn [fst snd]. split; [exact Hlog | symmetry; exact Hrec].
Defined.

End MoreExamples.
